(** * Agent run registry and event bus of the gateway (src/infra/agent-events.ts)

    A shallow embedding of the module-level state of [agent-events.ts]
    (the four collections [seqByRun], [listeners], [runContextById],
    [runCompletionCallbacks], the [runStartTimes] map and the pending
    [setTimeout] callbacks) and of its exported functions, written as
    state-passing functions over a [World] record.

    Conventions.
    - A JavaScript [Map] whose iteration order is observable
      ([runContextById]) is an association list in insertion order with
      the [Map] operations of module [JsMap]; the two maps that are only
      looked up ([seqByRun], [runStartTimes]) are [gmap]s.
    - A JavaScript string is a [string]; every character stands for the
      code unit of the same number (U+0000 .. U+00FF).
    - Counters, sizes and clock readings are integers in [Z].
    - A function that may throw returns a [Completion]: either it returns
      normally with the new state, or it throws and leaves the state it
      had reached.
    - Subscribers are functions over a state of their own, [Env]; through
      the exported getters they can read [runContextById].  A subscriber
      that calls back into [registerAgentRunContext],
      [clearAgentRunContext] or the subscription functions while it is
      being notified is outside this model. *)

From Stdlib Require Import ZArith String Ascii List Bool Lia.
From stdpp Require Import base decidable option list sorting gmap strings
  pretty.

Import ListNotations.
Local Open Scope string_scope.
Local Open Scope Z_scope.
Local Open Scope list_scope.

(** ** Values and completions *)

(** What a thrown value can be: the error kinds named by the
    specification's taxonomy, or any other JavaScript exception. *)
Inductive Exn : Type :=
| InvalidArgument
| TransientReadFailure
| CorruptConfig
| SupervisorUnreachable
| JsError (message : string).

(** Outcome of running a statement in state [S]. *)
Inductive Completion (S : Type) : Type :=
| Normal (s : S)
| Throw (e : Exn) (s : S).
Arguments Normal {S} s.
Arguments Throw {S} e s.

(** Sequencing: a throw skips the rest. *)
Definition andThen {S : Type} (c : Completion S) (k : S -> Completion S)
  : Completion S :=
  match c with
  | Normal s => k s
  | Throw e s => Throw e s
  end.

Notation "c >>> k" := (andThen c k) (at level 61, left associativity).

(** [try { c } catch { /* ignore */ }] *)
Definition tryCatchIgnore {S : Type} (c : Completion S) : Completion S :=
  match c with
  | Normal s => Normal s
  | Throw _ s => Normal s
  end.

(** [for (const x of xs) { body(x) }] over a collection that the body does
    not modify. *)
Fixpoint forOf {A S : Type} (xs : list A) (body : A -> S -> Completion S)
  (s : S) : Completion S :=
  match xs with
  | [] => Normal s
  | x :: xs' => body x s >>> forOf xs' body
  end.

Definition finalState {S : Type} (c : Completion S) : S :=
  match c with
  | Normal s => s
  | Throw _ s => s
  end.

(** A JavaScript value, as far as [typeof] tells values apart here. *)
Inductive JsValue : Type :=
| JsUndefined
| JsNull
| JsBoolean (b : bool)
| JsNumber (n : Z)
| JsString (s : string)
| JsObject (props : list (string * string)).

Definition typeofIsString (v : JsValue) : bool :=
  match v with
  | JsString _ => true
  | _ => false
  end.

(** Truthiness of a string: only the empty string is falsy. *)
Definition truthyString (s : string) : bool :=
  match s with
  | EmptyString => false
  | String _ _ => true
  end.

(** ** [String.prototype.trim] *)

(** WhiteSpace and LineTerminator code points below U+0100: TAB, LF, VT,
    FF, CR, SP and NBSP. *)
Definition isWhiteSpace (c : ascii) : bool :=
  let n := nat_of_ascii c in
  ((9 <=? n)%nat && (n <=? 13)%nat) || (n =? 32)%nat || (n =? 160)%nat.

Fixpoint trimStartChars (cs : list ascii) : list ascii :=
  match cs with
  | [] => []
  | c :: cs' => if isWhiteSpace c then trimStartChars cs' else cs
  end.

Definition trimChars (cs : list ascii) : list ascii :=
  rev (trimStartChars (rev (trimStartChars cs))).

Definition trim (s : string) : string :=
  string_of_list_ascii (trimChars (list_ascii_of_string s)).

(** ** JavaScript [Map] with string keys, in insertion order *)

Module JsMap.
Section JsMap.
Context {V : Type}.

Fixpoint get (k : string) (m : list (string * V)) : option V :=
  match m with
  | [] => None
  | (k', v) :: m' => if decide (k = k') then Some v else get k m'
  end.

Definition has (k : string) (m : list (string * V)) : bool :=
  match get k m with
  | Some _ => true
  | None => false
  end.

(** [m.set(k, v)]: an existing key keeps its place, a new key goes to
    the end. *)
Fixpoint set (k : string) (v : V) (m : list (string * V))
  : list (string * V) :=
  match m with
  | [] => [(k, v)]
  | (k', v') :: m' =>
      if decide (k = k') then (k, v) :: m' else (k', v') :: set k v m'
  end.

(** [m.delete(k)] *)
Fixpoint delete (k : string) (m : list (string * V)) : list (string * V) :=
  match m with
  | [] => []
  | (k', v') :: m' =>
      if decide (k = k') then delete k m' else (k', v') :: delete k m'
  end.

(** Assignment to fields of the object stored under [k]: the entry is
    changed where it stands. *)
Fixpoint mutate (f : V -> V) (k : string) (m : list (string * V))
  : list (string * V) :=
  match m with
  | [] => []
  | (k', v') :: m' =>
      if decide (k = k') then (k', f v') :: m' else (k', v') :: mutate f k m'
  end.

(** [Array.from(m.keys())] *)
Definition keys (m : list (string * V)) : list string := map fst m.

(** [m.size] *)
Definition size (m : list (string * V)) : Z := Z.of_nat (length m).

(** A [Map] holds each key once. *)
Definition wf (m : list (string * V)) : Prop := NoDup (keys m).
End JsMap.
End JsMap.

(** ** Data of [agent-events.ts] *)

(** [VerboseLevel] is declared in [auto-reply/thinking.ts]; the tests of
    this module use the literals ["off"], ["on"] and ["full"], all of them
    non-empty strings. *)
Inductive VerboseLevel : Type := VerboseOff | VerboseOn | VerboseFull.

Definition verboseLevelString (v : VerboseLevel) : string :=
  match v with
  | VerboseOff => "off"
  | VerboseOn => "on"
  | VerboseFull => "full"
  end.

Global Instance VerboseLevel_eq_dec : EqDecision VerboseLevel.
Proof. solve_decision. Defined.

Module AgentRunContext.
Record t : Type := mk {
    sessionKey : option string;
    verboseLevel : option VerboseLevel;
    isHeartbeat : option bool
}.
End AgentRunContext.

Module AgentEventPayload.
Record t : Type := mk {
    runId : string;
    seq : Z;
    stream : string;
    ts : Z;
    data : list (string * JsValue);
    sessionKey : option string
}.
End AgentEventPayload.

(** The argument of [emitAgentEvent]: a payload without [seq] and [ts].
    The [sessionKey] it carries is typed [string | undefined], but the
    function inspects it with [typeof], so any value can arrive. *)
Module AgentEvent.
Record t : Type := mk {
    runId : string;
    stream : string;
    data : list (string * JsValue);
    sessionKey : JsValue
}.
End AgentEvent.

Definition RunMap : Type := list (string * AgentRunContext.t).

Definition MAX_RUN_DURATION_MS : Z := 10 * 60 * 1000.

(** Calls of [agentLog]; the message text is kept as its parts. *)
Inductive LogMessage : Type :=
| AgentRunRegistered (runId : string) (totalActive : Z)
| AgentRunCleared (runId : string) (remainingActive : Z)
| ForceClearingStaleAgentRun (runId : string) (exceeded : Z).

Inductive LogEntry : Type :=
| LogDebug (msg : LogMessage)
| LogWarn (msg : LogMessage).

(** A callback handed to [setTimeout] by [registerAgentRunContext]: the
    closure over [runId], due at [due]. *)
Record Timer : Type := mkTimer {
  due : Z;
  timerRunId : string
}.

(** ** The module state *)

(** A function value: [fnRef] is its identity (what [Set] compares),
    [fnBody] what it does when called. *)
Record Fn (Body : Type) : Type := mkFn {
  fnRef : nat;
  fnBody : Body
}.
Arguments mkFn {Body} fnRef fnBody.
Arguments fnRef {Body} f.
Arguments fnBody {Body} f.

Section Registry.
Context {Env : Type}.

(** [() => void] passed to [onAgentRunComplete]. *)
Definition RunCompletionCallback : Type :=
  Fn (RunMap -> Env -> Completion Env).

(** [(evt: AgentEventPayload) => void] passed to [onAgentEvent]. *)
Definition Listener : Type :=
  Fn (AgentEventPayload.t -> RunMap -> Env -> Completion Env).

Record World : Type := mkWorld {
  seqByRun : gmap string Z;
  listeners : list Listener;
  runContextById : RunMap;
  runCompletionCallbacks : list RunCompletionCallback;
  runStartTimes : gmap string Z;
  (** pending [setTimeout] callbacks, in the order they were scheduled *)
  timers : list Timer;
  (** what [Date.now()] returns *)
  now : Z;
  (** calls of [agentLog], oldest first *)
  log : list LogEntry;
  (** the subscribers' own state *)
  env : Env
}.

Definition withSeqByRun (x : gmap string Z) (w : World) : World :=
  mkWorld x (listeners w) (runContextById w) (runCompletionCallbacks w)
    (runStartTimes w) (timers w) (now w) (log w) (env w).

Definition withListeners (x : list Listener) (w : World) : World :=
  mkWorld (seqByRun w) x (runContextById w) (runCompletionCallbacks w)
    (runStartTimes w) (timers w) (now w) (log w) (env w).

Definition withRunContextById (x : RunMap) (w : World) : World :=
  mkWorld (seqByRun w) (listeners w) x (runCompletionCallbacks w)
    (runStartTimes w) (timers w) (now w) (log w) (env w).

Definition withRunCompletionCallbacks (x : list RunCompletionCallback)
  (w : World) : World :=
  mkWorld (seqByRun w) (listeners w) (runContextById w) x
    (runStartTimes w) (timers w) (now w) (log w) (env w).

Definition withRunStartTimes (x : gmap string Z) (w : World) : World :=
  mkWorld (seqByRun w) (listeners w) (runContextById w)
    (runCompletionCallbacks w) x (timers w) (now w) (log w) (env w).

Definition withTimers (x : list Timer) (w : World) : World :=
  mkWorld (seqByRun w) (listeners w) (runContextById w)
    (runCompletionCallbacks w) (runStartTimes w) x (now w) (log w) (env w).

Definition withNow (x : Z) (w : World) : World :=
  mkWorld (seqByRun w) (listeners w) (runContextById w)
    (runCompletionCallbacks w) (runStartTimes w) (timers w) x (log w) (env w).

Definition withLog (x : list LogEntry) (w : World) : World :=
  mkWorld (seqByRun w) (listeners w) (runContextById w)
    (runCompletionCallbacks w) (runStartTimes w) (timers w) (now w) x (env w).

Definition withEnv (x : Env) (w : World) : World :=
  mkWorld (seqByRun w) (listeners w) (runContextById w)
    (runCompletionCallbacks w) (runStartTimes w) (timers w) (now w) (log w) x.

(** The module as loaded: every collection empty. *)
Definition initialWorld (t0 : Z) (e : Env) : World :=
  mkWorld ∅ [] [] [] ∅ [] t0 [] e.

(** ** Plumbing: logger, timers, calls of subscribers *)

Definition agentLog_debug (msg : LogMessage) (w : World) : World :=
  withLog (log w ++ [LogDebug msg]) w.

Definition agentLog_warn (msg : LogMessage) (w : World) : World :=
  withLog (log w ++ [LogWarn msg]) w.

(** [setTimeout(() => ..., delay)] with the closure of
    [registerAgentRunContext]. *)
Definition setTimeout (runId : string) (delay : Z) (w : World) : World :=
  withTimers (timers w ++ [mkTimer (now w + delay) runId]) w.

(** [callback()] *)
Definition callCallback (callback : RunCompletionCallback) (w : World)
  : Completion World :=
  match fnBody callback (runContextById w) (env w) with
  | Normal e => Normal (withEnv e w)
  | Throw x e => Throw x (withEnv e w)
  end.

(** [listener(enriched)] *)
Definition callListener (enriched : AgentEventPayload.t) (listener : Listener)
  (w : World) : Completion World :=
  match fnBody listener enriched (runContextById w) (env w) with
  | Normal e => Normal (withEnv e w)
  | Throw x e => Throw x (withEnv e w)
  end.

(** [Set.prototype.add] and [Set.prototype.delete] on a set of functions. *)
Definition setAdd {Body : Type} (f : Fn Body) (s : list (Fn Body))
  : list (Fn Body) :=
  if existsb (fun g => Nat.eqb (fnRef g) (fnRef f)) s then s else s ++ [f].

Definition setDelete {Body : Type} (f : Fn Body) (s : list (Fn Body))
  : list (Fn Body) :=
  List.filter (fun g => negb (Nat.eqb (fnRef g) (fnRef f))) s.

(** ** The exported functions *)

(** The three guarded assignments at the end of
    [registerAgentRunContext]. *)
Definition mergeContext (context existing : AgentRunContext.t)
  : AgentRunContext.t :=
  let existing :=
    match AgentRunContext.sessionKey context with
    | Some s =>
        if truthyString s
           && negb (bool_decide (AgentRunContext.sessionKey existing = Some s))
        then AgentRunContext.mk (Some s)
               (AgentRunContext.verboseLevel existing)
               (AgentRunContext.isHeartbeat existing)
        else existing
    | None => existing
    end in
  let existing :=
    match AgentRunContext.verboseLevel context with
    | Some v =>
        if truthyString (verboseLevelString v)
           && negb (bool_decide (AgentRunContext.verboseLevel existing = Some v))
        then AgentRunContext.mk (AgentRunContext.sessionKey existing)
               (Some v)
               (AgentRunContext.isHeartbeat existing)
        else existing
    | None => existing
    end in
  match AgentRunContext.isHeartbeat context with
  | Some b =>
      if negb (bool_decide (AgentRunContext.isHeartbeat existing = Some b))
      then AgentRunContext.mk (AgentRunContext.sessionKey existing)
             (AgentRunContext.verboseLevel existing)
             (Some b)
      else existing
  | None => existing
  end.

Definition registerAgentRunContext (runId : string)
  (context : AgentRunContext.t) (w : World) : Completion World :=
  if negb (truthyString runId) then Normal w
  else
    match JsMap.get runId (runContextById w) with
    | None =>
        let w := withRunContextById
                   (JsMap.set runId context (runContextById w)) w in
        let w := withRunStartTimes (<[runId := now w]> (runStartTimes w)) w in
        let w := setTimeout runId MAX_RUN_DURATION_MS w in
        Normal (agentLog_debug
                  (AgentRunRegistered runId (JsMap.size (runContextById w))) w)
    | Some existing =>
        Normal (withRunContextById
                  (JsMap.mutate (mergeContext context) runId (runContextById w))
                  w)
    end.

Definition getAgentRunContext (runId : string) (w : World)
  : option AgentRunContext.t :=
  JsMap.get runId (runContextById w).

Definition clearAgentRunContext (runId : string) (w : World)
  : Completion World :=
  let existed := JsMap.has runId (runContextById w) in
  let w := withRunContextById (JsMap.delete runId (runContextById w)) w in
  let w := withRunStartTimes (delete runId (runStartTimes w)) w in
  if existed then
    let w := agentLog_debug
               (AgentRunCleared runId (JsMap.size (runContextById w))) w in
    forOf (runCompletionCallbacks w)
      (fun callback w => tryCatchIgnore (callCallback callback w)) w
  else Normal w.

Definition onAgentRunComplete (callback : RunCompletionCallback) (w : World)
  : World :=
  withRunCompletionCallbacks (setAdd callback (runCompletionCallbacks w)) w.

(** The function returned by [onAgentRunComplete]. *)
Definition unsubscribeRunComplete (callback : RunCompletionCallback)
  (w : World) : World :=
  withRunCompletionCallbacks (setDelete callback (runCompletionCallbacks w)) w.

Definition getActiveAgentRunCount (w : World) : Z :=
  JsMap.size (runContextById w).

Definition getActiveAgentRunIds (w : World) : list string :=
  JsMap.keys (runContextById w).

Definition resetAgentRunContextForTest (w : World) : World :=
  withRunContextById [] w.

(** [context?.sessionKey] *)
Definition contextSessionKey (context : option AgentRunContext.t)
  : option string :=
  match context with
  | Some c => AgentRunContext.sessionKey c
  | None => None
  end.

(** The object [enriched] built by [emitAgentEvent], once [seqByRun] has
    been updated. *)
Definition enrichedPayload (event : AgentEvent.t) (nextSeq : Z) (w : World)
  : AgentEventPayload.t :=
  let context := JsMap.get (AgentEvent.runId event) (runContextById w) in
  let sessionKey :=
    match AgentEvent.sessionKey event with
    | JsString s =>
        if truthyString (trim s) then Some s else contextSessionKey context
    | _ => contextSessionKey context
    end in
  AgentEventPayload.mk (AgentEvent.runId event) nextSeq
    (AgentEvent.stream event) (now w) (AgentEvent.data event) sessionKey.

Definition emitAgentEvent (event : AgentEvent.t) (w : World)
  : Completion World :=
  let nextSeq := default 0 (seqByRun w !! AgentEvent.runId event) + 1 in
  let w := withSeqByRun (<[AgentEvent.runId event := nextSeq]> (seqByRun w)) w in
  let enriched := enrichedPayload event nextSeq w in
  forOf (listeners w)
    (fun listener w => tryCatchIgnore (callListener enriched listener w)) w.

Definition onAgentEvent (listener : Listener) (w : World) : World :=
  withListeners (setAdd listener (listeners w)) w.

Definition unsubscribeAgentEvent (listener : Listener) (w : World) : World :=
  withListeners (setDelete listener (listeners w)) w.

(** ** The timers *)

(** The closure scheduled by [registerAgentRunContext], when it runs. *)
Definition runTimer (t : Timer) (w : World) : Completion World :=
  if JsMap.has (timerRunId t) (runContextById w) then
    clearAgentRunContext (timerRunId t)
      (agentLog_warn
         (ForceClearingStaleAgentRun (timerRunId t) MAX_RUN_DURATION_MS) w)
  else Normal w.

Definition isDue (t : Z) (tm : Timer) : bool := due tm <=? t.

(** The clock moves on by [dt] with the program idle; the event loop then
    runs every timer that has come due, oldest first, and forgets it. *)
Definition advanceClock (dt : Z) (w : World) : Completion World :=
  let w := withNow (now w + dt) w in
  let dueNow := List.filter (isDue (now w)) (timers w) in
  let w := withTimers
             (List.filter (fun tm => negb (isDue (now w) tm)) (timers w)) w in
  forOf dueNow runTimer w.

End Registry.

Arguments World : clear implicits.
Arguments RunCompletionCallback : clear implicits.
Arguments Listener : clear implicits.

(** ** Histories *)

(** A call of the registry by an originator of work. *)
Inductive RegistryCall : Type :=
| CallRegister (runId : string) (context : AgentRunContext.t)
| CallClear (runId : string).

(** Anything that can happen to the module between two observations. *)
Inductive Op (Env : Type) : Type :=
| OpRegister (runId : string) (context : AgentRunContext.t)
| OpClear (runId : string)
| OpEmit (event : AgentEvent.t)
| OpOnAgentRunComplete (callback : RunCompletionCallback Env)
| OpUnsubscribeRunComplete (callback : RunCompletionCallback Env)
| OpOnAgentEvent (listener : Listener Env)
| OpUnsubscribeAgentEvent (listener : Listener Env)
| OpAdvanceClock (dt : Z).
Arguments OpRegister {Env} runId context.
Arguments OpClear {Env} runId.
Arguments OpEmit {Env} event.
Arguments OpOnAgentRunComplete {Env} callback.
Arguments OpUnsubscribeRunComplete {Env} callback.
Arguments OpOnAgentEvent {Env} listener.
Arguments OpUnsubscribeAgentEvent {Env} listener.
Arguments OpAdvanceClock {Env} dt.

Section Histories.
Context {Env : Type}.

Definition doCall (c : RegistryCall) (w : World Env) : Completion (World Env) :=
  match c with
  | CallRegister runId context => registerAgentRunContext runId context w
  | CallClear runId => clearAgentRunContext runId w
  end.

Definition runCalls (history : list RegistryCall) (w : World Env)
  : Completion (World Env) :=
  forOf history doCall w.

Definition doOp (o : Op Env) (w : World Env) : Completion (World Env) :=
  match o with
  | OpRegister runId context => registerAgentRunContext runId context w
  | OpClear runId => clearAgentRunContext runId w
  | OpEmit event => emitAgentEvent event w
  | OpOnAgentRunComplete callback => Normal (onAgentRunComplete callback w)
  | OpUnsubscribeRunComplete callback =>
      Normal (unsubscribeRunComplete callback w)
  | OpOnAgentEvent listener => Normal (onAgentEvent listener w)
  | OpUnsubscribeAgentEvent listener =>
      Normal (unsubscribeAgentEvent listener w)
  | OpAdvanceClock dt => advanceClock dt w
  end.

Definition runOps (ops : list (Op Env)) (w : World Env)
  : Completion (World Env) :=
  forOf ops doOp w.

(** What every subscriber has done to [e] once each of them was called,
    in the order of the collection, with the registry contents [m];
    whether one of them threw plays no role. *)
Definition afterCallbacks (callbacks : list (RunCompletionCallback Env))
  (m : RunMap) (e : Env) : Env :=
  fold_left (fun e callback => finalState (fnBody callback m e)) callbacks e.

Definition afterListeners (ls : list (Listener Env))
  (enriched : AgentEventPayload.t) (m : RunMap) (e : Env) : Env :=
  fold_left (fun e listener => finalState (fnBody listener enriched m e)) ls e.

(** The payload that [emitAgentEvent event] hands to the listeners when
    called in [w]. *)
Definition emittedPayload (event : AgentEvent.t) (w : World Env)
  : AgentEventPayload.t :=
  let nextSeq := default 0 (seqByRun w !! AgentEvent.runId event) + 1 in
  enrichedPayload event nextSeq
    (withSeqByRun (<[AgentEvent.runId event := nextSeq]> (seqByRun w)) w).

(** Number of [emitAgentEvent] calls for [runId] in a history. *)
Fixpoint emitCount (runId : string) (ops : list (Op Env)) : Z :=
  match ops with
  | [] => 0
  | OpEmit event :: ops' =>
      (if decide (AgentEvent.runId event = runId) then 1 else 0)
      + emitCount runId ops'
  | _ :: ops' => emitCount runId ops'
  end.

(** No call of the originator for [runId] in a history. *)
Definition mentionsRun (runId : string) (o : Op Env) : bool :=
  match o with
  | OpRegister runId' _ => bool_decide (runId' = runId)
  | OpClear runId' => bool_decide (runId' = runId)
  | _ => false
  end.

(** The call [clearAgentRunContext(runId)] by an originator. *)
Definition clearsRun (runId : string) (o : Op Env) : bool :=
  match o with
  | OpClear runId' => bool_decide (runId' = runId)
  | _ => false
  end.

End Histories.

(** The ids registered and not cleared since, read off the history of
    calls alone (oldest call first). *)
Definition registeredStep (ids : gset string) (c : RegistryCall) : gset string :=
  match c with
  | CallRegister runId _ => if truthyString runId then {[runId]} ∪ ids else ids
  | CallClear runId => ids ∖ {[runId]}
  end.

Definition registeredIds (history : list RegistryCall) : gset string :=
  fold_left registeredStep history ∅.

(** [createdAt runId i history cur]: position in the history of the call
    that created the record now held for [runId], if there is one.  [i] is
    the position of the first call of [history], [cur] the answer for the
    calls before it.  A registration creates the record when none is held;
    a clear drops it. *)
Fixpoint createdAt (runId : string) (i : nat) (history : list RegistryCall)
  (cur : option nat) : option nat :=
  match history with
  | [] => cur
  | CallRegister runId' _ :: history' =>
      createdAt runId (S i) history'
        (if bool_decide (runId' = runId) && truthyString runId'
         then match cur with
              | None => Some i
              | Some _ => cur
              end
         else cur)
  | CallClear runId' :: history' =>
      createdAt runId (S i) history'
        (if bool_decide (runId' = runId) then None else cur)
  end.

(** [a] was created before [b], both being held. *)
Definition createdBefore (birth : string -> option nat) (a b : string) : Prop :=
  exists na nb, birth a = Some na /\ birth b = Some nb /\ (na < nb)%nat.

(** The representation invariant of [runContextById]: a [Map] holds a key
    once, and the guard of [registerAgentRunContext] keeps the empty id
    out. *)
Definition wfWorld {Env : Type} (w : World Env) : Prop :=
  JsMap.wf (runContextById w) /\ "" ∉ JsMap.keys (runContextById w).

(** A string is blank when it consists of white space only. *)
Definition isBlank (s : string) : bool :=
  forallb isWhiteSpace (list_ascii_of_string s).

(** ** The restart coordinator *)

Module Coordinator.

(** Modelled from the spec: the restart coordinator of
    [src/gateway/config-reload.ts] is not among the sources (only its
    end-to-end test is); the definitions of this module follow section
    4.4 of the specification.  This one is the classification of a plan. *)
Inductive Classification : Type := NoOp | HotApply | RestartRequired | Rejected.

(** Modelled from the spec: a [ReloadPlan] (section 3), the absent
    planner's output: classification, changed fields, reason. *)
Record ReloadPlan : Type := mkPlan {
  classification : Classification;
  changedFields : list string;
  reason : string
}.

(** Modelled from the spec: the states of the absent coordinator. *)
Inductive State : Type := Idle | PlanQueued | Applying.

(** Modelled from the spec: what the absent coordinator logs (discarded
    plans, supersessions, an unreachable supervisor). *)
Inductive LogLine : Type :=
| Discarded (plan : ReloadPlan)
| Superseded (old new : ReloadPlan)
| SupervisorUnreachableLogged (reason : string).

(** Modelled from the spec: the state owned by the absent coordinator,
    the queued restart included, together with a record of the calls it
    has made to its two collaborators. *)
Record t : Type := mk {
  state : State;
  queuedRestart : option ReloadPlan;
  (** reasons of the restart requests made to the Lifecycle Bridge *)
  bridgeRequests : list string;
  (** plans handed to the hot-apply callback *)
  hotApplied : list ReloadPlan;
  coordinatorLog : list LogLine
}.

(** Modelled from the spec: the absent coordinator starts in [Idle]. *)
Definition initial : t := mk Idle None [] [] [].

Section Coordinator.
(** Whether the Lifecycle Bridge can be reached with a request. *)
Variable bridgeReachable : string -> bool.

(** Modelled from the spec: transition to [Applying] and invoke the
    Lifecycle Bridge's restart-request operation once; a failed delivery is
    logged as [SupervisorUnreachable] and the state stays [Applying]. *)
Definition requestRestart (why : string) (c : t) : t :=
  mk Applying None (bridgeRequests c ++ [why]) (hotApplied c)
    (if bridgeReachable why then coordinatorLog c
     else coordinatorLog c ++ [SupervisorUnreachableLogged why]).

(** Modelled from the spec: [evaluate(plan)], given [Registry.count()]. *)
Definition evaluatePlan (count : Z) (plan : ReloadPlan) (c : t) : t :=
  match classification plan with
  | NoOp | Rejected =>
      mk (state c) (queuedRestart c) (bridgeRequests c) (hotApplied c)
        (coordinatorLog c ++ [Discarded plan])
  | HotApply =>
      mk (state c) (queuedRestart c) (bridgeRequests c)
        (hotApplied c ++ [plan]) (coordinatorLog c)
  | RestartRequired =>
      if count =? 0 then requestRestart (reason plan) c
      else
        mk PlanQueued (Some plan) (bridgeRequests c) (hotApplied c)
          (match queuedRestart c with
           | Some old => coordinatorLog c ++ [Superseded old plan]
           | None => coordinatorLog c
           end)
  end.

(** Modelled from the spec: the registry completion callback
    [onRunCompleted], given the registry contents at the time of the
    notification. *)
Definition onRunCompleted (m : RunMap) (c : t) : t :=
  match state c, queuedRestart c with
  | PlanQueued, Some plan =>
      if JsMap.size m =? 0 then requestRestart (reason plan) c else c
  | _, _ => c
  end.

(** Modelled from the spec: the absent coordinator as a completion
    subscriber of the registry. *)
Definition subscriber : RunCompletionCallback t :=
  mkFn 0%nat (fun m c => Normal (onRunCompleted m c)).

(** Modelled from the spec: [evaluate(plan)] of the absent coordinator in
    the assembled system, reading the count from the registry. *)
Definition evaluate (plan : ReloadPlan) (w : World t) : World t :=
  withEnv (evaluatePlan (getActiveAgentRunCount w) plan (env w)) w.

End Coordinator.
End Coordinator.

(** ** Sample data *)

Definition noContext : AgentRunContext.t := AgentRunContext.mk None None None.

Definition mainContext : AgentRunContext.t :=
  AgentRunContext.mk (Some "main") (Some VerboseOff) (Some false).

Definition blankKeyContext : AgentRunContext.t :=
  AgentRunContext.mk (Some "") None None.

Definition updatedContext : AgentRunContext.t :=
  AgentRunContext.mk (Some "updated") (Some VerboseFull) (Some true).

(** A world without subscribers, at time 0. *)
Definition sampleWorld : World unit := initialWorld 0 tt.

(** A subscriber that records its number and the count it sees, and throws
    when [throws] is set. *)
Definition recorder (n : nat) (throws : bool)
  : RunCompletionCallback (list (nat * Z)) :=
  mkFn n
    (fun m e =>
       if throws then Throw (JsError "boom") (e ++ [(n, JsMap.size m)])
       else Normal (e ++ [(n, JsMap.size m)])).

(** A listener that records its number and the [seq] it is handed. *)
Definition seqRecorder (n : nat) (throws : bool) : Listener (list (nat * Z)) :=
  mkFn n
    (fun evt m e =>
       if throws then Throw (JsError "boom") (e ++ [(n, AgentEventPayload.seq evt)])
       else Normal (e ++ [(n, AgentEventPayload.seq evt)])).

Definition recordingWorld : World (list (nat * Z)) :=
  onAgentEvent (seqRecorder 2 false)
    (onAgentEvent (seqRecorder 1 true)
       (onAgentRunComplete (recorder 2 false)
          (onAgentRunComplete (recorder 1 true) (initialWorld 0 [])))).

Definition lifecycleEvent (runId : string) (key : JsValue) : AgentEvent.t :=
  AgentEvent.mk runId "lifecycle" [] key.

(** The assembled system of scenario A: the coordinator subscribed to an
    empty registry, and a plan that needs a restart. *)
Definition alwaysReachable (why : string) : bool := true.

Definition coordinatedWorld : World Coordinator.t :=
  onAgentRunComplete (Coordinator.subscriber alwaysReachable)
    (initialWorld 0 Coordinator.initial).

Definition restartPlan : Coordinator.ReloadPlan :=
  Coordinator.mkPlan Coordinator.RestartRequired ["gateway.testSetting"]
    "config change requires gateway restart".

(** ** Clock arithmetic over histories *)





(** ** Task routing (the second module of the file) *)

(** [String.prototype.toLowerCase] on code units below U+0100: the
    letters A-Z and the letters U+00C0 - U+00DE (the multiplication sign
    U+00D7 apart) move up by 32; every other code unit stays. *)
Definition toLowerCaseChar (c : ascii) : ascii :=
  let n := nat_of_ascii c in
  if (((65 <=? n) && (n <=? 90))
      || ((192 <=? n) && (n <=? 222) && negb (n =? 215)))%nat
  then ascii_of_nat (n + 32)
  else c.

Fixpoint toLowerCase (s : string) : string :=
  match s with
  | EmptyString => EmptyString
  | String c s' => String (toLowerCaseChar c) (toLowerCase s')
  end.

(** [hay.startsWith(needle)] *)
Fixpoint startsWith (hay needle : string) : bool :=
  match needle, hay with
  | EmptyString, _ => true
  | String _ _, EmptyString => false
  | String a needle', String b hay' =>
      if Ascii.eqb a b then startsWith hay' needle' else false
  end.

(** [hay.includes(needle)] *)
Fixpoint includes (hay needle : string) : bool :=
  match hay with
  | EmptyString => startsWith hay needle
  | String _ hay' => startsWith hay needle || includes hay' needle
  end.

Inductive TaskType : Type :=
| TaskFileAnalysis
| TaskCreative
| TaskDebugging
| TaskCli
| TaskGeneral.

Definition taskTypeString (t : TaskType) : string :=
  match t with
  | TaskFileAnalysis => "file-analysis"
  | TaskCreative => "creative"
  | TaskDebugging => "debugging"
  | TaskCli => "cli"
  | TaskGeneral => "general"
  end.

Definition detectTaskType (userMessage : JsValue) : TaskType :=
  match userMessage with
  | JsString userMessage =>
      if negb (truthyString userMessage) then TaskGeneral
      else
        let messageLower := toLowerCase userMessage in
        if includes messageLower "file"
           || includes messageLower "read"
           || includes messageLower "analyze"
           || includes messageLower "directory"
           || includes messageLower "folder"
           || includes messageLower "content of"
           || includes messageLower "examine"
           || includes messageLower "inspect"
           || includes messageLower "scan"
           || includes messageLower "browse"
           || includes messageLower "list files"
           || includes messageLower "show files"
        then TaskFileAnalysis
        else if includes messageLower "write"
                || includes messageLower "create"
                || includes messageLower "content"
                || includes messageLower "story"
                || includes messageLower "poem"
                || includes messageLower "article"
                || includes messageLower "compose"
                || includes messageLower "draft"
                || includes messageLower "generate"
                || includes messageLower "summarize"
                || includes messageLower "explain"
                || includes messageLower "describe"
        then TaskCreative
        else if includes messageLower "debug"
                || includes messageLower "error"
                || includes messageLower "fix"
                || includes messageLower "troubleshoot"
                || includes messageLower "complex"
                || includes messageLower "problem"
                || includes messageLower "issue"
                || includes messageLower "bug"
                || includes messageLower "broken"
                || includes messageLower "not working"
                || includes messageLower "failed"
                || includes messageLower "crash"
        then TaskDebugging
        else if includes messageLower "terminal"
                || includes messageLower "command"
                || includes messageLower "cli"
                || includes messageLower "exec"
                || includes messageLower "bash"
                || includes messageLower "shell"
                || includes messageLower "run"
                || includes messageLower "execute"
                || includes messageLower "script"
                || includes messageLower "install"
                || includes messageLower "update"
                || includes messageLower "upgrade"
        then TaskCli
        else TaskGeneral
  | _ => TaskGeneral
  end.

(** [TASK_TYPE_MODEL_MAPPING] *)
Definition TASK_TYPE_MODEL_MAPPING (taskType : TaskType) : string :=
  match taskType with
  | TaskFileAnalysis => "openrouter/google/gemini-2.0-flash"
  | TaskCreative => "openrouter/meta-llama/llama-3.3-70b-instruct"
  | TaskDebugging => "anthropic/claude-sonnet-4-5"
  | TaskCli => "openrouter/mistralai/mistral-devstral-2"
  | TaskGeneral => "openrouter/mistralai/mistral-devstral-2"
  end.

Section ModelRouting.
(** [ModelRef], [MoltbotConfig], [parseModelRef] and [DEFAULT_PROVIDER] are
    imported from modules that are not among the sources. *)
Variables ModelRef MoltbotConfig : Type.
Variable parseModelRef : string -> string -> option ModelRef.
Variable DEFAULT_PROVIDER : string.

Definition resolveModelForTaskType (taskType : TaskType) (_cfg : MoltbotConfig)
  : option ModelRef :=
  let modelRef := TASK_TYPE_MODEL_MAPPING taskType in
  parseModelRef modelRef DEFAULT_PROVIDER.

(** The argument of [resolveModelForAgentWithTaskRouting]. *)
Record RoutingParams : Type := mkRoutingParams {
  cfg : MoltbotConfig;
  agentId : option string;
  userMessage : option string;
  defaultModelRef : ModelRef
}.

Definition resolveModelForAgentWithTaskRouting (params : RoutingParams)
  : ModelRef :=
  match userMessage params with
  | Some message =>
      if truthyString message then
        let taskType := detectTaskType (JsString message) in
        let taskModel := resolveModelForTaskType taskType (cfg params) in
        match taskModel with
        | Some model => model
        | None => defaultModelRef params
        end
      else defaultModelRef params
  | None => defaultModelRef params
  end.

End ModelRouting.

(** The keywords of the four tests of [detectTaskType], in the order of
    the tests. *)
Definition fileAnalysisKeywords : list string :=
  ["file"; "read"; "analyze"; "directory"; "folder"; "content of"; "examine";
   "inspect"; "scan"; "browse"; "list files"; "show files"].

Definition creativeKeywords : list string :=
  ["write"; "create"; "content"; "story"; "poem"; "article"; "compose";
   "draft"; "generate"; "summarize"; "explain"; "describe"].

Definition debuggingKeywords : list string :=
  ["debug"; "error"; "fix"; "troubleshoot"; "complex"; "problem"; "issue";
   "bug"; "broken"; "not working"; "failed"; "crash"].

Definition cliKeywords : list string :=
  ["terminal"; "command"; "cli"; "exec"; "bash"; "shell"; "run"; "execute";
   "script"; "install"; "update"; "upgrade"].

Definition includesAny (hay : string) (keywords : list string) : bool :=
  existsb (includes hay) keywords.

(** Position of a task type in the order of the tests. *)
Definition taskPriority (t : TaskType) : nat :=
  match t with
  | TaskFileAnalysis => 0
  | TaskCreative => 1
  | TaskDebugging => 2
  | TaskCli => 3
  | TaskGeneral => 4
  end%nat.

(** A letter of the basic Latin alphabet, in either case. *)
Definition isBasicLetter (c : ascii) : bool :=
  let n := nat_of_ascii c in
  (((65 <=? n) && (n <=? 90)) || ((97 <=? n) && (n <=? 122)))%nat.

(** A stand-in for the model parser in examples: the provider is what
    precedes the first slash. *)
Definition sampleParseModelRef (modelRef defaultProvider : string)
  : option (string * string) :=
  match index 0 "/" modelRef with
  | Some i =>
      Some (substring 0 i modelRef,
            substring (S i) (String.length modelRef - S i) modelRef)
  | None => Some (defaultProvider, modelRef)
  end.

(** ** A caller: the load test of [test/e2e/load-test-concurrent-messages.ts] *)

(** [`${i}`] for an integer [i]. *)
Definition numberToString (i : Z) : string := pretty i.

(** [`high-concurrency-${i}`] *)
Definition highConcurrencyRunId (i : Z) : string :=
  "high-concurrency-" +:+ numberToString i.

(** The context the test registers run [i] with. *)
Definition highConcurrencyContext (i : Z) : AgentRunContext.t :=
  AgentRunContext.mk (Some ("test-session-" +:+ numberToString i))
    (Some VerboseOn) (Some false).

Section LoadTest.
Context {Env : Type}.

(** Time that passes while the test awaits its [i]-th
    [setTimeout(resolve, 5)]; the scheduler decides how much. *)
Variable elapsed : nat -> Z.

(** Time that has passed before iteration [i]. *)
Fixpoint elapsedBefore (i : nat) : Z :=
  match i with
  | O => 0
  | S i' => elapsedBefore i' + elapsed i'
  end.

(** One turn of the first loop of "should maintain accurate run count
    during high concurrency", on the module state and [activeCounts]. *)
Definition highConcurrencyIteration (maxConcurrent : nat)
  (st : World Env * list Z) (i : nat) : World Env * list Z :=
  let w :=
    finalState
      (registerAgentRunContext (highConcurrencyRunId (Z.of_nat i))
         (highConcurrencyContext (Z.of_nat i)) (fst st)) in
  let activeCounts := snd st ++ [getActiveAgentRunCount w] in
  let st :=
    if (maxConcurrent <=? i)%nat then
      let oldRunId :=
        highConcurrencyRunId (Z.of_nat i - Z.of_nat maxConcurrent) in
      let w := finalState (clearAgentRunContext oldRunId w) in
      (w, activeCounts ++ [getActiveAgentRunCount w])
    else (w, activeCounts) in
  (finalState (advanceClock (elapsed i) (fst st)), snd st).

(** The whole test body between server start and the expectations: the
    first loop over [0 .. runCount - 1], then the loop that clears the runs
    [runCount - maxConcurrent .. runCount - 1]. *)
Definition highConcurrencyTest (maxConcurrent runCount : nat) (w : World Env)
  : World Env * list Z :=
  let st :=
    fold_left (highConcurrencyIteration maxConcurrent) (seq 0 runCount)
      (w, []) in
  let w :=
    fold_left
      (fun w k =>
         finalState
           (clearAgentRunContext
              (highConcurrencyRunId
                 (Z.of_nat runCount - Z.of_nat maxConcurrent + Z.of_nat k))
              w))
      (seq 0 maxConcurrent) (fst st) in
  (w, snd st).

End LoadTest.

(** The counts the first loop records: after registering run [i], and
    after clearing run [i - maxConcurrent] once [i] has reached
    [maxConcurrent]. *)
Definition expectedActiveCounts (maxConcurrent runCount : nat) : list Z :=
  flat_map
    (fun i =>
       (Z.of_nat (Nat.min i maxConcurrent) + 1)
       :: (if (maxConcurrent <=? i)%nat then [Z.of_nat maxConcurrent] else []))
    (seq 0 runCount).

(** A scheduler that resumes the test exactly after the requested 5 ms. *)
Definition punctual (i : nat) : Z := 5.

(** ** What [agentLog] prints *)

(** The text handed to [agentLog.debug] and [agentLog.warn]. *)
Definition logMessageText (m : LogMessage) : string :=
  match m with
  | AgentRunRegistered runId totalActive =>
      "agent run registered: " +:+ runId +:+ " (total active: "
      +:+ numberToString totalActive +:+ ")"
  | AgentRunCleared runId remainingActive =>
      "agent run cleared: " +:+ runId +:+ " (remaining active: "
      +:+ numberToString remainingActive +:+ ")"
  | ForceClearingStaleAgentRun runId exceeded =>
      "force-clearing stale agent run: " +:+ runId +:+ " (exceeded "
      +:+ numberToString exceeded +:+ "ms)"
  end.

(** [process.env.DEBUG?.includes("agent") || process.env.DEBUG === "*"] *)
Definition debugEnabled (DEBUG : option string) : bool :=
  match DEBUG with
  | Some d => includes d "agent" || String.eqb d "*"
  | None => false
  end.

(** The lines that reach the console for a sequence of [agentLog] calls:
    [debug] prints when debugging is enabled, [warn] always. *)
Definition consoleLines (DEBUG : option string) (entries : list LogEntry)
  : list string :=
  flat_map
    (fun entry =>
       match entry with
       | LogDebug msg =>
           if debugEnabled DEBUG then ["[agent] " +:+ logMessageText msg]
           else []
       | LogWarn msg => ["[agent] " +:+ logMessageText msg]
       end)
    entries.

Definition newline : string := String "010" EmptyString.

(** A text file holding the given lines, each ended by a line feed. *)
Fixpoint linesToContent (lines : list string) : string :=
  match lines with
  | [] => ""
  | line :: lines' => line +:+ newline +:+ linesToContent lines'
  end.

(** ** The health monitor's count of active runs
    ([checkActiveAgentRuns] of [scripts/pm2-health-monitor.js]) *)

(** The character class [[a-f0-9-]]. *)
Definition isHexDash (c : ascii) : bool :=
  let n := nat_of_ascii c in
  (((97 <=? n) && (n <=? 102)) || ((48 <=? n) && (n <=? 57)) || (n =? 45))%nat.

(** The longest prefix matched by [[a-f0-9-]*]. *)
Fixpoint takeHexDash (s : string) : string :=
  match s with
  | EmptyString => EmptyString
  | String c s' => if isHexDash c then String c (takeHexDash s') else EmptyString
  end.

(** What is left of [hay] after the prefix [literal], if it has it. *)
Fixpoint stripPrefix (literal hay : string) : option string :=
  match literal, hay with
  | EmptyString, _ => Some hay
  | String _ _, EmptyString => None
  | String a literal', String b hay' =>
      if Ascii.eqb a b then stripPrefix literal' hay' else None
  end.

(** A match of [/literal([a-f0-9-]+)/] at the start of [hay]: its group. *)
Definition matchAt (literal hay : string) : option string :=
  match stripPrefix literal hay with
  | Some rest =>
      match takeHexDash rest with
      | EmptyString => None
      | String c group => Some (String c group)
      end
  | None => None
  end.

(** [line.match(/literal([a-f0-9-]+)/)]: group 1 of the leftmost match. *)
Fixpoint matchFirst (literal line : string) : option string :=
  match matchAt literal line with
  | Some group => Some group
  | None =>
      match line with
      | EmptyString => None
      | String _ line' => matchFirst literal line'
      end
  end.

(** [content.split('\n')] *)
Fixpoint splitLines (content : string) : list string :=
  match content with
  | EmptyString => [EmptyString]
  | String c content' =>
      if Ascii.eqb c "010" then EmptyString :: splitLines content'
      else
        match splitLines content' with
        | first :: others => String c first :: others
        | [] => [String c EmptyString]
        end
  end.

(** [lines.slice(-n)] *)
Definition sliceLast {A : Type} (n : nat) (l : list A) : list A :=
  skipn (length l - n) l.

(** The loop over the lines: the sets [registeredRuns] and [clearedRuns]. *)
Definition scanLine (sets : gset string * gset string) (line : string)
  : gset string * gset string :=
  let registeredRuns :=
    match matchFirst "agent run registered: " line with
    | Some runId => {[runId]} ∪ fst sets
    | None => fst sets
    end in
  let clearedRuns :=
    match matchFirst "agent run cleared: " line with
    | Some runId => {[runId]} ∪ snd sets
    | None => snd sets
    end in
  (registeredRuns, clearedRuns).

(** Today's gateway log as the monitor finds it. *)
Inductive LogFile : Type :=
| FileMissing
| FileUnreadable (message : string)
| FileContent (content : string).

(** The number [checkActiveAgentRuns] resolves with, and the error message
    it logs when reading fails. *)
Definition checkActiveAgentRuns (todayLog : LogFile) : Z * option string :=
  match todayLog with
  | FileMissing => (0, None)
  | FileUnreadable message => (0, Some message)
  | FileContent content =>
      let lines := sliceLast 50 (splitLines content) in
      let sets := fold_left scanLine lines (∅, ∅) in
      let activeRuns :=
        Z.of_nat (size (fst sets)) - Z.of_nat (size (snd sets)) in
      (Z.max 0 activeRuns, None)
  end.

(** The message of a log entry and the run id it names. *)
Definition logEntryMessage (entry : LogEntry) : LogMessage :=
  match entry with
  | LogDebug msg => msg
  | LogWarn msg => msg
  end.

Definition logMessageRunId (msg : LogMessage) : string :=
  match msg with
  | AgentRunRegistered runId _ => runId
  | AgentRunCleared runId _ => runId
  | ForceClearingStaleAgentRun runId _ => runId
  end.

(** A run id the monitor can read: not empty and made of [[a-f0-9-]]
    only, as a lower-case UUID is. *)
Definition isUuidLike (runId : string) : bool :=
  truthyString runId && forallb isHexDash (list_ascii_of_string runId).




(** Two checks on a fixed stretch of text [p], used to skip it when
    looking for a match: comparing [literal] with [p] hits a difference
    before either ends; and this is so from every position of [p]. *)
Fixpoint mismatchWithin (literal p : string) : bool :=
  match literal, p with
  | String a literal', String b p' =>
      if Ascii.eqb a b then mismatchWithin literal' p' else true
  | _, _ => false
  end.

Fixpoint noMatchWithin (literal p : string) : bool :=
  match p with
  | EmptyString => true
  | String _ p' => mismatchWithin literal p && noMatchWithin literal p'
  end.

(** * Properties *)

(** ** Completions *)

Lemma forOf_app {A S : Type} (xs ys : list A) (body : A -> S -> Completion S)
  (s : S) :
  forOf (xs ++ ys) body s = forOf xs body s >>> forOf ys body.
Proof.
  revert s. induction xs as [|x xs IH]; intros s; simpl; [reflexivity|].
  destruct (body x s) as [s'|e s']; simpl; [apply IH | reflexivity].
Qed.

Lemma forOf_completed {A S : Type} (xs : list A)
  (body : A -> S -> Completion S) (P : S -> Prop) :
  (forall x s, P s -> exists s', body x s = Normal s' /\ P s') ->
  forall s, P s -> exists s', forOf xs body s = Normal s' /\ P s'.
Proof.
  intros Hbody. induction xs as [|x xs IH]; intros s Hs; simpl.
  - eauto.
  - destruct (Hbody x s Hs) as (s1 & -> & Hs1). simpl. apply IH, Hs1.
Qed.

(** ** The [Map] operations *)

Module JsMapFacts.
Section JsMapFacts.
Context {V : Type}.
Implicit Types (m : list (string * V)) (k : string).

Lemma get_set_eq k v m : JsMap.get k (JsMap.set k v m) = Some v.
Proof.
  induction m as [|[k' v'] m IH]; simpl.
  - rewrite decide_True; done.
  - destruct (decide (k = k')) as [->|Hne]; simpl.
    + rewrite decide_True; done.
    + rewrite decide_False; done.
Qed.

Lemma get_set_ne k k' v m :
  k <> k' -> JsMap.get k' (JsMap.set k v m) = JsMap.get k' m.
Proof.
  intros Hne. induction m as [|[k0 v0] m IH]; simpl.
  - rewrite decide_False; [done | congruence].
  - destruct (decide (k = k0)) as [->|Hne0]; simpl.
    + rewrite !decide_False; [done | congruence | congruence].
    + destruct (decide (k' = k0)); done.
Qed.

Lemma get_delete_eq k m : JsMap.get k (JsMap.delete k m) = None.
Proof.
  induction m as [|[k' v'] m IH]; simpl; [done|].
  destruct (decide (k = k')) as [->|Hne]; simpl; [done|].
  rewrite decide_False; done.
Qed.

Lemma get_delete_ne k k' m :
  k <> k' -> JsMap.get k' (JsMap.delete k m) = JsMap.get k' m.
Proof.
  intros Hne. induction m as [|[k0 v0] m IH]; simpl; [done|].
  destruct (decide (k = k0)) as [->|Hne0]; simpl.
  - rewrite decide_False; [done | congruence].
  - destruct (decide (k' = k0)); done.
Qed.

Lemma get_mutate_eq f k m :
  JsMap.get k (JsMap.mutate f k m) = f <$> JsMap.get k m.
Proof.
  induction m as [|[k' v'] m IH]; simpl; [done|].
  destruct (decide (k = k')) as [->|Hne]; simpl.
  - rewrite decide_True; done.
  - rewrite decide_False; done.
Qed.

Lemma get_mutate_ne f k k' m :
  k <> k' -> JsMap.get k' (JsMap.mutate f k m) = JsMap.get k' m.
Proof.
  intros Hne. induction m as [|[k0 v0] m IH]; simpl; [done|].
  destruct (decide (k = k0)) as [->|Hne0]; simpl.
  - rewrite !decide_False; [done | congruence | congruence].
  - destruct (decide (k' = k0)); done.
Qed.

Lemma keys_mutate f k m : JsMap.keys (JsMap.mutate f k m) = JsMap.keys m.
Proof.
  induction m as [|[k' v'] m IH]; simpl; [done|].
  unfold JsMap.keys in *.
  destruct (decide (k = k')); simpl; [done|]. by f_equal.
Qed.

Lemma get_None_keys k m : JsMap.get k m = None <-> k ∉ JsMap.keys m.
Proof.
  induction m as [|[k' v'] m IH]; simpl.
  - split; [intros _; apply not_elem_of_nil | done].
  - rewrite not_elem_of_cons. destruct (decide (k = k')) as [->|Hne].
    + split; [done | intros [? _]; done].
    + rewrite IH. tauto.
Qed.

Lemma has_true_keys k m : JsMap.has k m = true <-> k ∈ JsMap.keys m.
Proof.
  unfold JsMap.has. pose proof (get_None_keys k m) as H.
  destruct (JsMap.get k m) eqn:E.
  - split; [intros _ | done].
    destruct (decide (k ∈ JsMap.keys m)) as [|Hn]; [done|].
    apply H in Hn. done.
  - split; [done | intros Hin]. exfalso. by apply H.
Qed.

Lemma has_false_get k m : JsMap.has k m = false <-> JsMap.get k m = None.
Proof. unfold JsMap.has. destruct (JsMap.get k m); split; done. Qed.

Lemma keys_set_fresh k v m :
  JsMap.get k m = None -> JsMap.keys (JsMap.set k v m) = (JsMap.keys m ++ [k])%list.
Proof.
  unfold JsMap.keys.
  induction m as [|[k' v'] m IH]; simpl; [done|].
  destruct (decide (k = k')) as [->|Hne]; [done|].
  intros H. simpl. f_equal. by apply IH.
Qed.

Lemma keys_delete k m :
  JsMap.keys (JsMap.delete k m)
  = List.filter (fun k' => negb (bool_decide (k' = k))) (JsMap.keys m).
Proof.
  unfold JsMap.keys.
  induction m as [|[k' v'] m IH]; simpl; [done|].
  destruct (decide (k = k')) as [->|Hne].
  - rewrite bool_decide_eq_true_2; done.
  - rewrite bool_decide_eq_false_2; [|congruence]. simpl. by f_equal.
Qed.

Lemma delete_absent k m : JsMap.get k m = None -> JsMap.delete k m = m.
Proof.
  induction m as [|[k' v'] m IH]; simpl; [done|].
  destruct (decide (k = k')) as [->|Hne]; [done|].
  intros H. by rewrite IH.
Qed.

Lemma elem_of_keys_delete k k' m :
  k' ∈ JsMap.keys (JsMap.delete k m) <-> k' ∈ JsMap.keys m /\ k' <> k.
Proof.
  rewrite keys_delete, list_elem_of_In, filter_In, <- list_elem_of_In.
  rewrite negb_true_iff, bool_decide_eq_false. tauto.
Qed.

Lemma wf_delete k m : JsMap.wf m -> JsMap.wf (JsMap.delete k m).
Proof.
  unfold JsMap.wf. rewrite keys_delete. intros H.
  rewrite NoDup_ListNoDup in *. by apply List.NoDup_filter.
Qed.

Lemma wf_set_fresh k v m :
  JsMap.get k m = None -> JsMap.wf m -> JsMap.wf (JsMap.set k v m).
Proof.
  unfold JsMap.wf. intros Hk H. rewrite keys_set_fresh by done.
  apply NoDup_app. split; [done|]. split.
  - intros x Hx Hx'. apply list_elem_of_singleton in Hx'. subst x.
    by apply get_None_keys in Hk.
  - apply NoDup_singleton.
Qed.

Lemma size_delete_present k m :
  JsMap.wf m -> k ∈ JsMap.keys m ->
  JsMap.size (JsMap.delete k m) = JsMap.size m - 1.
Proof.
  unfold JsMap.wf, JsMap.size. induction m as [|[k' v'] m IH]; simpl.
  - intros _ H. by apply elem_of_nil in H.
  - intros Hnd Hin. apply NoDup_cons in Hnd as [Hk' Hnd].
    destruct (decide (k = k')) as [->|Hne].
    + rewrite delete_absent; [lia|]. by apply get_None_keys.
    + apply elem_of_cons in Hin as [?|Hin]; [done|].
      simpl. specialize (IH Hnd Hin). lia.
Qed.

Lemma size_keys m : JsMap.size m = Z.of_nat (length (JsMap.keys m)).
Proof. unfold JsMap.size, JsMap.keys. by rewrite length_map. Qed.

Lemma size_mutate f k m : JsMap.size (JsMap.mutate f k m) = JsMap.size m.
Proof. by rewrite !size_keys, keys_mutate. Qed.

End JsMapFacts.
End JsMapFacts.

(** ** White space *)

Lemma trimStartChars_blank cs :
  forallb isWhiteSpace cs = true -> trimStartChars cs = [].
Proof.
  induction cs as [|c cs IH]; simpl; [done|].
  destruct (isWhiteSpace c); simpl; [exact IH | done].
Qed.

Lemma trimStartChars_head cs :
  trimStartChars cs = []
  \/ exists c rest, trimStartChars cs = c :: rest /\ isWhiteSpace c = false.
Proof.
  induction cs as [|c cs IH]; simpl; [by left|].
  destruct (isWhiteSpace c) eqn:E; [exact IH | right; eauto].
Qed.

Lemma trimStartChars_nil_blank cs :
  trimStartChars cs = [] -> forallb isWhiteSpace cs = true.
Proof.
  induction cs as [|c cs IH]; simpl; [done|].
  destruct (isWhiteSpace c); simpl; [exact IH | done].
Qed.

Lemma trimChars_nil_iff cs :
  trimChars cs = [] <-> forallb isWhiteSpace cs = true.
Proof.
  unfold trimChars. split.
  - intros H. apply trimStartChars_nil_blank.
    destruct (trimStartChars_head cs) as [E|(c & rest & E & Hc)]; [done|].
    rewrite E in H. simpl in H.
    assert (Hl : trimStartChars (rev rest ++ [c]) = []).
    { destruct (trimStartChars (rev rest ++ [c])); [done|].
      simpl in H. by destruct (rev l). }
    apply trimStartChars_nil_blank in Hl.
    rewrite forallb_app in Hl. simpl in Hl. rewrite Hc in Hl.
    by rewrite andb_false_r in Hl.
  - intros H. by rewrite (trimStartChars_blank cs H).
Qed.

Lemma truthy_trim s : truthyString (trim s) = negb (isBlank s).
Proof.
  unfold trim, isBlank.
  destruct (forallb isWhiteSpace (list_ascii_of_string s)) eqn:E.
  - apply trimChars_nil_iff in E. by rewrite E.
  - destruct (trimChars (list_ascii_of_string s)) eqn:E'; [|done].
    apply trimChars_nil_iff in E'. congruence.
Qed.

Example trim_inner_space : trim "  a b  " = "a b".
Proof. reflexivity. Qed.

Example trim_tab_newline : isBlank (String "009" (String "010" " ")) = true.
Proof. reflexivity. Qed.

(** ** The exported functions, one by one *)

Section RegistryFacts.
Context {Env : Type}.
Implicit Types (w : World Env) (runId : string).

Lemma withEnv_env w : withEnv (env w) w = w.
Proof. by destruct w. Qed.

(** The notification loop of [clearAgentRunContext] calls every
    subscriber, in order, and returns normally. *)
Lemma notifyCallbacks_eq (callbacks : list (RunCompletionCallback Env)) w :
  forOf callbacks
    (fun callback w => tryCatchIgnore (callCallback callback w)) w
  = Normal (withEnv (afterCallbacks callbacks (runContextById w) (env w)) w).
Proof.
  revert w. induction callbacks as [|cb cbs IH]; intros w; simpl.
  - by rewrite withEnv_env.
  - unfold callCallback.
    destruct (fnBody cb (runContextById w) (env w)) as [e|x e]; simpl;
      rewrite IH; by destruct w.
Qed.

(** The same for the listeners of [emitAgentEvent]. *)
Lemma notifyListeners_eq (ls : list (Listener Env)) enriched w :
  forOf ls
    (fun listener w => tryCatchIgnore (callListener enriched listener w)) w
  = Normal
      (withEnv (afterListeners ls enriched (runContextById w) (env w)) w).
Proof.
  revert w. induction ls as [|l ls IH]; intros w; simpl.
  - by rewrite withEnv_env.
  - unfold callListener.
    destruct (fnBody l enriched (runContextById w) (env w)) as [e|x e]; simpl;
      rewrite IH; by destruct w.
Qed.

Lemma clearAgentRunContext_eq runId w :
  clearAgentRunContext runId w
  = Normal
      (if JsMap.has runId (runContextById w) then
         mkWorld (seqByRun w) (listeners w)
           (JsMap.delete runId (runContextById w))
           (runCompletionCallbacks w)
           (delete runId (runStartTimes w)) (timers w) (now w)
           (log w ++
              [LogDebug
                 (AgentRunCleared runId
                    (JsMap.size (JsMap.delete runId (runContextById w))))])
           (afterCallbacks (runCompletionCallbacks w)
              (JsMap.delete runId (runContextById w)) (env w))
       else
         mkWorld (seqByRun w) (listeners w) (runContextById w)
           (runCompletionCallbacks w)
           (delete runId (runStartTimes w)) (timers w) (now w) (log w)
           (env w)).
Proof.
  unfold clearAgentRunContext.
  destruct (JsMap.has runId (runContextById w)) eqn:E.
  - by rewrite notifyCallbacks_eq.
  - simpl. apply JsMapFacts.has_false_get in E.
    by rewrite (JsMapFacts.delete_absent _ _ E).
Qed.

Lemma registerAgentRunContext_eq runId context w :
  registerAgentRunContext runId context w
  = Normal
      (if negb (truthyString runId) then w
       else
         match JsMap.get runId (runContextById w) with
         | None =>
             mkWorld (seqByRun w) (listeners w)
               (JsMap.set runId context (runContextById w))
               (runCompletionCallbacks w)
               (<[runId := now w]> (runStartTimes w))
               (timers w ++ [mkTimer (now w + MAX_RUN_DURATION_MS) runId])
               (now w)
               (log w ++
                  [LogDebug
                     (AgentRunRegistered runId
                        (JsMap.size
                           (JsMap.set runId context (runContextById w))))])
               (env w)
         | Some _ =>
             withRunContextById
               (JsMap.mutate (mergeContext context) runId (runContextById w))
               w
         end).
Proof.
  unfold registerAgentRunContext.
  destruct (negb (truthyString runId)); [done|].
  destruct (JsMap.get runId (runContextById w)); done.
Qed.

Lemma emitAgentEvent_eq event w :
  emitAgentEvent event w
  = Normal
      (mkWorld
         (<[AgentEvent.runId event :=
              default 0 (seqByRun w !! AgentEvent.runId event) + 1]>
            (seqByRun w))
         (listeners w) (runContextById w) (runCompletionCallbacks w)
         (runStartTimes w) (timers w) (now w) (log w)
         (afterListeners (listeners w) (emittedPayload event w)
            (runContextById w) (env w))).
Proof.
  unfold emitAgentEvent. by rewrite notifyListeners_eq.
Qed.

Lemma mergeContext_eq context existing :
  mergeContext context existing
  = AgentRunContext.mk
      (match AgentRunContext.sessionKey context with
       | Some s =>
           if truthyString s then Some s
           else AgentRunContext.sessionKey existing
       | None => AgentRunContext.sessionKey existing
       end)
      (match AgentRunContext.verboseLevel context with
       | Some v => Some v
       | None => AgentRunContext.verboseLevel existing
       end)
      (match AgentRunContext.isHeartbeat context with
       | Some b => Some b
       | None => AgentRunContext.isHeartbeat existing
       end).
Proof.
  destruct context as [cs cv ch], existing as [es ev eh].
  unfold mergeContext; simpl.
  destruct cs as [s|]; [destruct (truthyString s)|];
    destruct cv as [v|]; try destruct v; destruct ch as [b|]; simpl;
    repeat case_bool_decide; simpl in *; congruence.
Qed.

End RegistryFacts.

Section Invariants.
Context {Env : Type}.
Implicit Types (w : World Env) (runId : string).

Lemma runTimer_eq (tm : Timer) w :
  runTimer tm w
  = if JsMap.has (timerRunId tm) (runContextById w) then
      clearAgentRunContext (timerRunId tm)
        (agentLog_warn
           (ForceClearingStaleAgentRun (timerRunId tm) MAX_RUN_DURATION_MS) w)
    else Normal w.
Proof. reflexivity. Qed.

Lemma truthyString_nonempty (s : string) : truthyString s = true <-> s <> "".
Proof. destruct s; simpl; split; done. Qed.

Lemma wfWorld_register runId context w :
  wfWorld w ->
  exists w', registerAgentRunContext runId context w = Normal w' /\ wfWorld w'.
Proof.
  intros [Hnd Hne]. rewrite registerAgentRunContext_eq. eexists; split; [done|].
  destruct (truthyString runId) eqn:Et; simpl; [|done].
  apply truthyString_nonempty in Et.
  destruct (JsMap.get runId (runContextById w)) eqn:Eg.
  - unfold wfWorld, JsMap.wf; simpl. by rewrite JsMapFacts.keys_mutate.
  - split; simpl.
    + by apply JsMapFacts.wf_set_fresh.
    + rewrite JsMapFacts.keys_set_fresh by done.
      rewrite elem_of_app, list_elem_of_singleton. intros [?|?]; done.
Qed.

Lemma wfWorld_clear runId w :
  wfWorld w ->
  exists w', clearAgentRunContext runId w = Normal w' /\ wfWorld w'.
Proof.
  intros [Hnd Hne]. rewrite clearAgentRunContext_eq. eexists; split; [done|].
  destruct (JsMap.has runId (runContextById w)); [|done].
  split; simpl.
  - by apply JsMapFacts.wf_delete.
  - rewrite JsMapFacts.elem_of_keys_delete. tauto.
Qed.

Lemma wfWorld_runTimer (tm : Timer) w :
  wfWorld w -> exists w', runTimer tm w = Normal w' /\ wfWorld w'.
Proof.
  intros H. rewrite runTimer_eq.
  destruct (JsMap.has (timerRunId tm) (runContextById w)); [|eauto].
  by apply wfWorld_clear.
Qed.

Lemma wfWorld_advanceClock (dt : Z) w :
  wfWorld w -> exists w', advanceClock dt w = Normal w' /\ wfWorld w'.
Proof.
  intros H. unfold advanceClock.
  apply (forOf_completed _ _ wfWorld); [|done].
  intros tm s Hs. by apply wfWorld_runTimer.
Qed.

Lemma wfWorld_doOp (o : Op Env) w :
  wfWorld w -> exists w', doOp o w = Normal w' /\ wfWorld w'.
Proof.
  intros H. destruct o; simpl; eauto.
  - by apply wfWorld_register.
  - by apply wfWorld_clear.
  - rewrite emitAgentEvent_eq. eauto.
  - by apply wfWorld_advanceClock.
Qed.

(** Every history runs to completion and keeps the registry well formed. *)
Lemma wfWorld_runOps (ops : list (Op Env)) w :
  wfWorld w -> exists w', runOps ops w = Normal w' /\ wfWorld w'.
Proof.
  intros H. apply (forOf_completed _ _ wfWorld); [|done].
  intros o s Hs. by apply wfWorld_doOp.
Qed.

Lemma wfWorld_initial (t0 : Z) (e : Env) : wfWorld (initialWorld t0 e).
Proof. split; simpl; [apply NoDup_nil_2 | apply not_elem_of_nil]. Qed.

Lemma wfWorld_nonempty runId w :
  wfWorld w -> runId ∈ getActiveAgentRunIds w -> runId <> "".
Proof. intros [_ H] Hin ->. done. Qed.

End Invariants.

(** ** Registration *)

Section Registration.
Context {Env : Type}.
Implicit Types (w : World Env) (runId : string).

(** C2, as the code has it: [registerAgentRunContext] with the empty id
    returns normally and changes nothing: no record is inserted, the count
    stays, and no error reaches the caller. *)
Theorem register_empty_id_is_silent_noop (context : AgentRunContext.t) w :
  registerAgentRunContext "" context w = Normal w
  /\ getActiveAgentRunCount (finalState (registerAgentRunContext "" context w))
     = getActiveAgentRunCount w
  /\ getAgentRunContext "" (finalState (registerAgentRunContext "" context w))
     = getAgentRunContext "" w.
Proof. repeat split. Qed.

(** C4, as the code has it: registering an id that is already held
    overwrites [sessionKey] when the call carries a non-empty one,
    [verboseLevel] when the call carries one and [isHeartbeat] when the
    call carries one (true or false); every other field of the record, every
    other record, the count, the order of the ids and the pending timers
    stay as they were. *)
Theorem reregistration_merges_given_fields runId
  (context existing : AgentRunContext.t) w :
  wfWorld w ->
  getAgentRunContext runId w = Some existing ->
  exists w',
    registerAgentRunContext runId context w = Normal w'
    /\ getAgentRunContext runId w'
       = Some (AgentRunContext.mk
                 (match AgentRunContext.sessionKey context with
                  | Some s =>
                      if truthyString s then Some s
                      else AgentRunContext.sessionKey existing
                  | None => AgentRunContext.sessionKey existing
                  end)
                 (match AgentRunContext.verboseLevel context with
                  | Some v => Some v
                  | None => AgentRunContext.verboseLevel existing
                  end)
                 (match AgentRunContext.isHeartbeat context with
                  | Some b => Some b
                  | None => AgentRunContext.isHeartbeat existing
                  end))
    /\ (forall other, other <> runId ->
          getAgentRunContext other w' = getAgentRunContext other w)
    /\ getActiveAgentRunCount w' = getActiveAgentRunCount w
    /\ getActiveAgentRunIds w' = getActiveAgentRunIds w
    /\ timers w' = timers w.
Proof.
  intros Hwf Hget. unfold getAgentRunContext in *.
  assert (Hne : runId <> "").
  { apply (wfWorld_nonempty runId w Hwf). unfold getActiveAgentRunIds.
    apply JsMapFacts.has_true_keys. unfold JsMap.has. by rewrite Hget. }
  apply truthyString_nonempty in Hne.
  rewrite registerAgentRunContext_eq, Hne, Hget. simpl.
  eexists; split; [done|]. simpl. repeat split.
  - by rewrite JsMapFacts.get_mutate_eq, Hget, <- mergeContext_eq.
  - intros other Ho. by rewrite JsMapFacts.get_mutate_ne.
  - unfold getActiveAgentRunCount; simpl. apply JsMapFacts.size_mutate.
  - unfold getActiveAgentRunIds; simpl. by rewrite JsMapFacts.keys_mutate.
Qed.

End Registration.

(** C2, as the specification words it, fails: the empty id is accepted
    without an [InvalidArgument] error. *)
Lemma register_empty_id_does_not_fail :
  registerAgentRunContext "" noContext sampleWorld = Normal sampleWorld
  /\ forall w',
       registerAgentRunContext "" noContext sampleWorld
       <> Throw InvalidArgument w'.
Proof. split; [reflexivity | discriminate]. Qed.

(** C4, as the specification words it, fails: a [sessionKey] that is
    present in the call but empty does not replace the stored one. *)
Lemma reregistration_ignores_empty_sessionKey :
  let w1 := finalState (registerAgentRunContext "x" mainContext sampleWorld) in
  let w2 := finalState (registerAgentRunContext "x" blankKeyContext w1) in
  AgentRunContext.sessionKey blankKeyContext = Some ""
  /\ (AgentRunContext.sessionKey <$> getAgentRunContext "x" w1)
     = Some (Some "main")
  /\ (AgentRunContext.sessionKey <$> getAgentRunContext "x" w2)
     = Some (Some "main")
  /\ (AgentRunContext.sessionKey <$> getAgentRunContext "x" w2)
     <> Some (AgentRunContext.sessionKey blankKeyContext).
Proof. repeat split. discriminate. Qed.

Lemma reregistration_merges_given_fields_witness :
  let w1 := finalState (registerAgentRunContext "run-1" mainContext sampleWorld) in
  wfWorld w1
  /\ getAgentRunContext "run-1" w1 = Some mainContext
  /\ exists w',
       registerAgentRunContext "run-1" updatedContext w1 = Normal w'
       /\ getAgentRunContext "run-1" w' = Some updatedContext
       /\ getActiveAgentRunCount w' = 1.
Proof.
  intros w1.
  assert (Hwf : wfWorld w1).
  { destruct (wfWorld_register "run-1" mainContext sampleWorld
                (wfWorld_initial 0 tt)) as (w' & E & H).
    subst w1. by rewrite E. }
  split; [exact Hwf|]. split; [reflexivity|].
  destruct (reregistration_merges_given_fields "run-1" updatedContext
              mainContext w1 Hwf eq_refl) as (w' & E & Hg & _ & Hc & _).
  exists w'. split; [exact E|]. split; [exact Hg|]. by rewrite Hc.
Defined.

(** ** Clearing and notification *)

Section Clearing.
Context {Env : Type}.
Implicit Types (w : World Env) (runId : string).

(** C5, as the code has it: [clearAgentRunContext] returns normally with
    the record gone, the start time of the run gone, and every other record
    and start time kept.  If the id was held, each completion subscriber is
    then called, in order, with the registry as it is after the removal,
    and the clearing is logged.  If the id was not held, registry,
    subscribers' state and log are untouched.  The timer scheduled at
    registration is not cancelled: the pending timers are the same before
    and after.  A timer of the cleared run that comes due next finds no run
    and leaves the module as it is, as does any timer whose run is not
    held when it runs. *)
Theorem clearAgentRunContext_contract runId w :
  exists w',
    clearAgentRunContext runId w = Normal w'
    /\ getAgentRunContext runId w' = None
    /\ (forall other, other <> runId ->
          getAgentRunContext other w' = getAgentRunContext other w)
    /\ runStartTimes w' !! runId = None
    /\ (forall other, other <> runId ->
          runStartTimes w' !! other = runStartTimes w !! other)
    /\ timers w' = timers w
    /\ (forall tm, timerRunId tm = runId -> runTimer tm w' = Normal w')
    /\ (forall tm (s : World Env),
          getAgentRunContext (timerRunId tm) s = None ->
          runTimer tm s = Normal s)
    /\ if JsMap.has runId (runContextById w) then
         env w'
         = afterCallbacks (runCompletionCallbacks w) (runContextById w') (env w)
         /\ log w'
            = log w
              ++ [LogDebug (AgentRunCleared runId (getActiveAgentRunCount w'))]
       else
         runContextById w' = runContextById w
         /\ env w' = env w
         /\ log w' = log w.
Proof.
  assert (Hidle : forall tm (s : World Env),
             getAgentRunContext (timerRunId tm) s = None ->
             runTimer tm s = Normal s).
  { intros tm s Hs. rewrite runTimer_eq.
    by rewrite (proj2 (JsMapFacts.has_false_get _ _) Hs). }
  rewrite clearAgentRunContext_eq. eexists; split; [done|].
  unfold getAgentRunContext, getActiveAgentRunCount in *.
  destruct (JsMap.has runId (runContextById w)) eqn:E; simpl.
  - split; [apply JsMapFacts.get_delete_eq|].
    split; [intros other Ho; by apply JsMapFacts.get_delete_ne|].
    split; [apply lookup_delete_eq|].
    split; [intros other Ho; by apply lookup_delete_ne|].
    split; [done|].
    split.
    { intros tm <-. apply Hidle. simpl. apply JsMapFacts.get_delete_eq. }
    split; [exact Hidle|]. done.
  - apply JsMapFacts.has_false_get in E.
    split; [done|]. split; [done|].
    split; [apply lookup_delete_eq|].
    split; [intros other Ho; by apply lookup_delete_ne|].
    split; [done|].
    split; [intros tm <-; by apply Hidle|].
    split; [exact Hidle|]. done.
Qed.

(** C9: neither [clearAgentRunContext] nor [emitAgentEvent] ever throws,
    whatever the subscribers do; every subscriber is called, in the order
    of registration, and one that throws does not keep the later ones from
    being called. *)
Theorem subscriber_exceptions_are_swallowed w :
  (forall runId, exists w',
      clearAgentRunContext runId w = Normal w'
      /\ env w'
         = if JsMap.has runId (runContextById w) then
             afterCallbacks (runCompletionCallbacks w)
               (JsMap.delete runId (runContextById w)) (env w)
           else env w)
  /\ (forall event, exists w',
        emitAgentEvent event w = Normal w'
        /\ env w'
           = afterListeners (listeners w) (emittedPayload event w)
               (runContextById w) (env w))
  /\ (forall (callback : RunCompletionCallback Env) rest m e,
        afterCallbacks (callback :: rest) m e
        = afterCallbacks rest m (finalState (fnBody callback m e)))
  /\ (forall (listener : Listener Env) rest evt m e,
        afterListeners (listener :: rest) evt m e
        = afterListeners rest evt m (finalState (fnBody listener evt m e)))
  /\ (forall callback : RunCompletionCallback Env,
        runCompletionCallbacks (onAgentRunComplete callback w)
        = if existsb (fun g => Nat.eqb (fnRef g) (fnRef callback))
               (runCompletionCallbacks w)
          then runCompletionCallbacks w
          else runCompletionCallbacks w ++ [callback])
  /\ (forall listener : Listener Env,
        listeners (onAgentEvent listener w)
        = if existsb (fun g => Nat.eqb (fnRef g) (fnRef listener)) (listeners w)
          then listeners w
          else listeners w ++ [listener]).
Proof.
  repeat split.
  - intros runId. rewrite clearAgentRunContext_eq. eexists; split; [done|].
    by destruct (JsMap.has runId (runContextById w)).
  - intros event. rewrite emitAgentEvent_eq. eexists; split; done.
Qed.

(** C10: the payload handed to the listeners carries the event's own
    [sessionKey] when that is a string which is not blank (blank: nothing
    is left after trimming), and otherwise the [sessionKey] stored in the
    run context that is registered for the event's run id: the key of that
    record when it has one, and undefined when the record has none or no
    context is registered. *)
Theorem emitted_sessionKey_enrichment (event : AgentEvent.t) w :
  AgentEventPayload.sessionKey (emittedPayload event w)
  = match AgentEvent.sessionKey event,
          getAgentRunContext (AgentEvent.runId event) w with
    | JsString s, Some context =>
        if isBlank s then AgentRunContext.sessionKey context else Some s
    | JsString s, None => if isBlank s then None else Some s
    | _, Some context => AgentRunContext.sessionKey context
    | _, None => None
    end
  /\ (forall s, isBlank s = true <-> trim s = "")
  /\ exists w',
       emitAgentEvent event w = Normal w'
       /\ env w'
          = afterListeners (listeners w) (emittedPayload event w)
              (runContextById w) (env w).
Proof.
  split.
  - unfold emittedPayload, enrichedPayload, getAgentRunContext; simpl.
    destruct (AgentEvent.sessionKey event) as [| |b|n|s|props],
      (JsMap.get (AgentEvent.runId event) (runContextById w)); try done;
      rewrite truthy_trim; by destruct (isBlank s).
  - split.
    + intros s. pose proof (truthy_trim s) as H.
      destruct (isBlank s), (trim s); simpl in H; split; congruence.
    + rewrite emitAgentEvent_eq. eexists; split; done.
Qed.

End Clearing.

(** C5, as the specification words it, fails: after a run is registered
    and cleared, the timer started for it is still pending. *)
Lemma clear_leaves_stale_timer_pending :
  let w1 := finalState (registerAgentRunContext "x" noContext sampleWorld) in
  let w2 := finalState (clearAgentRunContext "x" w1) in
  timers w1 = [mkTimer 600000 "x"]
  /\ getAgentRunContext "x" w2 = None
  /\ timers w2 = [mkTimer 600000 "x"].
Proof. repeat split. Qed.

(** Two subscribers, the first of which throws: both are called, each
    seeing the count after the removal. *)
Example clear_notifies_after_a_throw :
  let w1 := finalState (registerAgentRunContext "run-1" noContext recordingWorld) in
  clearAgentRunContext "run-1" w1
  = Normal (withEnv [(1%nat, 0); (2%nat, 0)]
              (withRunStartTimes ∅
                 (withLog
                    [LogDebug (AgentRunRegistered "run-1" 1);
                     LogDebug (AgentRunCleared "run-1" 0)]
                    (withRunContextById [] w1)))).
Proof. vm_compute. reflexivity. Qed.

Example emit_notifies_after_a_throw :
  env (finalState
         (emitAgentEvent (lifecycleEvent "run-1" JsUndefined) recordingWorld))
  = [(1%nat, 1); (2%nat, 1)].
Proof. reflexivity. Qed.

(** ** Histories of register and clear calls *)

Section CallHistories.
Context {Env : Type}.
Implicit Types (w : World Env) (runId : string).

Lemma runCalls_cons (c : RegistryCall) history w :
  runCalls (c :: history) w = doCall c w >>> runCalls history.
Proof. reflexivity. Qed.

(** The ids held after a history are the ids the history leaves
    registered, starting from any well-formed registry. *)
Lemma runCalls_registered (history : list RegistryCall) w :
  wfWorld w ->
  exists w',
    runCalls history w = Normal w'
    /\ wfWorld w'
    /\ fold_left registeredStep history (list_to_set (getActiveAgentRunIds w))
       = list_to_set (getActiveAgentRunIds w').
Proof.
  revert w. induction history as [|c history IH]; intros w Hwf.
  - exists w. done.
  - rewrite runCalls_cons. destruct c as [runId context|runId]; simpl.
    + destruct (wfWorld_register runId context w Hwf) as (w1 & E1 & Hwf1).
      rewrite E1; simpl. destruct (IH w1 Hwf1) as (w' & E & Hwf' & Hids).
      exists w'. split; [done|]. split; [done|]. rewrite <- Hids. f_equal.
      rewrite registerAgentRunContext_eq in E1. injection E1 as <-.
      unfold getActiveAgentRunIds.
      destruct (truthyString runId) eqn:Et; simpl; [|done].
      destruct (JsMap.get runId (runContextById w)) eqn:Eg; simpl.
      * rewrite JsMapFacts.keys_mutate.
        assert (runId ∈ JsMap.keys (runContextById w)).
        { apply JsMapFacts.has_true_keys. unfold JsMap.has. by rewrite Eg. }
        apply set_eq. intros x.
        rewrite elem_of_union, elem_of_singleton, elem_of_list_to_set.
        split; [intros [->|]; done | auto].
      * rewrite JsMapFacts.keys_set_fresh by done.
        rewrite list_to_set_snoc_L. apply union_comm_L.
    + destruct (wfWorld_clear runId w Hwf) as (w1 & E1 & Hwf1).
      rewrite E1; simpl. destruct (IH w1 Hwf1) as (w' & E & Hwf' & Hids).
      exists w'. split; [done|]. split; [done|]. rewrite <- Hids. f_equal.
      rewrite clearAgentRunContext_eq in E1. injection E1 as <-.
      unfold getActiveAgentRunIds.
      destruct (JsMap.has runId (runContextById w)) eqn:Eh; simpl.
      * apply set_eq. intros x.
        rewrite elem_of_difference, !elem_of_list_to_set.
        rewrite JsMapFacts.elem_of_keys_delete, elem_of_singleton. tauto.
      * apply JsMapFacts.has_false_get, JsMapFacts.get_None_keys in Eh.
        apply set_eq. intros x.
        rewrite elem_of_difference, elem_of_singleton, elem_of_list_to_set.
        split; [tauto | intros Hx; split; [done | by intros ->]].
Qed.

(** C3: after any sequence of register and clear calls on an empty
    registry, the count is the number of distinct ids registered and not
    cleared since; it is not negative; registering an id that is held
    leaves it unchanged, and so does clearing an id that is not held. *)
Theorem count_is_number_of_registered_ids (history : list RegistryCall) w0 :
  runContextById w0 = [] ->
  exists w,
    runCalls history w0 = Normal w
    /\ getActiveAgentRunCount w = Z.of_nat (size (registeredIds history))
    /\ 0 <= getActiveAgentRunCount w
    /\ NoDup (getActiveAgentRunIds w)
    /\ (forall runId,
          runId ∈ getActiveAgentRunIds w <-> runId ∈ registeredIds history)
    /\ (forall runId context,
          runId ∈ registeredIds history ->
          getActiveAgentRunCount
            (finalState (registerAgentRunContext runId context w))
          = getActiveAgentRunCount w)
    /\ (forall runId,
          runId ∉ registeredIds history ->
          getActiveAgentRunCount (finalState (clearAgentRunContext runId w))
          = getActiveAgentRunCount w).
Proof.
  intros H0.
  assert (Hwf0 : wfWorld w0).
  { unfold wfWorld, JsMap.wf. rewrite H0. simpl.
    split; [apply NoDup_nil_2 | apply not_elem_of_nil]. }
  destruct (runCalls_registered history w0 Hwf0) as (w & E & Hwf & Hids).
  unfold getActiveAgentRunIds at 1 in Hids. rewrite H0 in Hids. simpl in Hids.
  fold (registeredIds history) in Hids.
  assert (Hmem : forall runId,
             runId ∈ getActiveAgentRunIds w <-> runId ∈ registeredIds history).
  { intros runId. rewrite Hids. by rewrite elem_of_list_to_set. }
  exists w. split; [done|]. destruct Hwf as [Hnd Hne].
  split; [|split; [|split; [|split; [|split]]]].
  - rewrite Hids, size_list_to_set by done.
    unfold getActiveAgentRunCount. apply JsMapFacts.size_keys.
  - unfold getActiveAgentRunCount, JsMap.size. lia.
  - exact Hnd.
  - exact Hmem.
  - intros runId context Hin. apply Hmem in Hin.
    rewrite registerAgentRunContext_eq. simpl.
    destruct (truthyString runId); simpl; [|done].
    apply JsMapFacts.has_true_keys in Hin. unfold JsMap.has in Hin.
    destruct (JsMap.get runId (runContextById w)); [|done].
    unfold getActiveAgentRunCount; simpl. apply JsMapFacts.size_mutate.
  - intros runId Hnin. rewrite <- Hmem in Hnin.
    rewrite clearAgentRunContext_eq. simpl.
    destruct (JsMap.has runId (runContextById w)) eqn:Eh; [|done].
    apply JsMapFacts.has_true_keys in Eh. done.
Qed.

End CallHistories.

Lemma count_is_number_of_registered_ids_witness :
  let history :=
    [CallRegister "run-1" noContext; CallRegister "run-2" noContext;
     CallRegister "run-1" mainContext; CallClear "run-3";
     CallClear "run-1"] in
  runContextById sampleWorld = []
  /\ exists w,
       runCalls history sampleWorld = Normal w
       /\ getActiveAgentRunCount w = 1
       /\ getActiveAgentRunIds w = ["run-2"].
Proof.
  intros history. split; [reflexivity|].
  destruct (count_is_number_of_registered_ids history sampleWorld eq_refl)
    as (w & E & Hc & _).
  exists w. split; [exact E|].
  assert (Ew : w = finalState (runCalls history sampleWorld)) by by rewrite E.
  rewrite Ew. split; reflexivity.
Defined.

(** ** Order of the ids *)

Lemma StronglySorted_weaken {A : Type} (R R' : relation A) (l : list A) :
  (forall a b, a ∈ l -> b ∈ l -> R a b -> R' a b) ->
  StronglySorted R l -> StronglySorted R' l.
Proof.
  induction l as [|x l IH]; intros H Hs; [constructor|].
  apply StronglySorted_cons in Hs as [Hf Hs]. apply StronglySorted_cons. split.
  - rewrite Forall_forall in *. intros y Hy.
    apply H; [apply elem_of_cons; by left | apply elem_of_cons; by right | auto].
  - apply IH; [|done]. intros a b Ha Hb.
    apply H; apply elem_of_cons; by right.
Qed.

Lemma StronglySorted_filter {A : Type} (R : relation A) (p : A -> bool)
  (l : list A) :
  StronglySorted R l -> StronglySorted R (List.filter p l).
Proof.
  induction l as [|x l IH]; intros Hs; simpl; [constructor|].
  apply StronglySorted_cons in Hs as [Hf Hs].
  destruct (p x); [|by apply IH].
  apply StronglySorted_cons. split; [|by apply IH].
  rewrite Forall_forall in *. intros y Hy.
  apply list_elem_of_In, filter_In in Hy as [Hy _].
  by apply Hf, list_elem_of_In.
Qed.

Lemma createdBefore_agree (b1 b2 : string -> option nat) (x y : string) :
  b1 x = b2 x -> b1 y = b2 y -> createdBefore b1 x y -> createdBefore b2 x y.
Proof.
  intros Hx Hy (na & nb & Ha & Hb & Hlt). exists na, nb.
  rewrite <- Hx, <- Hy. done.
Qed.

Section CreationOrder.
Context {Env : Type}.
Implicit Types (w : World Env) (runId : string).

(** What links a registry to the creation positions read off a history:
    the ids held are those with a position, positions lie before [i], and
    the ids are held in the order of their positions. *)
Lemma creation_order_step_ext w w' (i : nat) (b b' : string -> option nat) :
  getActiveAgentRunIds w' = getActiveAgentRunIds w ->
  (forall x, b' x = b x) ->
  (forall x, x ∈ getActiveAgentRunIds w <-> is_Some (b x)) ->
  (forall x n, b x = Some n -> (n < i)%nat) ->
  StronglySorted (createdBefore b) (getActiveAgentRunIds w) ->
  (forall x, x ∈ getActiveAgentRunIds w' <-> is_Some (b' x))
  /\ (forall x n, b' x = Some n -> (n < S i)%nat)
  /\ StronglySorted (createdBefore b') (getActiveAgentRunIds w').
Proof.
  intros Hk Hb Hmem Hlt Hs. rewrite Hk. repeat split.
  - rewrite Hb. apply Hmem.
  - rewrite Hb. apply Hmem.
  - intros x n. rewrite Hb. intros H. apply Hlt in H. lia.
  - eapply StronglySorted_weaken; [|exact Hs].
    intros a c _ _. by apply createdBefore_agree.
Qed.

Lemma runCalls_creation_order (history : list RegistryCall) w (i : nat)
  (birth : string -> option nat) :
  wfWorld w ->
  (forall x, x ∈ getActiveAgentRunIds w <-> is_Some (birth x)) ->
  (forall x n, birth x = Some n -> (n < i)%nat) ->
  StronglySorted (createdBefore birth) (getActiveAgentRunIds w) ->
  exists w',
    runCalls history w = Normal w'
    /\ (forall x,
          x ∈ getActiveAgentRunIds w'
          <-> is_Some (createdAt x i history (birth x)))
    /\ StronglySorted
         (createdBefore (fun x => createdAt x i history (birth x)))
         (getActiveAgentRunIds w').
Proof.
  revert w i birth.
  induction history as [|c history IH]; intros w i birth Hwf Hmem Hlt Hs.
  - exists w. done.
  - rewrite runCalls_cons. destruct c as [runId context|runId]; simpl.
    + destruct (wfWorld_register runId context w Hwf) as (w1 & E1 & Hwf1).
      rewrite E1; simpl.
      enough (Hstep :
        (forall x, x ∈ getActiveAgentRunIds w1 <->
           is_Some (if bool_decide (runId = x) && truthyString runId
                    then match birth x with
                         | None => Some i
                         | Some _ => birth x
                         end
                    else birth x))
        /\ (forall x n,
              (if bool_decide (runId = x) && truthyString runId
               then match birth x with
                    | None => Some i
                    | Some _ => birth x
                    end
               else birth x) = Some n -> (n < S i)%nat)
        /\ StronglySorted
             (createdBefore
                (fun x => if bool_decide (runId = x) && truthyString runId
                          then match birth x with
                               | None => Some i
                               | Some _ => birth x
                               end
                          else birth x))
             (getActiveAgentRunIds w1)).
      { destruct Hstep as (H1 & H2 & H3).
        apply (IH w1 (S i) _ Hwf1 H1 H2 H3). }
      rewrite registerAgentRunContext_eq in E1. injection E1 as <-.
      destruct (truthyString runId) eqn:Et; simpl.
      * destruct (JsMap.get runId (runContextById w)) eqn:Eg.
        -- apply (creation_order_step_ext w _ i birth); try done.
           ++ unfold getActiveAgentRunIds; simpl.
              apply JsMapFacts.keys_mutate.
           ++ intros x. rewrite andb_true_r. case_bool_decide; [|done].
              subst x.
              assert (Hin : runId ∈ getActiveAgentRunIds w).
              { apply JsMapFacts.has_true_keys. unfold JsMap.has.
                by rewrite Eg. }
              apply Hmem in Hin as [n Hn]. by rewrite Hn.
        -- assert (Hnin : runId ∉ getActiveAgentRunIds w)
             by by apply JsMapFacts.get_None_keys.
           assert (Hb : birth runId = None).
           { destruct (birth runId) eqn:Eb; [|done].
             exfalso. apply Hnin, Hmem. by rewrite Eb. }
           unfold getActiveAgentRunIds in *; simpl.
           rewrite JsMapFacts.keys_set_fresh by done.
           repeat split.
           ++ rewrite elem_of_app, list_elem_of_singleton, andb_true_r.
              case_bool_decide as Hx.
              ** subst x. rewrite Hb. intros _. by eexists.
              ** intros [Hin|Heq]; [by apply Hmem | congruence].
           ++ rewrite elem_of_app, list_elem_of_singleton, andb_true_r.
              case_bool_decide as Hx; [by right|].
              intros Hsome. left. by apply Hmem.
           ++ intros x n. rewrite andb_true_r. case_bool_decide as Hx.
              ** subst x. rewrite Hb. intros [= <-]. lia.
              ** intros Hn. apply Hlt in Hn. lia.
           ++ apply StronglySorted_app_2.
              ** intros a c Ha Hc. apply list_elem_of_singleton in Hc.
                 subst c. apply Hmem in Ha as [na Hna].
                 exists na, i. rewrite !andb_true_r.
                 rewrite bool_decide_eq_false_2.
                 2:{ intros <-. congruence. }
                 rewrite bool_decide_eq_true_2 by done.
                 rewrite Hb. split; [done|]. split; [done|].
                 by apply (Hlt a).
              ** eapply StronglySorted_weaken; [|exact Hs].
                 intros a c Ha Hc. apply createdBefore_agree.
                 --- rewrite bool_decide_eq_false_2; [done|].
                     intros <-. done.
                 --- rewrite bool_decide_eq_false_2; [done|].
                     intros <-. done.
              ** repeat constructor.
      * apply (creation_order_step_ext w w i birth); try done.
        intros x. by rewrite andb_false_r.
    + destruct (wfWorld_clear runId w Hwf) as (w1 & E1 & Hwf1).
      rewrite E1; simpl.
      enough (Hstep :
        (forall x, x ∈ getActiveAgentRunIds w1 <->
           is_Some (if bool_decide (runId = x) then None else birth x))
        /\ (forall x n,
              (if bool_decide (runId = x) then None else birth x) = Some n ->
              (n < S i)%nat)
        /\ StronglySorted
             (createdBefore
                (fun x => if bool_decide (runId = x) then None else birth x))
             (getActiveAgentRunIds w1)).
      { destruct Hstep as (H1 & H2 & H3).
        apply (IH w1 (S i) _ Hwf1 H1 H2 H3). }
      rewrite clearAgentRunContext_eq in E1. injection E1 as <-.
      destruct (JsMap.has runId (runContextById w)) eqn:Eh.
      * unfold getActiveAgentRunIds in *; simpl. repeat split.
        -- rewrite JsMapFacts.elem_of_keys_delete. intros [Hin Hne].
           rewrite bool_decide_eq_false_2 by congruence. by apply Hmem.
        -- rewrite JsMapFacts.elem_of_keys_delete.
           case_bool_decide as Hx; [by intros [? ?]|].
           intros Hsome. split; [by apply Hmem | congruence].
        -- intros x n. case_bool_decide; [done|].
           intros Hn. apply Hlt in Hn. lia.
        -- rewrite JsMapFacts.keys_delete.
           eapply StronglySorted_weaken;
             [|apply StronglySorted_filter; exact Hs].
           intros a c Ha Hc.
           apply list_elem_of_In, filter_In in Ha as [_ Ha].
           apply list_elem_of_In, filter_In in Hc as [_ Hc].
           apply negb_true_iff, bool_decide_eq_false in Ha, Hc.
           apply createdBefore_agree;
             rewrite bool_decide_eq_false_2; congruence.
      * apply (creation_order_step_ext w _ i birth); try done.
        intros x. case_bool_decide; [|done]. subst x.
        apply JsMapFacts.has_false_get, JsMapFacts.get_None_keys in Eh.
        destruct (birth runId) eqn:Eb; [|done].
        exfalso. apply Eh, Hmem. by rewrite Eb.
Qed.

End CreationOrder.

Section ListIds.
Context {Env : Type}.
Implicit Types (w : World Env) (runId : string).

(** C7: after any sequence of register and clear calls on an empty
    registry, [getActiveAgentRunIds] lists each id that is registered and
    not cleared since exactly once, in the order of the registrations that
    created the records now held; registering an id that is held leaves the
    list as it is. *)
Theorem listIds_in_creation_order (history : list RegistryCall) w0 :
  runContextById w0 = [] ->
  exists w,
    runCalls history w0 = Normal w
    /\ NoDup (getActiveAgentRunIds w)
    /\ (forall x, x ∈ getActiveAgentRunIds w <-> x ∈ registeredIds history)
    /\ (forall x,
          x ∈ getActiveAgentRunIds w
          <-> is_Some (createdAt x 0 history None))
    /\ StronglySorted
         (createdBefore (fun x => createdAt x 0 history None))
         (getActiveAgentRunIds w)
    /\ (forall runId context,
          runId ∈ getActiveAgentRunIds w ->
          getActiveAgentRunIds
            (finalState (registerAgentRunContext runId context w))
          = getActiveAgentRunIds w).
Proof.
  intros H0.
  assert (Hwf0 : wfWorld w0).
  { unfold wfWorld, JsMap.wf. rewrite H0. simpl.
    split; [apply NoDup_nil_2 | apply not_elem_of_nil]. }
  assert (Hk0 : getActiveAgentRunIds w0 = [])
    by (unfold getActiveAgentRunIds; by rewrite H0).
  destruct (runCalls_registered history w0 Hwf0) as (w & E & Hwf & Hids).
  rewrite Hk0 in Hids. simpl in Hids. fold (registeredIds history) in Hids.
  destruct (runCalls_creation_order history w0 0 (fun _ => None) Hwf0)
    as (w' & E' & Hmem & Hsorted).
  { intros x. rewrite Hk0. split; [by intros ?%elem_of_nil | by intros [? ?]]. }
  { done. }
  { rewrite Hk0. constructor. }
  rewrite E in E'. injection E' as <-.
  exists w. split; [done|]. split; [apply Hwf|].
  split; [|split; [done|split; [done|]]].
  - intros x. by rewrite Hids, elem_of_list_to_set.
  - intros runId context Hin.
    rewrite registerAgentRunContext_eq. simpl.
    destruct (truthyString runId); simpl; [|done].
    apply JsMapFacts.has_true_keys in Hin. unfold JsMap.has in Hin.
    destruct (JsMap.get runId (runContextById w)); [|done].
    unfold getActiveAgentRunIds; simpl. apply JsMapFacts.keys_mutate.
Qed.

End ListIds.

Lemma listIds_in_creation_order_witness :
  let history :=
    [CallRegister "a" noContext; CallRegister "b" noContext;
     CallRegister "a" mainContext; CallClear "a";
     CallRegister "c" noContext; CallRegister "a" noContext;
     CallRegister "b" updatedContext] in
  runContextById sampleWorld = []
  /\ exists w,
       runCalls history sampleWorld = Normal w
       /\ getActiveAgentRunIds w = ["b"; "c"; "a"]
       /\ StronglySorted
            (createdBefore (fun x => createdAt x 0 history None))
            ["b"; "c"; "a"].
Proof.
  intros history. split; [reflexivity|].
  destruct (listIds_in_creation_order history sampleWorld eq_refl)
    as (w & E & _ & _ & _ & Hs & _).
  exists w. split; [exact E|].
  assert (Ew : w = finalState (runCalls history sampleWorld)) by by rewrite E.
  assert (Ek : getActiveAgentRunIds w = ["b"; "c"; "a"])
    by (rewrite Ew; reflexivity).
  split; [exact Ek|]. rewrite <- Ek. exact Hs.
Defined.

Example createdAt_sample :
  let history :=
    [CallRegister "a" noContext; CallRegister "b" noContext;
     CallRegister "a" mainContext; CallClear "a";
     CallRegister "c" noContext; CallRegister "a" noContext] in
  createdAt "a" 0 history None = Some 5%nat
  /\ createdAt "b" 0 history None = Some 1%nat
  /\ createdAt "c" 0 history None = Some 4%nat
  /\ createdAt "d" 0 history None = None.
Proof. repeat split. Qed.

(** ** Sequence numbers *)

Section Sequencing.
Context {Env : Type}.
Implicit Types (w : World Env) (runId : string).

Lemma seqByRun_clear runId w :
  seqByRun (finalState (clearAgentRunContext runId w)) = seqByRun w.
Proof.
  rewrite clearAgentRunContext_eq. simpl.
  by destruct (JsMap.has runId (runContextById w)).
Qed.

Lemma seqByRun_register runId context w :
  seqByRun (finalState (registerAgentRunContext runId context w)) = seqByRun w.
Proof.
  rewrite registerAgentRunContext_eq. simpl.
  destruct (negb (truthyString runId)); [done|].
  by destruct (JsMap.get runId (runContextById w)).
Qed.

Lemma seqByRun_runTimer (tm : Timer) w :
  exists w', runTimer tm w = Normal w' /\ seqByRun w' = seqByRun w.
Proof.
  rewrite runTimer_eq.
  destruct (JsMap.has (timerRunId tm) (runContextById w)); [|eauto].
  rewrite clearAgentRunContext_eq. eexists; split; [done|]. simpl.
  by destruct (JsMap.has _ _).
Qed.

Lemma seqByRun_advanceClock (dt : Z) w :
  exists w', advanceClock dt w = Normal w' /\ seqByRun w' = seqByRun w.
Proof.
  unfold advanceClock.
  apply (forOf_completed _ _ (fun s => seqByRun s = seqByRun w)); [|done].
  intros tm s Hs. destruct (seqByRun_runTimer tm s) as (s' & E & H).
  exists s'. split; [done | congruence].
Qed.

Lemma seqByRun_doOp (o : Op Env) w runId :
  exists w',
    doOp o w = Normal w'
    /\ default 0 (seqByRun w' !! runId)
       = default 0 (seqByRun w !! runId) + emitCount runId [o].
Proof.
  destruct o as [id c|id|event|cb|cb|l|l|dt]; simpl.
  - exists (finalState (registerAgentRunContext id c w)).
    split; [by rewrite registerAgentRunContext_eq|].
    rewrite seqByRun_register. lia.
  - exists (finalState (clearAgentRunContext id w)).
    split; [by rewrite clearAgentRunContext_eq|].
    rewrite seqByRun_clear. lia.
  - rewrite emitAgentEvent_eq. eexists; split; [done|]. simpl.
    destruct (decide (AgentEvent.runId event = runId)) as [->|Hne].
    + rewrite lookup_insert_eq. simpl. lia.
    + rewrite lookup_insert_ne by done. lia.
  - eexists; split; [done|]. simpl. lia.
  - eexists; split; [done|]. simpl. lia.
  - eexists; split; [done|]. simpl. lia.
  - eexists; split; [done|]. simpl. lia.
  - destruct (seqByRun_advanceClock dt w) as (w' & E & H).
    exists w'. split; [done|]. rewrite H. lia.
Qed.

Lemma emitCount_cons (o : Op Env) ops runId :
  emitCount runId (o :: ops) = emitCount runId [o] + emitCount runId ops.
Proof. destruct o; simpl; lia. Qed.

Lemma seqByRun_runOps (ops : list (Op Env)) w runId :
  exists w',
    runOps ops w = Normal w'
    /\ default 0 (seqByRun w' !! runId)
       = default 0 (seqByRun w !! runId) + emitCount runId ops.
Proof.
  revert w. induction ops as [|o ops IH]; intros w.
  - exists w. split; [done|]. simpl. lia.
  - destruct (seqByRun_doOp o w runId) as (w1 & E1 & H1).
    destruct (IH w1) as (w' & E & H).
    exists w'. split.
    + unfold runOps in *. simpl. by rewrite E1.
    + rewrite emitCount_cons. lia.
Qed.

(** C8: whatever else happens in between (registrations, clears,
    subscriptions, stale evictions, events of other runs), the counter of a
    run id has advanced by the number of [emitAgentEvent] calls made for that
    id, the next event for it carries the next number, and events of other
    run ids and clears leave the counter alone.  From the initial state the
    events of a run are therefore numbered 1, 2, 3, ... *)
Theorem seq_is_number_of_emits_per_run (ops : list (Op Env)) w0 runId :
  exists w,
    runOps ops w0 = Normal w
    /\ default 0 (seqByRun w !! runId)
       = default 0 (seqByRun w0 !! runId) + emitCount runId ops
    /\ (forall stream data key,
          AgentEventPayload.seq
            (emittedPayload (AgentEvent.mk runId stream data key) w)
          = default 0 (seqByRun w0 !! runId) + emitCount runId ops + 1)
    /\ (forall event,
          seqByRun (finalState (emitAgentEvent event w)) !! runId
          = if decide (AgentEvent.runId event = runId)
            then Some (default 0 (seqByRun w0 !! runId)
                       + emitCount runId ops + 1)
            else seqByRun w !! runId)
    /\ (forall cleared,
          seqByRun (finalState (clearAgentRunContext cleared w)) = seqByRun w)
    /\ (forall t0 (e : Env), seqByRun (initialWorld t0 e) !! runId = None).
Proof.
  destruct (seqByRun_runOps ops w0 runId) as (w & E & H).
  exists w. split; [done|]. split; [done|]. repeat split.
  - intros stream data key. unfold emittedPayload; simpl. lia.
  - intros event. rewrite emitAgentEvent_eq. simpl.
    destruct (decide (AgentEvent.runId event = runId)) as [->|Hne].
    + rewrite lookup_insert_eq. f_equal. lia.
    + by rewrite lookup_insert_ne.
  - intros cleared. apply seqByRun_clear.
Qed.

End Sequencing.

(** The test "maintains monotonic seq per runId", with a clear of run-1 in
    between: the listener sees 1, 2, 3 for run-1 and 1 for run-2. *)
Example seq_sample :
  let ops :=
    [OpOnAgentEvent (seqRecorder 7 false);
     OpRegister "run-1" noContext;
     OpEmit (lifecycleEvent "run-1" JsUndefined);
     OpEmit (lifecycleEvent "run-1" JsUndefined);
     OpClear "run-1";
     OpEmit (lifecycleEvent "run-2" JsUndefined);
     OpEmit (lifecycleEvent "run-1" JsUndefined)] in
  env (finalState (runOps ops (initialWorld 0 [])))
  = [(7%nat, 1); (7%nat, 2); (7%nat, 1); (7%nat, 3)].
Proof. reflexivity. Qed.

(** ** Stale eviction *)

Section StaleEviction.
Context {Env : Type}.
Implicit Types (w s : World Env) (runId : string) (tm : Timer).

Lemma has_delete runId k (m : RunMap) :
  JsMap.has k (JsMap.delete runId m)
  = if bool_decide (k = runId) then false else JsMap.has k m.
Proof.
  unfold JsMap.has. case_bool_decide as Hk.
  - subst k. by rewrite JsMapFacts.get_delete_eq.
  - by rewrite JsMapFacts.get_delete_ne.
Qed.

(** What running one timer does to the clock, the timers, the log and the
    registry. *)
Lemma runTimer_effect tm s :
  exists s' extra,
    runTimer tm s = Normal s'
    /\ timers s' = timers s
    /\ now s' = now s
    /\ log s' = log s ++ extra
    /\ (forall k,
          JsMap.has k (runContextById s')
          = if bool_decide (k = timerRunId tm) then false
            else JsMap.has k (runContextById s))
    /\ (JsMap.has (timerRunId tm) (runContextById s) = true ->
        LogWarn (ForceClearingStaleAgentRun (timerRunId tm) MAX_RUN_DURATION_MS)
        ∈ extra).
Proof.
  rewrite runTimer_eq.
  destruct (JsMap.has (timerRunId tm) (runContextById s)) eqn:Eh.
  - rewrite clearAgentRunContext_eq. simpl. rewrite Eh.
    eexists. eexists. split; [done|]. simpl.
    split; [done|]. split; [done|]. split; [by rewrite <- app_assoc|].
    split; [intros k; apply has_delete|].
    intros _. apply elem_of_cons. by left.
  - exists s, []. split; [done|]. split; [done|]. split; [done|].
    split; [by rewrite app_nil_r|]. split; [|done].
    intros k. case_bool_decide; [by subst k | done].
Qed.

(** The same for a batch of timers run one after the other. *)
Lemma runTimers_effect (batch : list Timer) runId s :
  exists s' extra,
    forOf batch runTimer s = Normal s'
    /\ timers s' = timers s
    /\ now s' = now s
    /\ log s' = log s ++ extra
    /\ JsMap.has runId (runContextById s')
       = JsMap.has runId (runContextById s)
         && forallb (fun tm => negb (bool_decide (timerRunId tm = runId))) batch
    /\ (JsMap.has runId (runContextById s) = true ->
        existsb (fun tm => bool_decide (timerRunId tm = runId)) batch = true ->
        LogWarn (ForceClearingStaleAgentRun runId MAX_RUN_DURATION_MS)
        ∈ extra).
Proof.
  revert s. induction batch as [|tm batch IH]; intros s.
  - exists s, []. simpl. rewrite app_nil_r, andb_true_r. done.
  - destruct (runTimer_effect tm s) as (s1 & x1 & E1 & Ht1 & Hn1 & Hl1 & Hh1 & Hw1).
    destruct (IH s1) as (s' & x2 & E & Ht & Hn & Hl & Hh & Hw).
    exists s', (x1 ++ x2). simpl. rewrite E1. simpl.
    split; [done|]. split; [congruence|]. split; [congruence|].
    split; [by rewrite Hl, Hl1, app_assoc|]. split.
    + rewrite Hh, Hh1.
      destruct (decide (timerRunId tm = runId)) as [Heq|Hne].
      * rewrite (bool_decide_eq_true_2 (runId = timerRunId tm)) by done.
        rewrite (bool_decide_eq_true_2 (timerRunId tm = runId)) by done.
        simpl. by rewrite andb_false_r.
      * rewrite (bool_decide_eq_false_2 (runId = timerRunId tm)) by congruence.
        rewrite (bool_decide_eq_false_2 (timerRunId tm = runId)) by done.
        done.
    + intros Hhas Hex. apply elem_of_app.
      destruct (decide (timerRunId tm = runId)) as [Heq|Hne].
      * left. subst runId. by apply Hw1.
      * right. apply Hw.
        -- rewrite Hh1, bool_decide_eq_false_2 by congruence. done.
        -- rewrite bool_decide_eq_false_2 in Hex by done. done.
Qed.

(** The state of a run registered at [t0], as long as its originator
    makes no call for it: either it is still held, its timer is pending and
    not yet due, or it is gone and its eviction has been logged since. *)
Lemma stale_invariant_step (o : Op Env) runId (t0 : Z)
  (before : list LogEntry) s :
  mentionsRun runId o = false ->
  (exists extra,
      log s = before ++ extra
      /\ ((JsMap.has runId (runContextById s) = false
           /\ LogWarn (ForceClearingStaleAgentRun runId MAX_RUN_DURATION_MS)
              ∈ extra)
          \/ (JsMap.has runId (runContextById s) = true
              /\ mkTimer (t0 + MAX_RUN_DURATION_MS) runId ∈ timers s
              /\ now s < t0 + MAX_RUN_DURATION_MS))) ->
  exists s',
    doOp o s = Normal s'
    /\ exists extra,
         log s' = before ++ extra
         /\ ((JsMap.has runId (runContextById s') = false
              /\ LogWarn (ForceClearingStaleAgentRun runId MAX_RUN_DURATION_MS)
                 ∈ extra)
             \/ (JsMap.has runId (runContextById s') = true
                 /\ mkTimer (t0 + MAX_RUN_DURATION_MS) runId ∈ timers s'
                 /\ now s' < t0 + MAX_RUN_DURATION_MS)).
Proof.
  intros Hm (extra & Hlog & Hinv).
  destruct o as [id c|id|event|cb|cb|l|l|dt]; simpl in *.
  - apply bool_decide_eq_false in Hm.
    rewrite registerAgentRunContext_eq. eexists; split; [done|].
    destruct (negb (truthyString id)); [by exists extra|].
    destruct (JsMap.get id (runContextById s)) eqn:Eg; simpl.
    + exists extra. split; [done|].
      unfold JsMap.has in *. by rewrite JsMapFacts.get_mutate_ne.
    + eexists. split; [by rewrite Hlog, <- app_assoc|].
      unfold JsMap.has in *. rewrite JsMapFacts.get_set_ne by done.
      destruct Hinv as [[Hh Hw]|(Hh & Ht & Hn)].
      * left. split; [done|]. apply elem_of_app. by left.
      * right. split; [done|]. split; [|done]. apply elem_of_app. by left.
  - apply bool_decide_eq_false in Hm.
    rewrite clearAgentRunContext_eq. eexists; split; [done|].
    destruct (JsMap.has id (runContextById s)) eqn:Eh; simpl.
    + eexists. split; [by rewrite Hlog, <- app_assoc|].
      rewrite has_delete, bool_decide_eq_false_2 by congruence.
      destruct Hinv as [[Hh Hw]|(Hh & Ht & Hn)].
      * left. split; [done|]. apply elem_of_app. by left.
      * right. done.
    + by exists extra.
  - rewrite emitAgentEvent_eq. eexists; split; [done|]. by exists extra.
  - eexists; split; [done|]. by exists extra.
  - eexists; split; [done|]. by exists extra.
  - eexists; split; [done|]. by exists extra.
  - eexists; split; [done|]. by exists extra.
  - unfold advanceClock.
    destruct (runTimers_effect
                (List.filter (isDue (now (withNow (now s + dt) s)))
                   (timers (withNow (now s + dt) s)))
                runId
                (withTimers
                   (List.filter
                      (fun tm => negb (isDue (now (withNow (now s + dt) s)) tm))
                      (timers (withNow (now s + dt) s)))
                   (withNow (now s + dt) s)))
      as (s' & x & E & Ht & Hn & Hl & Hh & Hw).
    simpl in *. exists s'. split; [exact E|].
    exists (extra ++ x). split; [by rewrite Hl, Hlog, app_assoc|].
    destruct Hinv as [[Hhas Hwarn]|(Hhas & Htm & Hnow)].
    + left. rewrite Hh, Hhas. split; [done|]. apply elem_of_app. by left.
    + rewrite Hhas in Hh, Hw. simpl in Hh.
      destruct (forallb
                  (fun tm => negb (bool_decide (timerRunId tm = runId)))
                  (List.filter (isDue (now s + dt)) (timers s))) eqn:Eall.
      * right. split; [done|].
        assert (Hnd : isDue (now s + dt)
                        (mkTimer (t0 + MAX_RUN_DURATION_MS) runId) = false).
        { destruct (isDue (now s + dt)
                      (mkTimer (t0 + MAX_RUN_DURATION_MS) runId)) eqn:Ed; [|done].
          exfalso. rewrite forallb_forall in Eall.
          specialize (Eall (mkTimer (t0 + MAX_RUN_DURATION_MS) runId)).
          rewrite filter_In, <- list_elem_of_In in Eall.
          specialize (Eall (conj Htm Ed)). simpl in Eall.
          by rewrite bool_decide_eq_true_2 in Eall. }
        split.
        -- rewrite Ht. apply list_elem_of_In, filter_In.
           split; [by apply list_elem_of_In | by rewrite Hnd].
        -- rewrite Hn. unfold isDue in Hnd. simpl in Hnd. lia.
      * left. split; [done|]. apply elem_of_app. right. apply Hw; [done|].
        apply not_true_iff_false in Eall.
        destruct (existsb (fun tm => bool_decide (timerRunId tm = runId))
                    (List.filter (isDue (now s + dt)) (timers s))) eqn:Eex;
          [done|].
        exfalso. apply Eall. apply forallb_forall. intros tm Hin.
        destruct (bool_decide (timerRunId tm = runId)) eqn:Eb; [|done].
        assert (existsb (fun tm => bool_decide (timerRunId tm = runId))
                  (List.filter (isDue (now s + dt)) (timers s)) = true)
          by (apply existsb_exists; eauto).
        congruence.
Qed.

End StaleEviction.

Section StaleEvictionClaim.
Context {Env : Type}.
Implicit Types (w s : World Env) (runId : string) (tm : Timer).

Lemma stale_invariant_runOps (ops : list (Op Env)) runId (t0 : Z)
  (before : list LogEntry) s :
  forallb (fun o => negb (mentionsRun runId o)) ops = true ->
  (exists extra,
      log s = before ++ extra
      /\ ((JsMap.has runId (runContextById s) = false
           /\ LogWarn (ForceClearingStaleAgentRun runId MAX_RUN_DURATION_MS)
              ∈ extra)
          \/ (JsMap.has runId (runContextById s) = true
              /\ mkTimer (t0 + MAX_RUN_DURATION_MS) runId ∈ timers s
              /\ now s < t0 + MAX_RUN_DURATION_MS))) ->
  exists s',
    runOps ops s = Normal s'
    /\ exists extra,
         log s' = before ++ extra
         /\ ((JsMap.has runId (runContextById s') = false
              /\ LogWarn (ForceClearingStaleAgentRun runId MAX_RUN_DURATION_MS)
                 ∈ extra)
             \/ (JsMap.has runId (runContextById s') = true
                 /\ mkTimer (t0 + MAX_RUN_DURATION_MS) runId ∈ timers s'
                 /\ now s' < t0 + MAX_RUN_DURATION_MS)).
Proof.
  revert s. induction ops as [|o ops IH]; intros s Hops Hinv.
  - exists s. done.
  - simpl in Hops. apply andb_true_iff in Hops as [Ho Hops].
    apply negb_true_iff in Ho.
    destruct (stale_invariant_step o runId t0 before s Ho Hinv)
      as (s1 & E1 & Hinv1).
    destruct (IH s1 Hops Hinv1) as (s' & E & Hinv').
    exists s'. split; [|done]. unfold runOps in *. simpl. by rewrite E1.
Qed.

(** A later registration of the same id stays in the log when the log
    grows. *)
Lemma registered_anew_grows runId (extra more : list LogEntry) :
  (exists pre n post,
      extra = pre ++ LogDebug (AgentRunRegistered runId n) :: post
      /\ LogWarn (ForceClearingStaleAgentRun runId MAX_RUN_DURATION_MS) ∈ pre) ->
  exists pre n post,
    extra ++ more = pre ++ LogDebug (AgentRunRegistered runId n) :: post
    /\ LogWarn (ForceClearingStaleAgentRun runId MAX_RUN_DURATION_MS) ∈ pre.
Proof.
  intros (pre & n & post & -> & Hpre). exists pre, n, (post ++ more).
  split; [by rewrite <- app_assoc | done].
Qed.

(** The state of a run registered at [t0] that its originator may register
    again but does not clear: either it is still held, its timer is pending
    and not yet due; or its eviction has been logged since, and the id is
    held again only if it was registered anew after that eviction. *)
Lemma eviction_invariant_step (o : Op Env) runId (t0 : Z)
  (before : list LogEntry) s :
  clearsRun runId o = false ->
  (exists extra,
      log s = before ++ extra
      /\ ((LogWarn (ForceClearingStaleAgentRun runId MAX_RUN_DURATION_MS)
            ∈ extra
           /\ (JsMap.has runId (runContextById s) = true ->
               exists pre n post,
                 extra = pre ++ LogDebug (AgentRunRegistered runId n) :: post
                 /\ LogWarn
                      (ForceClearingStaleAgentRun runId MAX_RUN_DURATION_MS)
                    ∈ pre))
          \/ (JsMap.has runId (runContextById s) = true
              /\ mkTimer (t0 + MAX_RUN_DURATION_MS) runId ∈ timers s
              /\ now s < t0 + MAX_RUN_DURATION_MS))) ->
  exists s',
    doOp o s = Normal s'
    /\ exists extra,
         log s' = before ++ extra
         /\ ((LogWarn (ForceClearingStaleAgentRun runId MAX_RUN_DURATION_MS)
               ∈ extra
              /\ (JsMap.has runId (runContextById s') = true ->
                  exists pre n post,
                    extra
                    = pre ++ LogDebug (AgentRunRegistered runId n) :: post
                    /\ LogWarn
                         (ForceClearingStaleAgentRun runId MAX_RUN_DURATION_MS)
                       ∈ pre))
             \/ (JsMap.has runId (runContextById s') = true
                 /\ mkTimer (t0 + MAX_RUN_DURATION_MS) runId ∈ timers s'
                 /\ now s' < t0 + MAX_RUN_DURATION_MS)).
Proof.
  intros Hm (extra & Hlog & Hinv).
  destruct o as [id c|id|event|cb|cb|l|l|dt]; simpl in *.
  - rewrite registerAgentRunContext_eq. eexists; split; [done|].
    destruct (negb (truthyString id)); [by exists extra|].
    destruct (JsMap.get id (runContextById s)) eqn:Eg; simpl.
    + exists extra. split; [done|].
      assert (Hsame : JsMap.has runId
                        (JsMap.mutate (mergeContext c) id (runContextById s))
                      = JsMap.has runId (runContextById s)).
      { unfold JsMap.has. destruct (decide (id = runId)) as [->|Hne].
        - rewrite JsMapFacts.get_mutate_eq.
          by destruct (JsMap.get runId (runContextById s)).
        - by rewrite JsMapFacts.get_mutate_ne. }
      by rewrite Hsame.
    + eexists. split; [by rewrite Hlog, <- app_assoc|].
      destruct (decide (id = runId)) as [->|Hne].
      * destruct Hinv as [[Hw Hanew]|(Hh & _)].
        2:{ unfold JsMap.has in Hh. by rewrite Eg in Hh. }
        left. split; [apply elem_of_app; by left|].
        intros _. eexists extra, _, []. done.
      * unfold JsMap.has in *. rewrite JsMapFacts.get_set_ne by done.
        destruct Hinv as [[Hw Hanew]|(Hh & Ht & Hn)].
        -- left. split; [apply elem_of_app; by left|].
           intros Hh. by apply registered_anew_grows, Hanew.
        -- right. split; [done|]. split; [|done]. apply elem_of_app. by left.
  - apply bool_decide_eq_false in Hm.
    rewrite clearAgentRunContext_eq. eexists; split; [done|].
    destruct (JsMap.has id (runContextById s)) eqn:Eh; simpl.
    + eexists. split; [by rewrite Hlog, <- app_assoc|].
      rewrite has_delete, bool_decide_eq_false_2 by congruence.
      destruct Hinv as [[Hw Hanew]|(Hh & Ht & Hn)].
      * left. split; [apply elem_of_app; by left|].
        intros Hh. by apply registered_anew_grows, Hanew.
      * right. done.
    + by exists extra.
  - rewrite emitAgentEvent_eq. eexists; split; [done|]. by exists extra.
  - eexists; split; [done|]. by exists extra.
  - eexists; split; [done|]. by exists extra.
  - eexists; split; [done|]. by exists extra.
  - eexists; split; [done|]. by exists extra.
  - unfold advanceClock.
    destruct (runTimers_effect
                (List.filter (isDue (now (withNow (now s + dt) s)))
                   (timers (withNow (now s + dt) s)))
                runId
                (withTimers
                   (List.filter
                      (fun tm => negb (isDue (now (withNow (now s + dt) s)) tm))
                      (timers (withNow (now s + dt) s)))
                   (withNow (now s + dt) s)))
      as (s' & x & E & Ht & Hn & Hl & Hh & Hw).
    simpl in *. exists s'. split; [exact E|].
    exists (extra ++ x). split; [by rewrite Hl, Hlog, app_assoc|].
    destruct Hinv as [[Hwarn Hanew]|(Hhas & Htm & Hnow)].
    + left. split; [apply elem_of_app; by left|].
      rewrite Hh. intros Hheld. apply andb_true_iff in Hheld as [Hheld _].
      by apply registered_anew_grows, Hanew.
    + rewrite Hhas in Hh, Hw. simpl in Hh.
      destruct (forallb
                  (fun tm => negb (bool_decide (timerRunId tm = runId)))
                  (List.filter (isDue (now s + dt)) (timers s))) eqn:Eall.
      * right. split; [done|].
        assert (Hnd : isDue (now s + dt)
                        (mkTimer (t0 + MAX_RUN_DURATION_MS) runId) = false).
        { destruct (isDue (now s + dt)
                      (mkTimer (t0 + MAX_RUN_DURATION_MS) runId)) eqn:Ed; [|done].
          exfalso. rewrite forallb_forall in Eall.
          specialize (Eall (mkTimer (t0 + MAX_RUN_DURATION_MS) runId)).
          rewrite filter_In, <- list_elem_of_In in Eall.
          specialize (Eall (conj Htm Ed)). simpl in Eall.
          by rewrite bool_decide_eq_true_2 in Eall. }
        split.
        -- rewrite Ht. apply list_elem_of_In, filter_In.
           split; [by apply list_elem_of_In | by rewrite Hnd].
        -- rewrite Hn. unfold isDue in Hnd. simpl in Hnd. lia.
      * left. split; [|intros Hheld; congruence].
        apply elem_of_app. right. apply Hw; [done|].
        apply not_true_iff_false in Eall.
        destruct (existsb (fun tm => bool_decide (timerRunId tm = runId))
                    (List.filter (isDue (now s + dt)) (timers s))) eqn:Eex;
          [done|].
        exfalso. apply Eall. apply forallb_forall. intros tm Hin.
        destruct (bool_decide (timerRunId tm = runId)) eqn:Eb; [|done].
        assert (existsb (fun tm => bool_decide (timerRunId tm = runId))
                  (List.filter (isDue (now s + dt)) (timers s)) = true)
          by (apply existsb_exists; eauto).
        congruence.
Qed.

Lemma eviction_invariant_runOps (ops : list (Op Env)) runId (t0 : Z)
  (before : list LogEntry) s :
  forallb (fun o => negb (clearsRun runId o)) ops = true ->
  (exists extra,
      log s = before ++ extra
      /\ ((LogWarn (ForceClearingStaleAgentRun runId MAX_RUN_DURATION_MS)
            ∈ extra
           /\ (JsMap.has runId (runContextById s) = true ->
               exists pre n post,
                 extra = pre ++ LogDebug (AgentRunRegistered runId n) :: post
                 /\ LogWarn
                      (ForceClearingStaleAgentRun runId MAX_RUN_DURATION_MS)
                    ∈ pre))
          \/ (JsMap.has runId (runContextById s) = true
              /\ mkTimer (t0 + MAX_RUN_DURATION_MS) runId ∈ timers s
              /\ now s < t0 + MAX_RUN_DURATION_MS))) ->
  exists s',
    runOps ops s = Normal s'
    /\ exists extra,
         log s' = before ++ extra
         /\ ((LogWarn (ForceClearingStaleAgentRun runId MAX_RUN_DURATION_MS)
               ∈ extra
              /\ (JsMap.has runId (runContextById s') = true ->
                  exists pre n post,
                    extra
                    = pre ++ LogDebug (AgentRunRegistered runId n) :: post
                    /\ LogWarn
                         (ForceClearingStaleAgentRun runId MAX_RUN_DURATION_MS)
                       ∈ pre))
             \/ (JsMap.has runId (runContextById s') = true
                 /\ mkTimer (t0 + MAX_RUN_DURATION_MS) runId ∈ timers s'
                 /\ now s' < t0 + MAX_RUN_DURATION_MS)).
Proof.
  revert s. induction ops as [|o ops IH]; intros s Hops Hinv.
  - exists s. done.
  - simpl in Hops. apply andb_true_iff in Hops as [Ho Hops].
    apply negb_true_iff in Ho.
    destruct (eviction_invariant_step o runId t0 before s Ho Hinv)
      as (s1 & E1 & Hinv1).
    destruct (IH s1 Hops Hinv1) as (s' & E & Hinv').
    exists s'. split; [|done]. unfold runOps in *. simpl. by rewrite E1.
Qed.

(** C6: registering a new run schedules one timer, due
    [MAX_RUN_DURATION_MS] (ten minutes) later.  When that timer runs and the
    run is still held, a warning names the stale run and the run is cleared
    by [clearAgentRunContext] itself: the record is removed, the clearing
    is logged and every completion subscriber is called; when the run is
    no longer held the timer does nothing.  However the module is used in
    between, as long as the originator does not clear the run (it may
    register the id again, which merges into the held record and leaves
    the timer alone), once the clock has reached the due time the eviction
    of the run has been logged since its registration, and the id is not
    held any more unless it was registered anew after that eviction; it is
    not held when the originator made no call at all for the id. *)
Theorem stale_run_is_force_cleared runId (context : AgentRunContext.t) w
  (ops : list (Op Env)) :
  runId <> "" ->
  getAgentRunContext runId w = None ->
  forallb (fun o => negb (clearsRun runId o)) ops = true ->
  now w + MAX_RUN_DURATION_MS
  <= now (finalState
            (runOps ops
               (finalState (registerAgentRunContext runId context w)))) ->
  exists w1 w2 extra,
    registerAgentRunContext runId context w = Normal w1
    /\ timers w1 = timers w ++ [mkTimer (now w + MAX_RUN_DURATION_MS) runId]
    /\ MAX_RUN_DURATION_MS = 600000
    /\ runOps ops w1 = Normal w2
    /\ log w2 = log w1 ++ extra
    /\ LogWarn (ForceClearingStaleAgentRun runId MAX_RUN_DURATION_MS) ∈ extra
    /\ (getAgentRunContext runId w2 <> None ->
        exists pre n post,
          extra = pre ++ LogDebug (AgentRunRegistered runId n) :: post
          /\ LogWarn (ForceClearingStaleAgentRun runId MAX_RUN_DURATION_MS)
             ∈ pre)
    /\ (forallb (fun o => negb (mentionsRun runId o)) ops = true ->
        getAgentRunContext runId w2 = None)
    /\ forall s, exists s',
         runTimer (mkTimer (now w + MAX_RUN_DURATION_MS) runId) s = Normal s'
         /\ if JsMap.has runId (runContextById s) then
              clearAgentRunContext runId
                (agentLog_warn
                   (ForceClearingStaleAgentRun runId MAX_RUN_DURATION_MS) s)
              = Normal s'
              /\ getAgentRunContext runId s' = None
              /\ env s'
                 = afterCallbacks (runCompletionCallbacks s)
                     (runContextById s') (env s)
              /\ log s'
                 = log s
                   ++ [LogWarn
                         (ForceClearingStaleAgentRun runId MAX_RUN_DURATION_MS);
                       LogDebug
                         (AgentRunCleared runId (getActiveAgentRunCount s'))]
            else s' = s.
Proof.
  intros Hne Hget Hops Hage. unfold getAgentRunContext in *.
  apply truthyString_nonempty in Hne.
  rewrite registerAgentRunContext_eq in *. rewrite Hne, Hget in *.
  simpl in Hage.
  set (w1 := mkWorld (seqByRun w) (listeners w)
               (JsMap.set runId context (runContextById w))
               (runCompletionCallbacks w)
               (<[runId := now w]> (runStartTimes w))
               (timers w ++ [mkTimer (now w + MAX_RUN_DURATION_MS) runId])
               (now w)
               (log w ++
                  [LogDebug
                     (AgentRunRegistered runId
                        (JsMap.size
                           (JsMap.set runId context (runContextById w))))])
               (env w)) in *.
  assert (Hheld : JsMap.has runId (runContextById w1) = true
                  /\ mkTimer (now w + MAX_RUN_DURATION_MS) runId ∈ timers w1
                  /\ now w1 < now w + MAX_RUN_DURATION_MS).
  { split; [|split].
    - unfold JsMap.has. simpl. by rewrite JsMapFacts.get_set_eq.
    - simpl. apply elem_of_app. right. apply list_elem_of_singleton. done.
    - simpl. unfold MAX_RUN_DURATION_MS. lia. }
  destruct (eviction_invariant_runOps ops runId (now w) (log w1) w1 Hops)
    as (w2 & E & extra & Hlog & Hinv).
  { exists []. split; [by rewrite app_nil_r|]. by right. }
  rewrite E in Hage. simpl in Hage.
  destruct Hinv as [[Hw Hanew]|(_ & _ & Hn)]; [|lia].
  exists w1, w2, extra. simpl.
  split; [done|]. split; [done|]. split; [done|]. split; [done|].
  split; [done|]. split; [done|].
  split.
  { intros Hstill. apply Hanew. unfold JsMap.has.
    by destruct (JsMap.get runId (runContextById w2)). }
  split.
  { intros Hnone.
    destruct (stale_invariant_runOps ops runId (now w) (log w1) w1 Hnone)
      as (w2' & E' & extra' & _ & Hinv').
    { exists []. split; [by rewrite app_nil_r|]. by right. }
    rewrite E in E'. injection E' as <-.
    destruct Hinv' as [[Hh _]|(_ & _ & Hn)]; [|lia].
    by apply JsMapFacts.has_false_get. }
  intros s. rewrite runTimer_eq. simpl.
  destruct (JsMap.has runId (runContextById s)) eqn:Eh; [|by exists s].
  rewrite clearAgentRunContext_eq. simpl. rewrite Eh.
  eexists. split; [done|]. split; [done|]. simpl.
  split; [apply JsMapFacts.get_delete_eq|]. split; [done|].
  by rewrite <- app_assoc.
Qed.

End StaleEvictionClaim.

Lemma stale_run_is_force_cleared_witness :
  let ops : list (Op (list (nat * Z))) :=
    [OpAdvanceClock 300000; OpRegister "x" updatedContext;
     OpRegister "y" noContext; OpAdvanceClock 300000] in
  "x" <> ""
  /\ getAgentRunContext "x" recordingWorld = None
  /\ forallb (fun o => negb (clearsRun "x" o)) ops = true
  /\ exists w1 w2,
       registerAgentRunContext "x" noContext recordingWorld = Normal w1
       /\ runOps ops w1 = Normal w2
       /\ now w2 = 600000
       /\ getActiveAgentRunIds w2 = ["y"]
       /\ env w2 = [(1%nat, 1); (2%nat, 1)]
       /\ log w2
          = [LogDebug (AgentRunRegistered "x" 1);
             LogDebug (AgentRunRegistered "y" 2);
             LogWarn (ForceClearingStaleAgentRun "x" 600000);
             LogDebug (AgentRunCleared "x" 1)].
Proof.
  intros ops. split; [done|]. split; [reflexivity|]. split; [reflexivity|].
  destruct (stale_run_is_force_cleared "x" noContext recordingWorld ops)
    as (w1 & w2 & extra & E1 & _ & _ & E2 & _).
  - done.
  - reflexivity.
  - reflexivity.
  - apply Z.leb_le. vm_compute. reflexivity.
  - exists w1, w2. split; [exact E1|]. split; [exact E2|].
    assert (Ew1 : w1 = finalState
                         (registerAgentRunContext "x" noContext recordingWorld))
      by by rewrite E1.
    assert (Ew2 : w2 = finalState (runOps ops w1)) by by rewrite E2.
    rewrite Ew2, Ew1. repeat split; vm_compute; reflexivity.
Defined.

(** A timer that outlives its run: "x" is registered at 0 and cleared,
    then registered again at 540000; the first timer comes due at 600000
    and evicts the second run, which is one minute old. *)
Example stale_timer_evicts_reregistered_run :
  let ops : list (Op unit) :=
    [OpRegister "x" noContext; OpClear "x"; OpAdvanceClock 540000;
     OpRegister "x" noContext; OpAdvanceClock 60000] in
  let w := finalState (runOps ops sampleWorld) in
  now w = 600000
  /\ getActiveAgentRunIds w = []
  /\ timers w = [mkTimer 1140000 "x"].
Proof. repeat split. Qed.

(** ** Deferred restart *)

Section DeferredRestart.
Variable bridgeReachable : string -> bool.
Implicit Types (w : World Coordinator.t) (runId : string).

(** C1: with exactly one run held and the coordinator subscribed to the
    registry, evaluating a restart-required plan queues the plan and makes
    no request to the Lifecycle Bridge; clearing that run, or its stale
    eviction, then brings the count to zero and makes exactly one request,
    with the reason of the queued plan.  In general a request is made by
    [evaluate] only when the count it reads is zero and by the completion
    callback only when a plan is queued and the registry is empty. *)
Theorem restart_is_deferred_until_run_clears runId
  (context : AgentRunContext.t) (plan : Coordinator.ReloadPlan) w :
  runContextById w = [(runId, context)] ->
  runCompletionCallbacks w = [Coordinator.subscriber bridgeReachable] ->
  Coordinator.classification plan = Coordinator.RestartRequired ->
  exists w1 w2,
    Coordinator.evaluate bridgeReachable plan w = w1
    /\ getActiveAgentRunCount w1 = 1
    /\ Coordinator.state (env w1) = Coordinator.PlanQueued
    /\ Coordinator.queuedRestart (env w1) = Some plan
    /\ Coordinator.bridgeRequests (env w1) = Coordinator.bridgeRequests (env w)
    /\ clearAgentRunContext runId w1 = Normal w2
    /\ getActiveAgentRunCount w2 = 0
    /\ Coordinator.state (env w2) = Coordinator.Applying
    /\ Coordinator.bridgeRequests (env w2)
       = Coordinator.bridgeRequests (env w) ++ [Coordinator.reason plan]
    /\ (forall d, exists w3,
          runTimer (mkTimer d runId) w1 = Normal w3
          /\ env w3 = env w2
          /\ getActiveAgentRunCount w3 = 0)
    /\ (forall count p c,
          Coordinator.bridgeRequests
            (Coordinator.evaluatePlan bridgeReachable count p c)
          = match Coordinator.classification p with
            | Coordinator.RestartRequired =>
                if count =? 0
                then Coordinator.bridgeRequests c ++ [Coordinator.reason p]
                else Coordinator.bridgeRequests c
            | _ => Coordinator.bridgeRequests c
            end)
    /\ (forall m c,
          Coordinator.bridgeRequests
            (Coordinator.onRunCompleted bridgeReachable m c)
          = match Coordinator.state c, Coordinator.queuedRestart c with
            | Coordinator.PlanQueued, Some queued =>
                if JsMap.size m =? 0
                then Coordinator.bridgeRequests c ++ [Coordinator.reason queued]
                else Coordinator.bridgeRequests c
            | _, _ => Coordinator.bridgeRequests c
            end).
Proof.
  intros Hm Hcb Hplan.
  assert (Hev : Coordinator.evaluatePlan bridgeReachable
                  (getActiveAgentRunCount w) plan (env w)
                = Coordinator.mk Coordinator.PlanQueued (Some plan)
                    (Coordinator.bridgeRequests (env w))
                    (Coordinator.hotApplied (env w))
                    (match Coordinator.queuedRestart (env w) with
                     | Some old =>
                         Coordinator.coordinatorLog (env w)
                         ++ [Coordinator.Superseded old plan]
                     | None => Coordinator.coordinatorLog (env w)
                     end)).
  { unfold Coordinator.evaluatePlan, getActiveAgentRunCount.
    by rewrite Hplan, Hm. }
  assert (Hhas : JsMap.has runId [(runId, context)] = true).
  { unfold JsMap.has, JsMap.get. by rewrite decide_True. }
  assert (Hdel : JsMap.delete runId [(runId, context)] = []).
  { simpl. by rewrite decide_True. }
  eexists. eexists. split; [reflexivity|].
  unfold Coordinator.evaluate. rewrite Hev.
  split; [unfold getActiveAgentRunCount; simpl; by rewrite Hm|].
  split; [done|]. split; [done|]. split; [done|].
  rewrite clearAgentRunContext_eq. simpl. rewrite Hm, Hcb, Hhas, Hdel. simpl.
  split; [reflexivity|]. simpl.
  split; [done|]. split; [done|]. split; [done|]. split; [|split].
  - intros d. rewrite runTimer_eq. simpl. rewrite Hm, Hhas.
    rewrite clearAgentRunContext_eq. simpl. rewrite Hm, Hcb, Hhas, Hdel. simpl.
    eexists. split; [reflexivity|]. done.
  - intros count p c. unfold Coordinator.evaluatePlan.
    destruct (Coordinator.classification p); try done.
    by destruct (count =? 0).
  - intros m c. unfold Coordinator.onRunCompleted.
    destruct (Coordinator.state c); try done.
    destruct (Coordinator.queuedRestart c); try done.
    by destruct (JsMap.size m =? 0).
Qed.

End DeferredRestart.

Lemma restart_is_deferred_until_run_clears_witness :
  let w := finalState (registerAgentRunContext "r1" noContext coordinatedWorld) in
  runContextById w = [("r1", noContext)]
  /\ runCompletionCallbacks w = [Coordinator.subscriber alwaysReachable]
  /\ Coordinator.classification restartPlan = Coordinator.RestartRequired
  /\ exists w1 w2,
       Coordinator.evaluate alwaysReachable restartPlan w = w1
       /\ Coordinator.state (env w1) = Coordinator.PlanQueued
       /\ Coordinator.bridgeRequests (env w1) = []
       /\ clearAgentRunContext "r1" w1 = Normal w2
       /\ Coordinator.state (env w2) = Coordinator.Applying
       /\ Coordinator.bridgeRequests (env w2)
          = ["config change requires gateway restart"].
Proof.
  intros w. split; [reflexivity|]. split; [reflexivity|]. split; [reflexivity|].
  destruct (restart_is_deferred_until_run_clears alwaysReachable "r1"
              noContext restartPlan w eq_refl eq_refl eq_refl)
    as (w1 & w2 & E1 & _ & Hs1 & _ & Hb1 & E2 & _ & Hs2 & Hb2 & _).
  exists w1, w2. repeat split; try done.
Defined.

(** Scenario C of the specification: two runs held, a plan queued; the
    first clear makes no request, the second makes one. *)
Example scenario_two_runs :
  let ops1 : list (Op Coordinator.t) :=
    [OpRegister "a" noContext; OpRegister "b" noContext] in
  let w1 :=
    Coordinator.evaluate alwaysReachable restartPlan
      (finalState (runOps ops1 coordinatedWorld)) in
  let w2 := finalState (clearAgentRunContext "a" w1) in
  let w3 := finalState (clearAgentRunContext "b" w2) in
  Coordinator.bridgeRequests (env w1) = []
  /\ Coordinator.bridgeRequests (env w2) = []
  /\ Coordinator.state (env w2) = Coordinator.PlanQueued
  /\ Coordinator.bridgeRequests (env w3)
     = ["config change requires gateway restart"]
  /\ Coordinator.state (env w3) = Coordinator.Applying.
Proof. repeat split. Qed.

(** * Further properties of the registry *)

Section RegistryRoundTrips.
Context {Env : Type}.
Implicit Types (w : World Env) (runId : string).

Lemma delete_set_fresh {V : Type} (k : string) (v : V) (m : list (string * V)) :
  JsMap.get k m = None -> JsMap.delete k (JsMap.set k v m) = m.
Proof.
  induction m as [|[k' v'] m IH]; simpl.
  - intros _. by rewrite decide_True.
  - destruct (decide (k = k')) as [->|Hne]; [done|].
    intros H. simpl. rewrite decide_False by done. by rewrite IH.
Qed.

Lemma size_set_fresh {V : Type} (k : string) (v : V) (m : list (string * V)) :
  JsMap.get k m = None -> JsMap.size (JsMap.set k v m) = JsMap.size m + 1.
Proof.
  intros H. rewrite !JsMapFacts.size_keys, JsMapFacts.keys_set_fresh by done.
  rewrite length_app. simpl. lia.
Qed.

(** X1: a first registration can be read back: the record stored for a new,
    non-empty id is the context given, every other record is untouched,
    the id is listed last, the count has grown by one, the start time is
    the time of the call, and no subscriber has been called. *)
Theorem register_new_id_reads_back runId (context : AgentRunContext.t) w :
  runId <> "" ->
  getAgentRunContext runId w = None ->
  exists w',
    registerAgentRunContext runId context w = Normal w'
    /\ getAgentRunContext runId w' = Some context
    /\ (forall other, other <> runId ->
          getAgentRunContext other w' = getAgentRunContext other w)
    /\ getActiveAgentRunIds w' = getActiveAgentRunIds w ++ [runId]
    /\ getActiveAgentRunCount w' = getActiveAgentRunCount w + 1
    /\ runStartTimes w' !! runId = Some (now w)
    /\ env w' = env w.
Proof.
  intros Hne Hget. unfold getAgentRunContext in *.
  apply truthyString_nonempty in Hne.
  rewrite registerAgentRunContext_eq, Hne, Hget. simpl.
  eexists. split; [done|].
  unfold getActiveAgentRunIds, getActiveAgentRunCount. simpl.
  split; [apply JsMapFacts.get_set_eq|].
  split; [intros other Ho; by apply JsMapFacts.get_set_ne|].
  split; [by apply JsMapFacts.keys_set_fresh|].
  split; [by apply size_set_fresh|].
  split; [apply lookup_insert_eq | done].
Qed.

(** X2: registering a new id and clearing it again gives back the registry as
    it was: same records in the same order, same count.  The subscribers
    have been called once, seeing the registry without the run, and the
    timer of the run stays behind. *)
Theorem register_then_clear_restores_registry runId
  (context : AgentRunContext.t) w :
  runId <> "" ->
  getAgentRunContext runId w = None ->
  exists w1 w2,
    registerAgentRunContext runId context w = Normal w1
    /\ clearAgentRunContext runId w1 = Normal w2
    /\ runContextById w2 = runContextById w
    /\ getActiveAgentRunCount w2 = getActiveAgentRunCount w
    /\ env w2
       = afterCallbacks (runCompletionCallbacks w) (runContextById w) (env w)
    /\ seqByRun w2 = seqByRun w
    /\ timers w2 = timers w ++ [mkTimer (now w + MAX_RUN_DURATION_MS) runId].
Proof.
  intros Hne Hget. unfold getAgentRunContext in *.
  apply truthyString_nonempty in Hne.
  rewrite registerAgentRunContext_eq, Hne, Hget. simpl.
  eexists. eexists. split; [done|].
  rewrite clearAgentRunContext_eq. simpl.
  unfold JsMap.has. rewrite JsMapFacts.get_set_eq.
  rewrite delete_set_fresh by done.
  split; [done|]. done.
Qed.

(** X3: clearing is idempotent: a second clear of the same id finds nothing,
    changes neither registry nor log, and calls no subscriber. *)
Theorem second_clear_is_silent runId w :
  exists w1 w2,
    clearAgentRunContext runId w = Normal w1
    /\ clearAgentRunContext runId w1 = Normal w2
    /\ runContextById w2 = runContextById w1
    /\ env w2 = env w1
    /\ log w2 = log w1
    /\ timers w2 = timers w1
    /\ getAgentRunContext runId w2 = None.
Proof.
  assert (Hgone : forall m : RunMap,
             JsMap.has runId (JsMap.delete runId m) = false).
  { intros m. apply JsMapFacts.has_false_get, JsMapFacts.get_delete_eq. }
  rewrite (clearAgentRunContext_eq runId w).
  destruct (JsMap.has runId (runContextById w)) eqn:Eh.
  - eexists. eexists. split; [done|].
    rewrite clearAgentRunContext_eq. simpl. rewrite Hgone.
    split; [done|]. simpl. repeat split.
    apply JsMapFacts.get_delete_eq.
  - eexists. eexists. split; [done|].
    rewrite clearAgentRunContext_eq. simpl. rewrite Eh.
    split; [done|]. simpl. repeat split.
    by apply JsMapFacts.has_false_get.
Qed.

End RegistryRoundTrips.

(** ** Subscriptions *)

Section Subscriptions.
Context {Env : Type}.
Implicit Types (w : World Env) (runId : string).

Lemma setAdd_fresh {Body : Type} (f : Fn Body) (s : list (Fn Body)) :
  existsb (fun g => Nat.eqb (fnRef g) (fnRef f)) s = false ->
  setAdd f s = s ++ [f].
Proof. intros H. unfold setAdd. by rewrite H. Qed.

Lemma setAdd_twice {Body : Type} (f : Fn Body) (s : list (Fn Body)) :
  setAdd f (setAdd f s) = setAdd f s.
Proof.
  unfold setAdd at 2.
  destruct (existsb (fun g => Nat.eqb (fnRef g) (fnRef f)) s) eqn:E.
  - unfold setAdd. by rewrite E.
  - unfold setAdd. rewrite existsb_app, E. simpl.
    by rewrite Nat.eqb_refl.
Qed.

Lemma setDelete_setAdd_fresh {Body : Type} (f : Fn Body) (s : list (Fn Body)) :
  existsb (fun g => Nat.eqb (fnRef g) (fnRef f)) s = false ->
  setDelete f (setAdd f s) = s.
Proof.
  intros H. rewrite setAdd_fresh by done. unfold setDelete.
  rewrite List.filter_app. simpl. rewrite Nat.eqb_refl. simpl.
  rewrite app_nil_r. induction s as [|g s IH]; [done|].
  simpl in *. apply orb_false_iff in H as [Hg Hs].
  rewrite Hg. simpl. by rewrite IH.
Qed.

Lemma afterCallbacks_app (cbs1 cbs2 : list (RunCompletionCallback Env))
  (m : RunMap) (e : Env) :
  afterCallbacks (cbs1 ++ cbs2) m e
  = afterCallbacks cbs2 m (afterCallbacks cbs1 m e).
Proof. unfold afterCallbacks. apply fold_left_app. Qed.

(** X4: subscribing the same function twice is subscribing it once: when a
    held run is cleared, a function that was not subscribed before and is
    then passed to [onAgentRunComplete] twice is called exactly once,
    after the subscribers that were there before it. *)
Theorem callback_subscribed_twice_is_called_once
  (callback : RunCompletionCallback Env) runId w :
  existsb (fun g => Nat.eqb (fnRef g) (fnRef callback))
    (runCompletionCallbacks w) = false ->
  JsMap.has runId (runContextById w) = true ->
  onAgentRunComplete callback (onAgentRunComplete callback w)
  = onAgentRunComplete callback w
  /\ exists w',
       clearAgentRunContext runId
         (onAgentRunComplete callback (onAgentRunComplete callback w))
       = Normal w'
       /\ env w'
          = finalState
              (fnBody callback (JsMap.delete runId (runContextById w))
                 (afterCallbacks (runCompletionCallbacks w)
                    (JsMap.delete runId (runContextById w)) (env w))).
Proof.
  intros Hfresh Hhas.
  assert (Hsame : onAgentRunComplete callback (onAgentRunComplete callback w)
                  = onAgentRunComplete callback w).
  { unfold onAgentRunComplete. simpl. by rewrite setAdd_twice. }
  split; [exact Hsame|]. rewrite Hsame.
  rewrite clearAgentRunContext_eq. simpl. rewrite Hhas.
  eexists. split; [done|]. simpl.
  rewrite setAdd_fresh by done. by rewrite afterCallbacks_app.
Qed.

(** X5: unsubscribing undoes a subscription: for a function that was not
    subscribed before, the function returned by [onAgentRunComplete] puts
    the module back into the state it had; and after unsubscribing, whatever
    the state was, no subscriber with that identity is left. *)
Theorem unsubscribe_undoes_subscribe (callback : RunCompletionCallback Env) w :
  existsb (fun g => Nat.eqb (fnRef g) (fnRef callback))
    (runCompletionCallbacks w) = false ->
  unsubscribeRunComplete callback (onAgentRunComplete callback w) = w
  /\ forall w0 : World Env,
       existsb (fun g => Nat.eqb (fnRef g) (fnRef callback))
         (runCompletionCallbacks (unsubscribeRunComplete callback w0))
       = false.
Proof.
  intros Hfresh. split.
  - unfold unsubscribeRunComplete, onAgentRunComplete. simpl.
    rewrite setDelete_setAdd_fresh by done. by destruct w.
  - intros w0. unfold unsubscribeRunComplete. simpl.
    induction (runCompletionCallbacks w0) as [|g s IH]; [done|].
    simpl. destruct (Nat.eqb (fnRef g) (fnRef callback)) eqn:E; simpl;
      [done | by rewrite E].
Qed.

(** X6: [resetAgentRunContextForTest] empties the registry without telling
    anyone: no subscriber is called and nothing is logged; sequence
    counters, start times and pending timers are kept.  The timers left
    behind are harmless as long as nothing is registered: when they come
    due they find no run, call no subscriber and log nothing. *)
Theorem reset_is_silent_and_leaves_idle_timers (dt : Z) w :
  getActiveAgentRunCount (resetAgentRunContextForTest w) = 0
  /\ getActiveAgentRunIds (resetAgentRunContextForTest w) = []
  /\ env (resetAgentRunContextForTest w) = env w
  /\ log (resetAgentRunContextForTest w) = log w
  /\ seqByRun (resetAgentRunContextForTest w) = seqByRun w
  /\ runStartTimes (resetAgentRunContextForTest w) = runStartTimes w
  /\ timers (resetAgentRunContextForTest w) = timers w
  /\ exists w',
       advanceClock dt (resetAgentRunContextForTest w) = Normal w'
       /\ runContextById w' = []
       /\ env w' = env w
       /\ log w' = log w
       /\ now w' = now w + dt.
Proof.
  repeat (split; [done|]).
  unfold advanceClock.
  apply (forOf_completed _ _
           (fun s => runContextById s = [] /\ env s = env w
                     /\ log s = log w /\ now s = now w + dt)); [|done].
  intros tm s (Hm & He & Hl & Hn). exists s. split; [|done].
  rewrite runTimer_eq, Hm. done.
Qed.

End Subscriptions.

Lemma callback_subscribed_twice_is_called_once_witness :
  let w := finalState
             (registerAgentRunContext "run-1" noContext
                (onAgentRunComplete (recorder 1 false) (initialWorld 0 []))) in
  existsb (fun g => Nat.eqb (fnRef g) (fnRef (recorder 2 true)))
    (runCompletionCallbacks w) = false
  /\ JsMap.has "run-1" (runContextById w) = true
  /\ exists w',
       clearAgentRunContext "run-1"
         (onAgentRunComplete (recorder 2 true)
            (onAgentRunComplete (recorder 2 true) w))
       = Normal w'
       /\ env w' = [(1%nat, 0); (2%nat, 0)].
Proof.
  intros w. split; [reflexivity|]. split; [reflexivity|].
  destruct (callback_subscribed_twice_is_called_once (recorder 2 true)
              "run-1" w eq_refl eq_refl) as (_ & w' & E & He).
  exists w'. split; [exact E|]. rewrite He. reflexivity.
Defined.

Lemma unsubscribe_undoes_subscribe_witness :
  existsb (fun g => Nat.eqb (fnRef g) (fnRef (recorder 3 false)))
    (runCompletionCallbacks recordingWorld) = false
  /\ unsubscribeRunComplete (recorder 3 false)
       (onAgentRunComplete (recorder 3 false) recordingWorld)
     = recordingWorld.
Proof.
  split; [reflexivity|].
  apply (unsubscribe_undoes_subscribe (recorder 3 false) recordingWorld).
  reflexivity.
Defined.

(** ** Invariants of every history *)

Section HistoryInvariants.
Context {Env : Type}.
Implicit Types (w s : World Env) (runId : string) (tm : Timer).

(** X7: whatever is done to the module after it is loaded (registrations,
    clears, events, subscriptions, time passing), the list of active ids
    never holds an id twice and never holds the empty id, and the count is
    the length of that list. *)
Theorem active_ids_are_distinct_and_nonempty (ops : list (Op Env)) (t0 : Z)
  (e : Env) :
  exists w,
    runOps ops (initialWorld t0 e) = Normal w
    /\ NoDup (getActiveAgentRunIds w)
    /\ ("" ∉ getActiveAgentRunIds w)
    /\ getActiveAgentRunCount w = Z.of_nat (length (getActiveAgentRunIds w)).
Proof.
  destruct (wfWorld_runOps ops (initialWorld t0 e) (wfWorld_initial t0 e))
    as (w & E & Hnd & Hne).
  exists w. split; [done|]. split; [exact Hnd|]. split; [exact Hne|].
  apply JsMapFacts.size_keys.
Qed.







End HistoryInvariants.

(** ** No early eviction *)

Section NoEarlyEviction.
Context {Env : Type}.
Implicit Types (w s : World Env) (runId : string) (tm : Timer).






End NoEarlyEviction.


(** ** Enrichment follows registration *)

Section EnrichmentAfterRegistration.
Context {Env : Type}.
Implicit Types (w : World Env) (runId : string).

(** X10: once a run has been registered with a non-empty [sessionKey], whether
    the id was new or already held with another key, every event emitted
    for that run without a usable key of its own is delivered with the key
    of the registration. *)
Theorem registered_sessionKey_reaches_events runId (key : string)
  (context : AgentRunContext.t) (event : AgentEvent.t) w :
  runId <> "" ->
  key <> "" ->
  AgentRunContext.sessionKey context = Some key ->
  AgentEvent.runId event = runId ->
  match AgentEvent.sessionKey event with
  | JsString s => isBlank s
  | _ => true
  end = true ->
  exists w',
    registerAgentRunContext runId context w = Normal w'
    /\ AgentEventPayload.sessionKey (emittedPayload event w') = Some key.
Proof.
  intros Hne Hkey Hctx Hev Hblank.
  apply truthyString_nonempty in Hne. apply truthyString_nonempty in Hkey.
  rewrite registerAgentRunContext_eq, Hne. simpl. eexists. split; [done|].
  unfold emittedPayload, enrichedPayload. simpl. rewrite Hev.
  assert (Hctx' :
    contextSessionKey
      (JsMap.get runId
         (runContextById
            match JsMap.get runId (runContextById w) with
            | Some _ =>
                withRunContextById
                  (JsMap.mutate (mergeContext context) runId (runContextById w))
                  w
            | None =>
                mkWorld (seqByRun w) (listeners w)
                  (JsMap.set runId context (runContextById w))
                  (runCompletionCallbacks w)
                  (<[runId := now w]> (runStartTimes w))
                  (timers w ++ [mkTimer (now w + MAX_RUN_DURATION_MS) runId])
                  (now w)
                  (log w ++
                     [LogDebug
                        (AgentRunRegistered runId
                           (JsMap.size
                              (JsMap.set runId context (runContextById w))))])
                  (env w)
            end)) = Some key).
  { destruct (JsMap.get runId (runContextById w)) eqn:Eg; simpl.
    - rewrite JsMapFacts.get_mutate_eq, Eg. simpl.
      rewrite mergeContext_eq. simpl. by rewrite Hctx, Hkey.
    - by rewrite JsMapFacts.get_set_eq. }
  destruct (AgentEvent.sessionKey event) as [| |b|n|s|props]; try done.
  rewrite truthy_trim, Hblank. done.
Qed.

End EnrichmentAfterRegistration.

Lemma registered_sessionKey_reaches_events_witness :
  let w := finalState (registerAgentRunContext "run-1" mainContext sampleWorld) in
  "run-1" <> ""
  /\ "updated" <> ""
  /\ AgentEventPayload.sessionKey
       (emittedPayload (lifecycleEvent "run-1" (JsString "  ")) w)
     = Some "main"
  /\ exists w',
       registerAgentRunContext "run-1" updatedContext w = Normal w'
       /\ AgentEventPayload.sessionKey
            (emittedPayload (lifecycleEvent "run-1" (JsString "  ")) w')
          = Some "updated".
Proof.
  intros w. split; [done|]. split; [done|]. split; [reflexivity|].
  apply (registered_sessionKey_reaches_events "run-1" "updated" updatedContext
           (lifecycleEvent "run-1" (JsString "  ")) w); done.
Defined.

(** * Task routing *)

Lemma toLowerCase_app (a b : string) :
  toLowerCase (a ++ b)%string = (toLowerCase a ++ toLowerCase b)%string.
Proof. induction a as [|c a IH]; simpl; [done | by rewrite IH]. Qed.

Lemma truthyString_toLowerCase (s : string) :
  truthyString (toLowerCase s) = truthyString s.
Proof. by destruct s. Qed.

Lemma toLowerCaseChar_idempotent (c : ascii) :
  toLowerCaseChar (toLowerCaseChar c) = toLowerCaseChar c.
Proof. destruct c as [[] [] [] [] [] [] [] []]; reflexivity. Qed.

Lemma toLowerCase_idempotent (s : string) :
  toLowerCase (toLowerCase s) = toLowerCase s.
Proof.
  induction s as [|c s IH]; simpl; [done|].
  by rewrite toLowerCaseChar_idempotent, IH.
Qed.

Lemma startsWith_app (hay extra needle : string) :
  startsWith hay needle = true -> startsWith (hay ++ extra)%string needle = true.
Proof.
  revert hay. induction needle as [|a needle IH]; intros hay.
  - intros _. by destruct (hay ++ extra)%string.
  - destruct hay as [|b hay]; simpl; [done|].
    destruct (Ascii.eqb a b); [apply IH | done].
Qed.

Lemma includes_empty_needle (hay : string) : includes hay "" = true.
Proof. by destruct hay. Qed.

Lemma includes_app_r (hay extra needle : string) :
  includes hay needle = true -> includes (hay ++ extra)%string needle = true.
Proof.
  induction hay as [|c hay IH]; simpl.
  - destruct needle; [intros _; apply includes_empty_needle | done].
  - intros H. apply orb_true_iff in H as [H|H]; apply orb_true_iff.
    + left. by apply (startsWith_app (String c hay)).
    + right. by apply IH.
Qed.

Lemma includes_app_l (extra hay needle : string) :
  includes hay needle = true -> includes (extra ++ hay)%string needle = true.
Proof.
  intros H. induction extra as [|c extra IH]; simpl; [done|].
  by rewrite IH, orb_true_r.
Qed.

Lemma includesAny_embedded (before hay after : string) (keywords : list string) :
  includesAny hay keywords = true ->
  includesAny (before ++ hay ++ after)%string keywords = true.
Proof.
  unfold includesAny. rewrite !existsb_exists.
  intros (kw & Hin & H). exists kw. split; [done|].
  by apply includes_app_l, includes_app_r.
Qed.

(** [detectTaskType] on a string, with the four tests folded. *)
Lemma detectTaskType_string (s : string) :
  detectTaskType (JsString s)
  = if negb (truthyString s) then TaskGeneral
    else if includesAny (toLowerCase s) fileAnalysisKeywords
         then TaskFileAnalysis
    else if includesAny (toLowerCase s) creativeKeywords then TaskCreative
    else if includesAny (toLowerCase s) debuggingKeywords then TaskDebugging
    else if includesAny (toLowerCase s) cliKeywords then TaskCli
    else TaskGeneral.
Proof.
  unfold detectTaskType, includesAny, fileAnalysisKeywords, creativeKeywords,
    debuggingKeywords, cliKeywords.
  cbn [existsb]. by rewrite !orb_false_r, !orb_assoc.
Qed.

Arguments includesAny : simpl never.

(** X11: putting a message into a longer one can only move it up in the order
    of the tests: the task type detected for [before ++ message ++ after]
    never comes later than the one detected for [message]; in particular a
    file-analysis request stays one whatever surrounds it. *)
Theorem surrounding_text_never_lowers_priority (before message after : string) :
  (taskPriority
     (detectTaskType (JsString (before ++ message ++ after)%string))
   <= taskPriority (detectTaskType (JsString message)))%nat.
Proof.
  rewrite !detectTaskType_string.
  destruct (truthyString message) eqn:Em; simpl.
  2:{ repeat match goal with
             | |- context [if ?b then _ else _] => destruct b
             end; simpl; lia. }
  assert (Et : truthyString (before ++ message ++ after)%string = true).
  { destruct before; simpl; [|done]. by destruct message. }
  rewrite Et. simpl. rewrite !toLowerCase_app.
  pose proof (includesAny_embedded (toLowerCase before) (toLowerCase message)
                (toLowerCase after) fileAnalysisKeywords) as Hf.
  pose proof (includesAny_embedded (toLowerCase before) (toLowerCase message)
                (toLowerCase after) creativeKeywords) as Hc.
  pose proof (includesAny_embedded (toLowerCase before) (toLowerCase message)
                (toLowerCase after) debuggingKeywords) as Hd.
  pose proof (includesAny_embedded (toLowerCase before) (toLowerCase message)
                (toLowerCase after) cliKeywords) as Hk.
  destruct (includesAny (toLowerCase message) fileAnalysisKeywords);
    [rewrite Hf by done; simpl; lia|].
  destruct (includesAny (toLowerCase message) creativeKeywords).
  { rewrite Hc by done.
    destruct (includesAny _ fileAnalysisKeywords); simpl; lia. }
  destruct (includesAny (toLowerCase message) debuggingKeywords).
  { rewrite Hd by done.
    destruct (includesAny _ fileAnalysisKeywords); simpl; [lia|].
    destruct (includesAny _ creativeKeywords); simpl; lia. }
  destruct (includesAny (toLowerCase message) cliKeywords).
  { rewrite Hk by done.
    destruct (includesAny _ fileAnalysisKeywords); simpl; [lia|].
    destruct (includesAny _ creativeKeywords); simpl; [lia|].
    destruct (includesAny _ debuggingKeywords); simpl; lia. }
  repeat match goal with
         | |- context [if ?b then _ else _] => destruct b
         end; simpl; lia.
Qed.

Example detectTaskType_samples :
  detectTaskType (JsString "Please FIX the Bug") = TaskDebugging
  /\ detectTaskType (JsString "fix this file") = TaskFileAnalysis
  /\ detectTaskType (JsString "bake some bread") = TaskFileAnalysis
  /\ detectTaskType (JsString "hello") = TaskGeneral
  /\ detectTaskType (JsString "") = TaskGeneral
  /\ detectTaskType JsUndefined = TaskGeneral.
Proof. repeat split. Qed.

(** X12: letter case plays no role: a message and its lower-case form are given
    the same task type. *)
Theorem detectTaskType_ignores_case (message : string) :
  detectTaskType (JsString (toLowerCase message))
  = detectTaskType (JsString message).
Proof.
  rewrite !detectTaskType_string.
  by rewrite toLowerCase_idempotent, truthyString_toLowerCase.
Qed.

Lemma includes_first_char (hay : string) (c : ascii) (rest : string) :
  includes hay (String c rest) = true -> In c (list_ascii_of_string hay).
Proof.
  induction hay as [|b hay IH]; simpl; [done|].
  intros H. apply orb_true_iff in H as [H|H]; [|right; by apply IH].
  left. destruct (Ascii.eqb c b) eqn:E; [|done].
  apply Ascii.eqb_eq in E. done.
Qed.

Lemma toLowerCaseChar_letter (c : ascii) :
  isBasicLetter (toLowerCaseChar c) = true -> isBasicLetter c = true.
Proof. destruct c as [[] [] [] [] [] [] [] []]; vm_compute; done. Qed.

Lemma letter_of_toLowerCase (s : string) (c : ascii) :
  In c (list_ascii_of_string (toLowerCase s)) ->
  isBasicLetter c = true ->
  existsb isBasicLetter (list_ascii_of_string s) = true.
Proof.
  induction s as [|b s IH]; simpl; [done|].
  intros [Hc|Hc] Hl; apply orb_true_iff.
  - left. apply toLowerCaseChar_letter. by rewrite Hc.
  - right. by apply IH.
Qed.

Lemma includesAny_needs_letter (s : string) (keywords : list string) :
  forallb (fun kw => match kw with
                     | String c _ => isBasicLetter c
                     | EmptyString => false
                     end) keywords = true ->
  existsb isBasicLetter (list_ascii_of_string s) = false ->
  includesAny (toLowerCase s) keywords = false.
Proof.
  intros Hk Hs. unfold includesAny.
  destruct (existsb (includes (toLowerCase s)) keywords) eqn:E; [|done].
  apply existsb_exists in E as (kw & Hin & Hinc).
  rewrite forallb_forall in Hk. specialize (Hk kw Hin).
  destruct kw as [|c rest]; [done|].
  apply includes_first_char in Hinc.
  rewrite (letter_of_toLowerCase s c Hinc Hk) in Hs. done.
Qed.

(** X13: a message without a single letter of the basic Latin alphabet
    (digits, punctuation, white space, accented letters only) is always
    given the task type "general". *)
Theorem message_without_letters_is_general (message : string) :
  existsb isBasicLetter (list_ascii_of_string message) = false ->
  detectTaskType (JsString message) = TaskGeneral.
Proof.
  intros H. rewrite detectTaskType_string.
  rewrite !(includesAny_needs_letter message) by done.
  by destruct (negb (truthyString message)).
Qed.

Lemma message_without_letters_is_general_witness :
  existsb isBasicLetter (list_ascii_of_string "2 + 2 = ?") = false
  /\ detectTaskType (JsString "2 + 2 = ?") = TaskGeneral.
Proof.
  split; [reflexivity|].
  apply message_without_letters_is_general. reflexivity.
Defined.

Section RoutingFacts.
Variables ModelRef MoltbotConfig : Type.
Variable parseModelRef : string -> string -> option ModelRef.
Variable DEFAULT_PROVIDER : string.

(** X14: command-line requests and unclassified requests are routed alike: two
    non-empty messages, one detected as "cli" and one as "general", get the
    same model when the default model is the same, whatever the
    configurations and agent ids; and without a message, or with an empty
    one, the default model is returned. *)
Theorem cli_and_general_share_a_model
  (cfg1 cfg2 : MoltbotConfig) (agent1 agent2 : option string)
  (message1 message2 : string) (fallback : ModelRef) :
  message1 <> "" ->
  message2 <> "" ->
  detectTaskType (JsString message1) = TaskCli ->
  detectTaskType (JsString message2) = TaskGeneral ->
  resolveModelForAgentWithTaskRouting ModelRef MoltbotConfig parseModelRef
    DEFAULT_PROVIDER
    (mkRoutingParams ModelRef MoltbotConfig cfg1 agent1 (Some message1) fallback)
  = resolveModelForAgentWithTaskRouting ModelRef MoltbotConfig parseModelRef
      DEFAULT_PROVIDER
      (mkRoutingParams ModelRef MoltbotConfig cfg2 agent2 (Some message2)
         fallback)
  /\ resolveModelForAgentWithTaskRouting ModelRef MoltbotConfig parseModelRef
       DEFAULT_PROVIDER
       (mkRoutingParams ModelRef MoltbotConfig cfg1 agent1 None fallback)
     = fallback
  /\ resolveModelForAgentWithTaskRouting ModelRef MoltbotConfig parseModelRef
       DEFAULT_PROVIDER
       (mkRoutingParams ModelRef MoltbotConfig cfg1 agent1 (Some "") fallback)
     = fallback.
Proof.
  intros H1 H2 Hcli Hgen.
  apply truthyString_nonempty in H1. apply truthyString_nonempty in H2.
  unfold resolveModelForAgentWithTaskRouting, resolveModelForTaskType.
  cbn [userMessage cfg defaultModelRef]. rewrite H1, H2, Hcli, Hgen. done.
Qed.

End RoutingFacts.

Lemma cli_and_general_share_a_model_witness :
  "run the tests" <> ""
  /\ "hello" <> ""
  /\ detectTaskType (JsString "run the tests") = TaskCli
  /\ detectTaskType (JsString "hello") = TaskGeneral
  /\ resolveModelForAgentWithTaskRouting (string * string) unit
       sampleParseModelRef "anthropic"
       (mkRoutingParams (string * string) unit tt None (Some "run the tests")
          ("anthropic", "claude-opus-4-5"))
     = ("openrouter", "mistralai/mistral-devstral-2")
  /\ resolveModelForAgentWithTaskRouting (string * string) unit
       sampleParseModelRef "anthropic"
       (mkRoutingParams (string * string) unit tt (Some "main") (Some "hello")
          ("anthropic", "claude-opus-4-5"))
     = ("openrouter", "mistralai/mistral-devstral-2").
Proof.
  split; [done|]. split; [done|]. split; [reflexivity|]. split; [reflexivity|].
  assert (H1 : "run the tests" <> "") by done.
  assert (H2 : "hello" <> "") by done.
  destruct (cli_and_general_share_a_model (string * string) unit
              sampleParseModelRef "anthropic" tt tt None (Some "main")
              "run the tests" "hello" ("anthropic", "claude-opus-4-5")
              H1 H2 eq_refl eq_refl)
    as (Heq & _).
  split; [reflexivity|]. rewrite <- Heq. reflexivity.
Defined.

(** * The high-concurrency load test *)

Section LoadTestFacts.
Context {Env : Type}.
Variable elapsed : nat -> Z.
Implicit Types (w s : World Env) (tm : Timer).

Local Abbreviation hcId j := (highConcurrencyRunId (Z.of_nat j)).

Lemma highConcurrencyRunId_inj (i j : Z) :
  highConcurrencyRunId i = highConcurrencyRunId j -> i = j.
Proof.
  unfold highConcurrencyRunId, numberToString. intros H.
  apply String.app_inj in H. by apply pretty_Z_inj in H.
Qed.

Lemma highConcurrencyRunId_truthy (i : Z) :
  truthyString (highConcurrencyRunId i) = true.
Proof. reflexivity. Qed.

Lemma elapsedBefore_nonneg (i : nat) :
  (forall k, 0 <= elapsed k) -> 0 <= elapsedBefore elapsed i.
Proof.
  intros H. induction i as [|i IH]; simpl; [lia|]. specialize (H i). lia.
Qed.

Lemma elapsedBefore_mono (i j : nat) :
  (forall k, 0 <= elapsed k) -> (i <= j)%nat ->
  elapsedBefore elapsed i <= elapsedBefore elapsed j.
Proof.
  intros H Hij. induction Hij as [|j Hij IH]; [lia|].
  simpl. specialize (H j). lia.
Qed.

(** Timers that find no run do nothing. *)
Lemma runTimers_idle (batch : list Timer) s :
  (forall tm, In tm batch ->
     JsMap.has (timerRunId tm) (runContextById s) = false) ->
  forOf batch runTimer s = Normal s.
Proof.
  induction batch as [|tm batch IH]; intros H; [done|].
  simpl. rewrite runTimer_eq, (H tm) by (by left). simpl.
  apply IH. intros tm' Hin. apply H. by right.
Qed.

Lemma advanceClock_idle (dt : Z) s :
  (forall tm, tm ∈ timers s -> due tm <= now s + dt ->
     JsMap.has (timerRunId tm) (runContextById s) = false) ->
  advanceClock dt s
  = Normal
      (withTimers
         (List.filter (fun tm => negb (isDue (now s + dt) tm)) (timers s))
         (withNow (now s + dt) s)).
Proof.
  intros H. unfold advanceClock. apply runTimers_idle.
  intros tm Hin. simpl in *. apply filter_In in Hin as [Hin Hdue].
  apply H; [by apply list_elem_of_In|].
  unfold isDue in Hdue. by apply Z.leb_le.
Qed.

Arguments highConcurrencyRunId : simpl never.
Arguments highConcurrencyContext : simpl never.

Lemma filter_head_of_ids (a len : nat) :
  List.filter (fun k' => negb (bool_decide (k' = hcId a)))
    (map (fun j => hcId j) (seq a (S len)))
  = map (fun j => hcId j) (seq (S a) len).
Proof.
  cbn [seq map List.filter]. rewrite bool_decide_eq_true_2 by done.
  cbn [negb].
  assert (Hgen : forall b, (a < b)%nat ->
            List.filter (fun k' => negb (bool_decide (k' = hcId a)))
              (map (fun j => hcId j) (seq b len))
            = map (fun j => hcId j) (seq b len)).
  { induction len as [|len IH]; intros b Hb; [done|].
    cbn [seq map List.filter]. rewrite bool_decide_eq_false_2.
    - cbn [negb]. f_equal. apply IH. lia.
    - intros Heq. apply highConcurrencyRunId_inj in Heq. lia. }
  apply Hgen. lia.
Qed.

(** One turn of the first loop, from a state in which the runs
    [i - min i m .. i - 1] are held and every pending timer is either of
    another origin or not due before the test is over. *)
Lemma highConcurrencyIteration_step (m i : nat) (start : Z) s (acc : list Z) :
  (forall k, 0 <= elapsed k) ->
  elapsedBefore elapsed (S i) < MAX_RUN_DURATION_MS ->
  getActiveAgentRunIds s
  = map (fun j => hcId j) (seq (i - Nat.min i m) (Nat.min i m)) ->
  now s = start + elapsedBefore elapsed i ->
  (forall tm, tm ∈ timers s ->
     (forall j, timerRunId tm <> highConcurrencyRunId j)
     \/ start + MAX_RUN_DURATION_MS <= due tm) ->
  exists s',
    highConcurrencyIteration elapsed m (s, acc) i
    = (s',
       acc ++ (Z.of_nat (Nat.min i m) + 1)
              :: (if (m <=? i)%nat then [Z.of_nat m] else []))
    /\ getActiveAgentRunIds s'
       = map (fun j => hcId j) (seq (S i - Nat.min (S i) m) (Nat.min (S i) m))
    /\ now s' = start + elapsedBefore elapsed (S i)
    /\ (forall tm, tm ∈ timers s' ->
          (forall j, timerRunId tm <> highConcurrencyRunId j)
          \/ start + MAX_RUN_DURATION_MS <= due tm).
Proof.
  intros Hpos Htotal Hkeys Hnow Htimers.
  pose proof (elapsedBefore_nonneg i Hpos) as Hbefore.
  simpl in Htotal.
  assert (Hfresh : JsMap.get (hcId i) (runContextById s) = None).
  { apply JsMapFacts.get_None_keys. fold (getActiveAgentRunIds s).
    rewrite Hkeys. intros Hin.
    apply list_elem_of_In, in_map_iff in Hin as (j & Hj & Hin).
    apply highConcurrencyRunId_inj in Hj. apply in_seq in Hin. lia. }
  unfold highConcurrencyIteration. cbn [fst snd].
  rewrite registerAgentRunContext_eq, highConcurrencyRunId_truthy, Hfresh.
  cbn [negb finalState].
  set (w1 := mkWorld (seqByRun s) (listeners s)
               (JsMap.set (hcId i) (highConcurrencyContext (Z.of_nat i))
                  (runContextById s))
               (runCompletionCallbacks s)
               (<[hcId i := now s]> (runStartTimes s))
               (timers s ++ [mkTimer (now s + MAX_RUN_DURATION_MS) (hcId i)])
               (now s)
               (log s ++
                  [LogDebug
                     (AgentRunRegistered (hcId i)
                        (JsMap.size
                           (JsMap.set (hcId i)
                              (highConcurrencyContext (Z.of_nat i))
                              (runContextById s))))])
               (env s)).
  assert (Hkeys1 : getActiveAgentRunIds w1
                   = map (fun j => hcId j)
                       (seq (i - Nat.min i m) (S (Nat.min i m)))).
  { unfold getActiveAgentRunIds, w1. cbn [runContextById].
    rewrite JsMapFacts.keys_set_fresh by done.
    fold (getActiveAgentRunIds s). rewrite Hkeys, seq_S, map_app.
    f_equal. cbn [map]. do 3 f_equal. lia. }
  assert (Hcount1 : getActiveAgentRunCount w1 = Z.of_nat (Nat.min i m) + 1).
  { unfold getActiveAgentRunCount. rewrite JsMapFacts.size_keys.
    fold (getActiveAgentRunIds w1).
    rewrite Hkeys1, length_map, length_seq. lia. }
  assert (Htimers1 : forall tm, tm ∈ timers w1 ->
            (forall j, timerRunId tm <> highConcurrencyRunId j)
            \/ start + MAX_RUN_DURATION_MS <= due tm).
  { intros tm Hin. unfold w1 in Hin. cbn [timers] in Hin.
    apply elem_of_app in Hin as [Hin|Hin]; [by apply Htimers|].
    apply list_elem_of_singleton in Hin. subst tm. right. cbn [due]. lia. }
  rewrite Hcount1.
  (* the state after the optional clear *)
  assert (Hmid : exists w2,
    (if (m <=? i)%nat
     then
       (finalState
          (clearAgentRunContext
             (highConcurrencyRunId (Z.of_nat i - Z.of_nat m)) w1),
        (acc ++ [Z.of_nat (Nat.min i m) + 1])
        ++ [getActiveAgentRunCount
              (finalState
                 (clearAgentRunContext
                    (highConcurrencyRunId (Z.of_nat i - Z.of_nat m)) w1))])
     else (w1, acc ++ [Z.of_nat (Nat.min i m) + 1]))
    = (w2,
       acc ++ (Z.of_nat (Nat.min i m) + 1)
              :: (if (m <=? i)%nat then [Z.of_nat m] else []))
    /\ getActiveAgentRunIds w2
       = map (fun j => hcId j) (seq (S i - Nat.min (S i) m) (Nat.min (S i) m))
    /\ now w2 = now s
    /\ timers w2 = timers w1).
  { destruct (m <=? i)%nat eqn:Emi.
    - apply Nat.leb_le in Emi.
      replace (Z.of_nat i - Z.of_nat m) with (Z.of_nat (i - m)) by lia.
      replace (Nat.min i m) with m in * by lia.
      assert (Hhas : JsMap.has (hcId (i - m)) (runContextById w1) = true).
      { apply JsMapFacts.has_true_keys. fold (getActiveAgentRunIds w1).
        rewrite Hkeys1. cbn [seq map]. apply elem_of_cons. by left. }
      assert (Hkeys2 :
        JsMap.keys (JsMap.delete (hcId (i - m)) (runContextById w1))
        = map (fun j => hcId j) (seq (S (i - m)) m)).
      { rewrite JsMapFacts.keys_delete. fold (getActiveAgentRunIds w1).
        by rewrite Hkeys1, filter_head_of_ids. }
      rewrite clearAgentRunContext_eq, Hhas. cbn [finalState].
      eexists. split; [|split; [|split]].
      + f_equal. rewrite <- app_assoc. cbn [app]. do 3 f_equal.
        unfold getActiveAgentRunCount. cbn [runContextById].
        rewrite JsMapFacts.size_keys, Hkeys2, length_map, length_seq. done.
      + unfold getActiveAgentRunIds at 1. cbn [runContextById].
        rewrite Hkeys2.
        replace (Nat.min (S i) m) with m by lia.
        replace (S i - m)%nat with (S (i - m)) by lia. done.
      + done.
      + done.
    - apply Nat.leb_gt in Emi. exists w1.
      split; [done|]. split; [|done].
      rewrite Hkeys1.
      replace (Nat.min i m) with i by lia.
      replace (Nat.min (S i) m) with (S i) by lia.
      replace (i - i)%nat with 0%nat by lia.
      replace (S i - S i)%nat with 0%nat by lia. done. }
  destruct Hmid as (w2 & -> & Hkeys2 & Hnow2 & Htimers2).
  cbn [fst snd].
  rewrite advanceClock_idle.
  - eexists. split; [reflexivity|]. cbn [finalState].
    split; [exact Hkeys2|].
    split; [unfold withTimers, withNow; cbn [now elapsedBefore]; lia|].
    intros tm Hin. unfold withTimers, withNow in Hin. cbn [timers] in Hin.
    apply list_elem_of_In, filter_In in Hin as [Hin _].
    apply Htimers1. rewrite <- Htimers2. by apply list_elem_of_In.
  - intros tm Hin Hdue. rewrite Htimers2 in Hin.
    destruct (Htimers1 tm Hin) as [Hforeign|Hlate]; [|lia].
    apply JsMapFacts.has_false_get, JsMapFacts.get_None_keys.
    fold (getActiveAgentRunIds w2). rewrite Hkeys2. intros Hk.
    apply list_elem_of_In, in_map_iff in Hk as (j & Hj & _).
    by apply (Hforeign (Z.of_nat j)).
Qed.

End LoadTestFacts.

Section LoadTestClaim.
Context {Env : Type}.
Variable elapsed : nat -> Z.
Implicit Types (w s : World Env) (tm : Timer).

Local Abbreviation hcId j := (highConcurrencyRunId (Z.of_nat j)).

Lemma highConcurrencyLoop (m len i : nat) (start : Z) s (acc : list Z) :
  (forall k, 0 <= elapsed k) ->
  elapsedBefore elapsed (i + len) < MAX_RUN_DURATION_MS ->
  getActiveAgentRunIds s
  = map (fun j => hcId j) (seq (i - Nat.min i m) (Nat.min i m)) ->
  now s = start + elapsedBefore elapsed i ->
  (forall tm, tm ∈ timers s ->
     (forall j, timerRunId tm <> highConcurrencyRunId j)
     \/ start + MAX_RUN_DURATION_MS <= due tm) ->
  exists s',
    fold_left (highConcurrencyIteration elapsed m) (seq i len) (s, acc)
    = (s',
       acc ++ flat_map
                (fun i =>
                   (Z.of_nat (Nat.min i m) + 1)
                   :: (if (m <=? i)%nat then [Z.of_nat m] else []))
                (seq i len))
    /\ getActiveAgentRunIds s'
       = map (fun j => hcId j)
           (seq (i + len - Nat.min (i + len) m) (Nat.min (i + len) m)).
Proof.
  revert i s acc. induction len as [|len IH]; intros i s acc Hpos Htot Hk Hn Ht.
  - exists s. cbn [seq fold_left flat_map]. rewrite app_nil_r.
    split; [done|]. by rewrite Nat.add_0_r.
  - cbn [seq fold_left flat_map].
    destruct (highConcurrencyIteration_step elapsed m i start s acc Hpos)
      as (s1 & E1 & Hk1 & Hn1 & Ht1); try done.
    { pose proof (elapsedBefore_mono elapsed (S i) (i + S len) Hpos). lia. }
    rewrite E1.
    destruct (IH (S i) s1
                (acc ++ (Z.of_nat (Nat.min i m) + 1)
                        :: (if (m <=? i)%nat then [Z.of_nat m] else []))
                Hpos) as (s' & E & Hk'); try done.
    { by replace (S i + len)%nat with (i + S len)%nat by lia. }
    exists s'. split.
    + rewrite E. f_equal. by rewrite <- app_assoc.
    + rewrite Hk'. by replace (S i + len)%nat with (i + S len)%nat by lia.
Qed.

Lemma ids_after_clears (g : nat -> string) (ks : list nat) s (x : string) :
  x ∈ getActiveAgentRunIds
        (fold_left (fun w k => finalState (clearAgentRunContext (g k) w)) ks s)
  <-> x ∈ getActiveAgentRunIds s /\ forall k, In k ks -> x <> g k.
Proof.
  revert s. induction ks as [|k ks IH]; intros s.
  - cbn [fold_left]. split; [intros H; split; [done | by intros] | by intros [? _]].
  - cbn [fold_left]. rewrite IH, clearAgentRunContext_eq. cbn [finalState].
    unfold getActiveAgentRunIds.
    destruct (JsMap.has (g k) (runContextById s)) eqn:Eh; cbn [runContextById].
    + rewrite JsMapFacts.elem_of_keys_delete. split.
      * intros [[Hx Hne] Hall]. split; [done|].
        intros k' [<-|Hin]; [done | by apply Hall].
      * intros [Hx Hall]. split; [split; [done|]|].
        -- apply Hall. by left.
        -- intros k' Hin. apply Hall. by right.
    + split.
      * intros [Hx Hall]. split; [done|].
        intros k' [<-|Hin]; [|by apply Hall].
        intros ->. apply JsMapFacts.has_true_keys in Hx. congruence.
      * intros [Hx Hall]. split; [done|].
        intros k' Hin. apply Hall. by right.
Qed.

(** X15: the load test "should maintain accurate run count during high
    concurrency", started on an empty registry with no timer of its own
    runs pending and finished within [MAX_RUN_DURATION_MS]: the counts it
    records are [min i maxConcurrent + 1] after registering run [i] and
    [maxConcurrent] after each clear, and no run is left at the end.  The
    count therefore never exceeds [maxConcurrent + 1], and it does reach
    [maxConcurrent + 1] as soon as [runCount] is larger than
    [maxConcurrent], which is more than the bound the test expects. *)
Theorem high_concurrency_test_counts (maxConcurrent runCount : nat) w :
  runContextById w = [] ->
  (forall tm, tm ∈ timers w ->
     forall j, timerRunId tm <> highConcurrencyRunId j) ->
  (forall k, 0 <= elapsed k) ->
  elapsedBefore elapsed runCount < MAX_RUN_DURATION_MS ->
  snd (highConcurrencyTest elapsed maxConcurrent runCount w)
  = expectedActiveCounts maxConcurrent runCount
  /\ getActiveAgentRunCount
       (fst (highConcurrencyTest elapsed maxConcurrent runCount w)) = 0
  /\ (forall c,
        In c (snd (highConcurrencyTest elapsed maxConcurrent runCount w)) ->
        c <= Z.of_nat maxConcurrent + 1)
  /\ ((maxConcurrent < runCount)%nat ->
      In (Z.of_nat maxConcurrent + 1)
        (snd (highConcurrencyTest elapsed maxConcurrent runCount w))).
Proof.
  intros Hempty Hforeign Hpos Htot.
  destruct (highConcurrencyLoop maxConcurrent runCount 0 (now w) w [] Hpos)
    as (s & E & Hkeys); try done.
  { unfold getActiveAgentRunIds. by rewrite Hempty. }
  { cbn [elapsedBefore]. lia. }
  { intros tm Hin. left. by apply Hforeign. }
  unfold highConcurrencyTest. rewrite E. cbn [fst snd app].
  fold (expectedActiveCounts maxConcurrent runCount).
  split; [done|]. split; [|split].
  - unfold getActiveAgentRunCount. rewrite JsMapFacts.size_keys.
    match goal with
    | |- Z.of_nat (length ?l) = 0 => destruct l as [|x rest] eqn:El; [done|]
    end.
    exfalso.
    assert (Hx : x ∈ getActiveAgentRunIds
                   (fold_left
                      (fun w k =>
                         finalState
                           (clearAgentRunContext
                              (highConcurrencyRunId
                                 (Z.of_nat runCount - Z.of_nat maxConcurrent
                                  + Z.of_nat k)) w))
                      (seq 0 maxConcurrent) s)).
    { unfold getActiveAgentRunIds. rewrite El. apply elem_of_cons. by left. }
    apply (ids_after_clears
             (fun k => highConcurrencyRunId
                         (Z.of_nat runCount - Z.of_nat maxConcurrent
                          + Z.of_nat k))) in Hx as [Hx Hall].
    rewrite Hkeys in Hx.
    apply list_elem_of_In, in_map_iff in Hx as (j & Hj & Hin).
    apply in_seq in Hin. cbn [Nat.add] in Hin.
    apply (Hall (j + maxConcurrent - runCount)%nat).
    + apply in_seq. lia.
    + rewrite <- Hj. f_equal. lia.
  - intros c Hc. unfold expectedActiveCounts in Hc.
    apply in_flat_map in Hc as (i & _ & Hc).
    destruct Hc as [<-|Hc]; [lia|].
    destruct (maxConcurrent <=? i)%nat; [|done].
    destruct Hc as [<-|[]]. lia.
  - intros Hlt. unfold expectedActiveCounts. apply in_flat_map.
    exists maxConcurrent. split; [apply in_seq; lia|].
    left. f_equal. lia.
Qed.

End LoadTestClaim.

Lemma high_concurrency_test_counts_witness :
  runContextById sampleWorld = []
  /\ elapsedBefore punctual 30 < MAX_RUN_DURATION_MS
  /\ (15 < 30)%nat
  /\ In 16 (snd (highConcurrencyTest punctual 15 30 sampleWorld))
  /\ getActiveAgentRunCount
       (fst (highConcurrencyTest punctual 15 30 sampleWorld)) = 0.
Proof.
  assert (Hlt : (15 < 30)%nat) by lia.
  assert (Htot : elapsedBefore punctual 30 < MAX_RUN_DURATION_MS)
    by reflexivity.
  split; [reflexivity|]. split; [exact Htot|]. split; [exact Hlt|].
  destruct (high_concurrency_test_counts punctual 15 30 sampleWorld eq_refl)
    as (_ & Hzero & _ & Hpeak).
  - intros tm Hin. by apply elem_of_nil in Hin.
  - intros k. unfold punctual. lia.
  - exact Htot.
  - split; [exact (Hpeak Hlt) | exact Hzero].
Defined.

(** * The health monitor and the log *)

(** ** Characters of printed numbers *)

Lemma pretty_N_go_chars (P : ascii -> bool) (x : N) (s : string) :
  (forall d : N, P (pretty_N_char d) = true) ->
  forallb P (list_ascii_of_string s) = true ->
  forallb P (list_ascii_of_string (pretty_N_go x s)) = true.
Proof.
  intros Hd. revert s. induction (N.lt_wf_0 x) as [x _ IH]; intros s Hs.
  assert (x = 0 \/ 0 < x)%N as [->|Hx] by lia.
  - by rewrite pretty_N_go_0.
  - rewrite pretty_N_go_step by done. apply IH.
    + by apply N.div_lt.
    + simpl. by rewrite Hd, Hs.
Qed.

Lemma numberToString_chars (P : ascii -> bool) (z : Z) :
  (forall d : N, P (pretty_N_char d) = true) ->
  P "-"%char = true ->
  forallb P (list_ascii_of_string (numberToString z)) = true.
Proof.
  intros Hd Hdash.
  assert (H0 : P "0"%char = true) by apply (Hd 0%N).
  assert (HN : forall n : N,
             forallb P (list_ascii_of_string (pretty n)) = true).
  { intros n. unfold pretty, pretty_N. case_decide.
    - simpl. by rewrite H0.
    - by apply pretty_N_go_chars. }
  unfold numberToString, pretty, pretty_Z. destruct z as [|p|p].
  - simpl. by rewrite H0.
  - apply HN.
  - simpl. rewrite Hdash. apply HN.
Qed.

Lemma digits_are_not (c : ascii) :
  (forall d : N, pretty_N_char d <> c) ->
  forall d : N, negb (Ascii.eqb c (pretty_N_char d)) = true.
Proof.
  intros H d. apply negb_true_iff, Ascii.eqb_neq. intros Heq.
  by apply (H d).
Qed.

Lemma pretty_N_char_cases (d : N) :
  In (pretty_N_char d)
    ["0"; "1"; "2"; "3"; "4"; "5"; "6"; "7"; "8"; "9"]%char.
Proof.
  unfold pretty_N_char. repeat case_match; simpl; tauto.
Qed.

(** ** Matching *)

Lemma matchAt_first_char (a c : ascii) (rest s : string) :
  Ascii.eqb a c = false -> matchAt (String a rest) (String c s) = None.
Proof. intros H. unfold matchAt. simpl. by rewrite H. Qed.

Lemma matchFirst_empty (literal : string) (a : ascii) :
  matchFirst (String a literal) "" = None.
Proof. reflexivity. Qed.

(** No match starts inside a stretch of characters that differ from the
    first character of the literal. *)
Lemma matchFirst_skip (a : ascii) (rest d s : string) :
  forallb (fun c => negb (Ascii.eqb a c)) (list_ascii_of_string d) = true ->
  matchFirst (String a rest) (d +:+ s) = matchFirst (String a rest) s.
Proof.
  induction d as [|c d IH]; [done|].
  simpl. intros H. apply andb_true_iff in H as [Hc Hd].
  apply negb_true_iff in Hc.
  change (match matchAt (String a rest) (String c (d +:+ s)) with
          | Some group => Some group
          | None => matchFirst (String a rest) (d +:+ s)
          end = matchFirst (String a rest) s).
  rewrite matchAt_first_char by done. by apply IH.
Qed.

(** No match of a literal whose second character is outside the class
    starts inside a stretch of class characters that is followed by yet
    another character. *)
Lemma matchFirst_hex (a g t : ascii) (rest h s : string) :
  isHexDash g = false ->
  Ascii.eqb g t = false ->
  forallb isHexDash (list_ascii_of_string h) = true ->
  matchFirst (String a (String g rest)) (h +:+ String t s)
  = matchFirst (String a (String g rest)) (String t s).
Proof.
  intros Hg Hgt. induction h as [|c h IH]; [done|].
  intros H. simpl in H. apply andb_true_iff in H as [Hc Hh].
  change (match matchAt (String a (String g rest))
                  (String c (h +:+ String t s)) with
          | Some group => Some group
          | None => matchFirst (String a (String g rest)) (h +:+ String t s)
          end
          = matchFirst (String a (String g rest)) (String t s)).
  assert (Hno : matchAt (String a (String g rest))
                  (String c (h +:+ String t s)) = None).
  { unfold matchAt. simpl. destruct (Ascii.eqb a c); [|done].
    destruct h as [|c' h]; simpl.
    - by rewrite Hgt.
    - simpl in Hh. apply andb_true_iff in Hh as [Hc' _].
      assert (Ascii.eqb g c' = false) as ->; [|done].
      apply Ascii.eqb_neq. intros ->. congruence. }
  rewrite Hno. by apply IH.
Qed.


Lemma mismatchWithin_stripPrefix (literal p s : string) :
  mismatchWithin literal p = true -> stripPrefix literal (p +:+ s) = None.
Proof.
  revert p. induction literal as [|a literal IH]; intros p; [done|].
  destruct p as [|b p]; [done|]. simpl.
  destruct (Ascii.eqb a b); [apply IH | done].
Qed.

Lemma matchFirst_unfold (literal : string) (c : ascii) (s : string) :
  matchFirst literal (String c s)
  = match matchAt literal (String c s) with
    | Some group => Some group
    | None => matchFirst literal s
    end.
Proof. reflexivity. Qed.

(** A fixed stretch of text in which no match can start is skipped. *)
Lemma matchFirst_past (literal p s : string) :
  noMatchWithin literal p = true ->
  matchFirst literal (p +:+ s) = matchFirst literal s.
Proof.
  induction p as [|c p IH]; [done|].
  intros H. cbn [noMatchWithin] in H. apply andb_true_iff in H as [Hc Hp].
  change (String c p +:+ s) with (String c (p +:+ s)).
  rewrite matchFirst_unfold.
  assert (matchAt literal (String c (p +:+ s)) = None) as ->.
  { unfold matchAt.
    change (String c (p +:+ s)) with (String c p +:+ s).
    by rewrite mismatchWithin_stripPrefix. }
  by apply IH.
Qed.



(** ** The lines of [agentLog], as the monitor reads them *)

Section MonitorLines.
Variables (runId : string) (n : Z).
Hypothesis Huuid : isUuidLike runId = true.

Lemma no_a_in_number :
  forallb (fun c => negb (Ascii.eqb "a" c))
    (list_ascii_of_string (numberToString n)) = true.
Proof.
  apply (numberToString_chars (fun c => negb (Ascii.eqb "a" c))); [|done].
  intros d. pose proof (pretty_N_char_cases d) as H. simpl in H.
  repeat destruct H as [<-|H]; done.
Qed.

Lemma hex_of_uuid : forallb isHexDash (list_ascii_of_string runId) = true.
Proof. by apply andb_true_iff in Huuid as [_ ?]. Qed.





Lemma stale_line_is_neither (literal : string) :
  literal = "agent run registered: " \/ literal = "agent run cleared: " ->
  matchFirst literal
    ("[agent] " +:+ logMessageText (ForceClearingStaleAgentRun runId n))
  = None.
Proof.
  change ("[agent] " +:+ logMessageText (ForceClearingStaleAgentRun runId n))
    with ("[agent] force-clearing stale agent run: "
          +:+ (runId
               +:+ String " " ("(exceeded " +:+ numberToString n +:+ "ms)"))).
  intros [-> | ->].
  - rewrite matchFirst_past by reflexivity.
    rewrite matchFirst_hex by (done || apply hex_of_uuid).
    change (String " " ("(exceeded " +:+ numberToString n +:+ "ms)"))
      with (" (exceeded " +:+ (numberToString n +:+ "ms)")).
    rewrite matchFirst_past by reflexivity.
    rewrite matchFirst_skip by apply no_a_in_number.
    reflexivity.
  - rewrite matchFirst_past by reflexivity.
    rewrite matchFirst_hex by (done || apply hex_of_uuid).
    change (String " " ("(exceeded " +:+ numberToString n +:+ "ms)"))
      with (" (exceeded " +:+ (numberToString n +:+ "ms)")).
    rewrite matchFirst_past by reflexivity.
    rewrite matchFirst_skip by apply no_a_in_number.
    reflexivity.
Qed.

End MonitorLines.

(** ** Lines and files *)

Lemma chars_app (a b : string) :
  list_ascii_of_string (a +:+ b)
  = list_ascii_of_string a ++ list_ascii_of_string b.
Proof. induction a as [|c a IH]; simpl; [done | by rewrite IH]. Qed.

Lemma splitLines_line (line rest : string) :
  forallb (fun c => negb (Ascii.eqb c "010")) (list_ascii_of_string line)
  = true ->
  splitLines (line +:+ newline +:+ rest) = line :: splitLines rest.
Proof.
  induction line as [|c line IH]; [done|].
  simpl. intros H. apply andb_true_iff in H as [Hc Hl].
  apply negb_true_iff in Hc. rewrite Hc.
  change (line +:+ String "010" rest) with (line +:+ newline +:+ rest).
  by rewrite IH.
Qed.

Lemma splitLines_content (lines : list string) :
  forallb
    (fun line =>
       forallb (fun c => negb (Ascii.eqb c "010")) (list_ascii_of_string line))
    lines = true ->
  splitLines (linesToContent lines) = lines ++ [""].
Proof.
  induction lines as [|line lines IH]; [done|].
  simpl. intros H. apply andb_true_iff in H as [Hl Hr].
  rewrite splitLines_line by done. by rewrite IH.
Qed.

Lemma isHexDash_no_newline (c : ascii) :
  isHexDash c = true -> negb (Ascii.eqb c "010") = true.
Proof. destruct c as [[] [] [] [] [] [] [] []]; vm_compute; done. Qed.

Lemma agentLog_line_has_no_newline (msg : LogMessage) :
  isUuidLike (logMessageRunId msg) = true ->
  forallb (fun c => negb (Ascii.eqb c "010"))
    (list_ascii_of_string ("[agent] " +:+ logMessageText msg)) = true.
Proof.
  intros H. apply andb_true_iff in H as [_ Hhex].
  assert (Hid : forallb (fun c => negb (Ascii.eqb c "010"))
                  (list_ascii_of_string (logMessageRunId msg)) = true).
  { apply forallb_forall. intros c Hc.
    apply isHexDash_no_newline. rewrite forallb_forall in Hhex. by apply Hhex. }
  assert (Hnum : forall z,
             forallb (fun c => negb (Ascii.eqb c "010"))
               (list_ascii_of_string (numberToString z)) = true).
  { intros z.
    apply (numberToString_chars (fun c => negb (Ascii.eqb c "010"))); [|done].
    intros d. pose proof (pretty_N_char_cases d) as H. simpl in H.
    repeat destruct H as [<-|H]; done. }
  destruct msg as [runId k|runId k|runId k]; simpl in Hid;
    unfold logMessageText;
    rewrite !chars_app, !forallb_app, Hid, Hnum; reflexivity.
Qed.



(** ** The log and the registry *)




Section LogAndRegistry.
Context {Env : Type}.
Implicit Types (w s : World Env) (runId : string) (tm : Timer).







End LogAndRegistry.


Lemma register_new_id_reads_back_witness :
  "run-2" <> ""
  /\ getAgentRunContext "run-2"
       (finalState (registerAgentRunContext "run-1" noContext sampleWorld))
     = None
  /\ exists w',
       registerAgentRunContext "run-2" mainContext
         (finalState (registerAgentRunContext "run-1" noContext sampleWorld))
       = Normal w'
       /\ getAgentRunContext "run-2" w' = Some mainContext
       /\ getActiveAgentRunIds w' = ["run-1"; "run-2"]
       /\ getActiveAgentRunCount w' = 2.
Proof.
  split; [done|]. split; [reflexivity|].
  destruct (register_new_id_reads_back "run-2" mainContext
              (finalState
                 (registerAgentRunContext "run-1" noContext sampleWorld)))
    as (w' & E & Hget & _ & Hids & Hcount & _); [done | reflexivity |].
  exists w'. repeat split; done.
Defined.

Lemma register_then_clear_restores_registry_witness :
  "x" <> ""
  /\ getAgentRunContext "x" recordingWorld = None
  /\ exists w1 w2,
       registerAgentRunContext "x" mainContext recordingWorld = Normal w1
       /\ clearAgentRunContext "x" w1 = Normal w2
       /\ runContextById w2 = runContextById recordingWorld
       /\ env w2 = [(1%nat, 0); (2%nat, 0)].
Proof.
  split; [done|]. split; [reflexivity|].
  destruct (register_then_clear_restores_registry "x" mainContext
              recordingWorld)
    as (w1 & w2 & E1 & E2 & Hreg & _ & Henv & _); [done | reflexivity |].
  exists w1, w2. repeat split; done.
Defined.

(** ** The monitor without debug logging *)

Lemma scan_silent_lines (lines : list string)
  (sets : gset string * gset string) :
  Forall
    (fun line =>
       matchFirst "agent run registered: " line = None
       /\ matchFirst "agent run cleared: " line = None)
    lines ->
  fold_left scanLine lines sets = sets.
Proof.
  intros H. revert sets.
  induction H as [|line lines [Hr Hc] _ IH]; intros sets; [done|].
  cbn [fold_left]. unfold scanLine at 2. rewrite Hr, Hc, IH.
  by destruct sets.
Qed.

Section WithoutDebug.
Context {Env : Type}.
Implicit Types (w s : World Env) (runId : string) (tm : Timer).

(** [agentLog.warn] is only ever called with the notice of a forced
    clearing. *)
Lemma warnings_clear runId s :
  (forall msg, LogWarn msg ∈ log s ->
     exists x n, msg = ForceClearingStaleAgentRun x n) ->
  exists s',
    clearAgentRunContext runId s = Normal s'
    /\ forall msg, LogWarn msg ∈ log s' ->
         exists x n, msg = ForceClearingStaleAgentRun x n.
Proof.
  intros H. rewrite clearAgentRunContext_eq. eexists; split; [done|].
  destruct (JsMap.has runId (runContextById s)); [|done].
  intros msg. cbn [log]. rewrite elem_of_app, list_elem_of_singleton.
  intros [Hin|Heq]; [by apply H | done].
Qed.

Lemma warnings_step (o : Op Env) s :
  (forall msg, LogWarn msg ∈ log s ->
     exists x n, msg = ForceClearingStaleAgentRun x n) ->
  exists s',
    doOp o s = Normal s'
    /\ forall msg, LogWarn msg ∈ log s' ->
         exists x n, msg = ForceClearingStaleAgentRun x n.
Proof.
  intros H. destruct o as [id c|id|event|cb|cb|l|l|dt]; simpl.
  - rewrite registerAgentRunContext_eq. eexists; split; [done|].
    destruct (negb (truthyString id)); [done|].
    destruct (JsMap.get id (runContextById s)); [done|].
    intros msg. cbn [log]. rewrite elem_of_app, list_elem_of_singleton.
    intros [Hin|Heq]; [by apply H | done].
  - by apply warnings_clear.
  - rewrite emitAgentEvent_eq. eexists; split; [done|]. done.
  - eexists; split; [done|]. done.
  - eexists; split; [done|]. done.
  - eexists; split; [done|]. done.
  - eexists; split; [done|]. done.
  - unfold advanceClock.
    apply (forOf_completed _ _
             (fun s => forall msg, LogWarn msg ∈ log s ->
                  exists x n, msg = ForceClearingStaleAgentRun x n));
      [|done].
    intros tm s0 H0. rewrite runTimer_eq.
    destruct (JsMap.has (timerRunId tm) (runContextById s0)); [|eauto].
    apply warnings_clear. intros msg. cbn [log agentLog_warn withLog].
    rewrite elem_of_app, list_elem_of_singleton.
    intros [Hin|Heq]; [by apply H0 | injection Heq as ->; eauto].
Qed.

(** X17: without debug logging the monitor is blind: when [DEBUG] enables
    nothing (and the ids in the log are made of [[a-f0-9-]]), the lines
    that [agentLog] prints hold only the notices of forced clearings, none
    of which the two patterns match, so [checkActiveAgentRuns] resolves
    with 0 whatever the registry holds. *)
Theorem monitor_counts_nothing_without_debug (ops : list (Op Env)) (t0 : Z)
  (e : Env) (DEBUG : option string) :
  debugEnabled DEBUG = false ->
  forallb (fun entry => isUuidLike (logMessageRunId (logEntryMessage entry)))
    (log (finalState (runOps ops (initialWorld t0 e)))) = true ->
  checkActiveAgentRuns
    (FileContent
       (linesToContent
          (consoleLines DEBUG
             (log (finalState (runOps ops (initialWorld t0 e)))))))
  = (0, None).
Proof.
  intros Hdebug Huuid.
  destruct (forOf_completed ops doOp
              (fun s => forall msg, LogWarn msg ∈ log s ->
                   exists x n, msg = ForceClearingStaleAgentRun x n)
              warnings_step (initialWorld t0 e)) as (w & E & Hwarn).
  { intros msg Hin. by apply elem_of_nil in Hin. }
  fold (runOps ops (initialWorld t0 e)) in E.
  rewrite E in *. cbn [finalState] in *.
  assert (Hlines : Forall
            (fun line =>
               forallb (fun c => negb (Ascii.eqb c "010"))
                 (list_ascii_of_string line) = true
               /\ matchFirst "agent run registered: " line = None
               /\ matchFirst "agent run cleared: " line = None)
            (consoleLines DEBUG (log w))).
  { unfold consoleLines. rewrite Hdebug.
    rewrite forallb_forall in Huuid.
    induction (log w) as [|entry entries IH]; [constructor|].
    cbn [flat_map].
    assert (Hrest : Forall
              (fun line =>
                 forallb (fun c => negb (Ascii.eqb c "010"))
                   (list_ascii_of_string line) = true
                 /\ matchFirst "agent run registered: " line = None
                 /\ matchFirst "agent run cleared: " line = None)
              (flat_map
                 (fun entry =>
                    match entry with
                    | LogDebug _ => []
                    | LogWarn msg => ["[agent] " +:+ logMessageText msg]
                    end) entries)).
    { apply IH.
      - intros x Hin. apply Huuid. by right.
      - intros msg Hin. apply Hwarn. by right. }
    destruct entry as [msg|msg]; [exact Hrest|].
    apply Forall_app. split; [|exact Hrest].
    apply Forall_singleton.
    destruct (Hwarn msg) as (x & n & ->); [by left|].
    assert (Hx : isUuidLike x = true).
    { apply (Huuid (LogWarn (ForceClearingStaleAgentRun x n))). by left. }
    split; [by apply agentLog_line_has_no_newline|].
    split; apply stale_line_is_neither; auto. }
  unfold checkActiveAgentRuns.
  rewrite splitLines_content.
  2:{ apply forallb_forall. intros line Hin.
      rewrite Forall_forall in Hlines.
      apply Hlines. by apply list_elem_of_In. }
  rewrite scan_silent_lines; [done|].
  unfold sliceLast. apply Forall_drop, Forall_app. split.
  - eapply Forall_impl; [exact Hlines|]. intros line (_ & Hr & Hc). done.
  - apply Forall_singleton. split; reflexivity.
Qed.

End WithoutDebug.

Lemma monitor_counts_nothing_without_debug_witness :
  let ops : list (Op unit) :=
    [OpRegister "ab-12" mainContext; OpRegister "cd" noContext;
     OpAdvanceClock 600000; OpRegister "ef" noContext] in
  getActiveAgentRunCount (finalState (runOps ops (initialWorld 0 tt))) = 1
  /\ checkActiveAgentRuns
       (FileContent
          (linesToContent
             (consoleLines None
                (log (finalState (runOps ops (initialWorld 0 tt)))))))
     = (0, None).
Proof.
  intros ops. split; [reflexivity|].
  apply (monitor_counts_nothing_without_debug ops 0 tt None); reflexivity.
Defined.
